(** * opencode-sdlc: workflow state, track-phase tool and quality gates

    A shallow embedding of
      - [lib/workflow-state.ts]   (phase state, transition log, report),
      - [tool/track-phase.ts]     (the track-phase tool),
      - [plugin/quality-gate.ts]  (gate recipes, enforcement hook, session
                                   events, quality report),
      - the check-quality-gate tool (the second part of [tool/view-metrics.ts]
                                   in the sources),
      - the WorkflowTracker plugin (the second part of
                                   [plugin/compliance-checker.ts] in the sources),
    and the properties of the specification that concern them, followed by
    further properties of the code.

    JavaScript strings are modelled as byte strings holding their UTF-8
    encoding; the module-level variables of [workflow-state.ts], the project
    files and the emitted notifications are fields of an explicit [World];
    exceptions are the [Throws] outcome of a small state-and-exception monad. *)

From Stdlib Require Import ZArith QArith Ascii String DecimalString.
From Stdlib Require DecimalZ.
From stdpp Require Import base gmap strings list fin_maps.

Local Open Scope string_scope.

(** ** JavaScript strings *)

Module JsString.

Definition LF : ascii := "010"%char.
Definition quote : ascii := "034"%char.
Definition colon : ascii := ":"%char.

Definition bytes (codes : list nat) : list ascii := ascii_of_nat <$> codes.

(** [WhiteSpace] and [LineTerminator] code points of ECMAScript, as the
    UTF-8 byte sequences that encode them; [String.prototype.trim] strips
    exactly these. *)
Definition white_space : list (list ascii) :=
  [ bytes [9]; bytes [10]; bytes [11]; bytes [12]; bytes [13]; bytes [32];
    bytes [194; 160];                     (* U+00A0 *)
    bytes [225; 154; 128];                (* U+1680 *)
    bytes [226; 128; 128]; bytes [226; 128; 129]; bytes [226; 128; 130];
    bytes [226; 128; 131]; bytes [226; 128; 132]; bytes [226; 128; 133];
    bytes [226; 128; 134]; bytes [226; 128; 135]; bytes [226; 128; 136];
    bytes [226; 128; 137]; bytes [226; 128; 138];   (* U+2000 .. U+200A *)
    bytes [226; 128; 168]; bytes [226; 128; 169];   (* U+2028, U+2029 *)
    bytes [226; 128; 175];                (* U+202F *)
    bytes [226; 129; 159];                (* U+205F *)
    bytes [227; 128; 128];                (* U+3000 *)
    bytes [239; 187; 191] ].              (* U+FEFF *)

Fixpoint strip_prefix (p s : list ascii) : option (list ascii) :=
  match p, s with
  | [], _ => Some s
  | a :: p', b :: s' => if Ascii.eqb a b then strip_prefix p' s' else None
  | _ :: _, [] => None
  end.

Fixpoint strip_any (ps : list (list ascii)) (s : list ascii) : option (list ascii) :=
  match ps with
  | [] => None
  | p :: ps' =>
      match strip_prefix p s with
      | Some rest => Some rest
      | None => strip_any ps' s
      end
  end.

Fixpoint strip_all (fuel : nat) (ps : list (list ascii)) (s : list ascii) : list ascii :=
  match fuel with
  | O => s
  | S fuel' =>
      match strip_any ps s with
      | Some rest => strip_all fuel' ps rest
      | None => s
      end
  end.

Definition trimStart_bytes (s : list ascii) : list ascii :=
  strip_all (length s) white_space s.

Definition trimEnd_bytes (s : list ascii) : list ascii :=
  rev (strip_all (length s) (map (@rev ascii) white_space) (rev s)).

(** [s.trim()] *)
Definition trim (s : string) : string :=
  string_of_list_ascii (trimEnd_bytes (trimStart_bytes (list_ascii_of_string s))).

(** [s.split(sep)] for a one-byte separator: never the empty list, the
    empty string splits into one empty piece. *)
Fixpoint split (sep : ascii) (s : string) : list string :=
  match s with
  | EmptyString => [EmptyString]
  | String c s' =>
      if Ascii.eqb c sep then EmptyString :: split sep s'
      else match split sep s' with
           | [] => [String c EmptyString]
           | piece :: pieces => String c piece :: pieces
           end
  end.

(** [s.split(sep)[0]] *)
Definition split_head (sep : ascii) (s : string) : string :=
  match split sep s with
  | [] => EmptyString
  | piece :: _ => piece
  end.

(** [xs.join(sep)] *)
Fixpoint join (sep : string) (xs : list string) : string :=
  match xs with
  | [] => EmptyString
  | [x] => x
  | x :: rest => x +:+ sep +:+ join sep rest
  end.

Definition lower (c : ascii) : ascii :=
  let n := nat_of_ascii c in
  if (Nat.leb 65 n && Nat.leb n 90)%bool then ascii_of_nat (n + 32) else c.

(** [s.toLowerCase()] on the ASCII letters.  On other characters the
    ECMAScript function follows the Unicode case mapping; no character
    outside ASCII lower-cases to a letter of a phase name, so membership of
    the result in an ASCII word list is the same either way. *)
Fixpoint toLowerCase (s : string) : string :=
  match s with
  | EmptyString => EmptyString
  | String c s' => String (lower c) (toLowerCase s')
  end.

Fixpoint starts_with (p s : string) : bool :=
  match p, s with
  | EmptyString, _ => true
  | String a p', String b s' => Ascii.eqb a b && starts_with p' s'
  | String _ _, EmptyString => false
  end.

(** [s.includes(p)] *)
Fixpoint includes (s p : string) : bool :=
  starts_with p s ||
  match s with
  | EmptyString => false
  | String _ s' => includes s' p
  end.

(** [xs.includes(x)] on an array of strings *)
Definition array_includes (xs : list string) (x : string) : bool :=
  bool_decide (x ∈ xs).

(** a string is falsy exactly when it is empty *)
Definition truthy (s : string) : bool :=
  match s with EmptyString => false | String _ _ => true end.

End JsString.

(** ** JavaScript numbers

    Finite doubles are rationals and their comparison is the comparison of
    the rationals, so a number is a rational, an infinity or NaN. *)

Module JsNumber.

Local Open Scope Z_scope.

Inductive number : Type :=
| NaN
| Finite (q : Q)
| PosInfinity
| NegInfinity.

Definition of_Z (z : Z) : number := Finite (inject_Z z).

Definition Qltb (a b : Q) : bool := (Qnum a * QDen b <? Qnum b * QDen a)%Z.

(** [a < b]: false as soon as one side is NaN *)
Definition lt (a b : number) : bool :=
  match a, b with
  | NaN, _ | _, NaN => false
  | Finite x, Finite y => Qltb x y
  | Finite _, PosInfinity => true
  | Finite _, NegInfinity => false
  | PosInfinity, _ => false
  | NegInfinity, NegInfinity => false
  | NegInfinity, _ => true
  end.

(** falsy numbers: 0, -0 and NaN *)
Definition truthy (a : number) : bool :=
  match a with
  | NaN => false
  | Finite q => negb (Qeq_bool q 0)
  | PosInfinity | NegInfinity => true
  end.

(** [v || 0] for an optional number [v] *)
Definition or_zero (v : option number) : number :=
  match v with
  | Some a => if truthy a then a else of_Z 0
  | None => of_Z 0
  end.

Definition digit_value (radix : Z) (c : ascii) : option Z :=
  let n := Z.of_nat (nat_of_ascii c) in
  let d := if (48 <=? n) && (n <=? 57) then Some (n - 48)
           else if (97 <=? n) && (n <=? 122) then Some (n - 87)
           else if (65 <=? n) && (n <=? 90) then Some (n - 55)
           else None in
  match d with
  | Some v => if v <? radix then Some v else None
  | None => None
  end.

(** the longest prefix of digits, as (value, number of digits) *)
Fixpoint digits (radix : Z) (acc : Z) (count : nat) (s : list ascii) : Z * nat :=
  match s with
  | [] => (acc, count)
  | c :: s' =>
      match digit_value radix c with
      | Some v => digits radix (acc * radix + v) (S count) s'
      | None => (acc, count)
      end
  end.

(** [parseInt(s)] without a radix argument: leading white space, a sign,
    an optional [0x]/[0X] prefix, then the longest run of digits; NaN when
    there is none.  The result is the exact integer (ECMAScript rounds it to
    a double, which changes nothing below 2^53). *)
Definition parseInt (s : string) : number :=
  let s0 := JsString.trimStart_bytes (list_ascii_of_string s) in
  let '(sign, s1) :=
    match s0 with
    | c :: rest =>
        if Ascii.eqb c "-" then (-1, rest)
        else if Ascii.eqb c "+" then (1, rest)
        else (1, s0)
    | [] => (1, s0)
    end in
  let '(radix, s2) :=
    match s1 with
    | z :: x :: rest =>
        if Ascii.eqb z "0" && (Ascii.eqb x "x" || Ascii.eqb x "X")
        then (16, rest) else (10, s1)
    | _ => (10, s1)
    end in
  match digits radix 0 O s2 with
  | (_, O) => NaN
  | (v, S _) => of_Z (sign * v)
  end.

Local Close Scope Z_scope.

End JsNumber.

Import JsString JsNumber.

(** ** Outcomes, records and the world *)

(** A JavaScript evaluation either returns a value or throws; the thrown
    value is kept as the text that [`${error}`] renders. *)
Inductive Outcome (A : Type) : Type :=
| Returns (a : A)
| Throws (e : string).
Arguments Returns {A} a.
Arguments Throws {A} e.

(** [interface WorkflowTransition] of [workflow-state.ts] *)
Record WorkflowTransition : Type := {
  timestamp : string;
  from : option string;
  to : string;
  duration : Z;
  t_filesModified : option (list string)
}.

Record PhaseStats : Type := {
  count : nat;
  totalDuration : Z
}.

(** [interface WorkflowReport]; [phases] is a plain object used as a
    dictionary, [filesChanged] a [Set] kept in insertion order. *)
Record WorkflowReport : Type := {
  totalTransitions : nat;
  phases : gmap string PhaseStats;
  filesChanged : list string
}.

(** [interface GateResult] of [quality-gate.ts] *)
Record GateResult : Type := {
  passed : bool;
  message : string;
  transition : string;
  g_timestamp : string
}.

Inductive Mode : Type := warning | strict.

(** [interface GateLog] *)
Record GateLog : Type := {
  l_transition : string;
  l_passed : bool;
  l_message : string;
  l_timestamp : string;
  mode : Mode;
  blocked : bool
}.

Record TransitionStats : Type := {
  total : nat;
  s_passed : nat;
  s_failed : nat
}.

(** A value of [commonFailures]: a count, or the text that [+ 1] produces
    when the entry was first read through the prototype chain. *)
Inductive FailureCount : Type :=
| Count (n : nat)
| Garbled.

(** [passRate]: the text of [toFixed(2)], or the number 0 *)
Inductive PassRate : Type :=
| RateText (s : string)
| RateZero.

Record QualityReport : Type := {
  totalChecks : nat;
  q_passed : nat;
  q_failed : nat;
  q_blocked : nat;
  passRate : PassRate;
  byTransition : gmap string TransitionStats;
  commonFailures : gmap string FailureCount
}.

(** The part of [coverage/coverage-summary.json] that the gate reads:
    [coverage.total?.lines?.pct]. *)
Record LinesSummary : Type := { pct : option number }.
Record TotalSummary : Type := { lines : option LinesSummary }.
Record CoverageSummary : Type := { c_total : option TotalSummary }.

(** Built-in functions of the JavaScript host that the code calls.  Parsing
    is typed by the interface the source ascribes to its result; a text that
    [JSON.parse] rejects is a [Throws]. *)
Class JsBuiltins : Type := {
  toISOString : Z -> string;
  Number_toString : number -> string;
  JSON_stringify_transition : WorkflowTransition -> string;
  JSON_stringify_gatelog : GateLog -> string;
  JSON_stringify_report : WorkflowReport -> string;
  JSON_stringify_quality : QualityReport -> string;
  JSON_parse_transition : string -> Outcome WorkflowTransition;
  JSON_parse_gatelog : string -> Outcome GateLog;
  JSON_parse_coverage : string -> Outcome CoverageSummary;
  (** [((p / n) * 100).toFixed(2)] for integers [p], [n] *)
  percent_toFixed2 : nat -> nat -> string
}.

(** The files under [.opencode/workflow/] *)
Inductive File : Type :=
| transitions_jsonl
| report_json
| quality_gates_jsonl
| quality_report_json.

Global Instance File_eq_dec : EqDecision File.
Proof. solve_decision. Defined.

Record FileSystem : Type := {
  workflowDir : bool;                 (* the directory exists *)
  content : File -> option string     (* None: the file does not exist *)
}.

(** Module-level variables of [workflow-state.ts] *)
Record WorkflowState : Type := {
  currentPhase : option string;
  phaseStartTime : option Z;
  filesModified : list string         (* a Set, in insertion order *)
}.

Inductive NotificationVariant : Type :=
| toast_success
| toast_error
| toast_warning
| toast_info.

(** The external processes that the gates start through [$`...`] *)
Inductive Command : Type :=
| find_design_files       (* find . -name "*.design.md" -o ... *)
| test_tsconfig           (* test -f tsconfig.json && echo true || echo false *)
| npx_tsc                 (* npx tsc --noEmit *)
| test_eslint_config      (* test -f .eslintrc.* -o -f eslint.config.* && ... *)
| npx_eslint              (* npx eslint . --max-warnings 0 *)
| grep_npm_test           (* grep -q test package.json && ... *)
| npm_test                (* npm test *)
| test_coverage_file      (* test -f coverage/coverage-summary.json && ... *)
| cat_coverage_file       (* cat coverage/coverage-summary.json *)
| npm_audit               (* npm audit --audit-level=high *)
| test_changelog.         (* test -f CHANGELOG.md && ... *)

Global Instance Command_eq_dec : EqDecision Command.
Proof. solve_decision. Defined.

Record ShellOutput : Type := {
  exitCode : Z;
  stdout : string
}.

Inductive IoOp : Type :=
| io_mkdir
| io_append (f : File)
| io_write (f : File)
| io_read (f : File).

(** What the code cannot decide: the result of each external process, the
    faults of the file system and the readings of the clock (the k-th
    reading is [clock k], in milliseconds). *)
Record Oracle : Type := {
  shell : Command -> Outcome ShellOutput;
  io_error : IoOp -> option string;
  clock : nat -> Z
}.

Record World : Type := {
  wf : WorkflowState;
  fs : FileSystem;
  recentModifications : gmap string (list string);   (* quality-gate closure *)
  toasts : list (NotificationVariant * string);     (* notifications shown *)
  spawned : list Command;                            (* processes started *)
  ticks : nat                                        (* clock readings made *)
}.

Definition set_wf (f : WorkflowState -> WorkflowState) (w : World) : World :=
  {| wf := f (wf w); fs := fs w; recentModifications := recentModifications w;
     toasts := toasts w; spawned := spawned w; ticks := ticks w |}.

Definition set_fs (f : FileSystem -> FileSystem) (w : World) : World :=
  {| wf := wf w; fs := f (fs w); recentModifications := recentModifications w;
     toasts := toasts w; spawned := spawned w; ticks := ticks w |}.

Definition set_recentModifications
    (f : gmap string (list string) -> gmap string (list string)) (w : World) : World :=
  {| wf := wf w; fs := fs w; recentModifications := f (recentModifications w);
     toasts := toasts w; spawned := spawned w; ticks := ticks w |}.

Definition add_toast (t : NotificationVariant * string) (w : World) : World :=
  {| wf := wf w; fs := fs w; recentModifications := recentModifications w;
     toasts := toasts w ++ [t]; spawned := spawned w; ticks := ticks w |}.

Definition add_spawned (c : Command) (w : World) : World :=
  {| wf := wf w; fs := fs w; recentModifications := recentModifications w;
     toasts := toasts w; spawned := spawned w ++ [c]; ticks := ticks w |}.

Definition tick (w : World) : World :=
  {| wf := wf w; fs := fs w; recentModifications := recentModifications w;
     toasts := toasts w; spawned := spawned w; ticks := S (ticks w) |}.

Definition write_content (f : File) (data : string) (d : FileSystem) : FileSystem :=
  {| workflowDir := workflowDir d;
     content := fun g => if decide (g = f) then Some data else content d g |}.

(** ** The monad of effects *)

Definition M (A : Type) : Type := Oracle -> World -> Outcome A * World.

Definition ret {A} (a : A) : M A := fun _ w => (Returns a, w).

Definition throw {A} (e : string) : M A := fun _ w => (Throws e, w).

Definition bind {A B} (m : M A) (k : A -> M B) : M B :=
  fun o w =>
    match m o w with
    | (Returns a, w') => k a o w'
    | (Throws e, w') => (Throws e, w')
    end.

(** [try { m } catch (error) { handler error }] *)
Definition try_catch {A} (m : M A) (handler : string -> M A) : M A :=
  fun o w =>
    match m o w with
    | (Returns a, w') => (Returns a, w')
    | (Throws e, w') => handler e o w'
    end.

Definition lift {A} (r : Outcome A) : M A := fun _ w => (r, w).

Definition gets {A} (f : World -> A) : M A := fun _ w => (Returns (f w), w).

Definition modify (f : World -> World) : M unit := fun _ w => (Returns tt, f w).

Declare Scope js_scope.
Delimit Scope js_scope with js.
Notation "'let*' x ':=' m 'in' k" := (bind m (fun x => k))
  (at level 10, x name, m at level 100, k at level 200) : js_scope.
Notation "m ';;;' k" := (bind m (fun _ => k))
  (at level 100, k at level 200, right associativity) : js_scope.
Local Open Scope js_scope.

(** [xs.map(f)] for a callback that may throw: the first throw ends it *)
Fixpoint mapM {A B} (f : A -> M B) (xs : list A) : M (list B) :=
  match xs with
  | [] => ret []
  | x :: rest =>
      let* y := f x in
      let* ys := mapM f rest in
      ret (y :: ys)
  end.

(** *** Clock, file system, processes, notifications *)

(** [Date.now()], [new Date().getTime()] *)
Definition Date_now : M Z :=
  fun o w => (Returns (clock o (ticks w)), tick w).

(** [new Date().toISOString()] *)
Definition Date_toISOString `{JsBuiltins} : M string :=
  let* t := Date_now in ret (toISOString t).

Definition existsSync (f : File) : M bool :=
  gets (fun w => bool_decide (is_Some (content (fs w) f))).

Definition existsSync_workflowDir : M bool :=
  gets (fun w => workflowDir (fs w)).

(** [mkdirSync(workflowDir, { recursive: true })] *)
Definition mkdirSync : M unit :=
  fun o w =>
    match io_error o io_mkdir with
    | Some e => (Throws e, w)
    | None =>
        (Returns tt,
         set_fs (fun d => {| workflowDir := true; content := content d |}) w)
    end.

(** [appendFileSync(f, data)]: creates the file when it is absent; fails
    when the file system reports a fault or the directory is missing. *)
Definition appendFileSync (f : File) (data : string) : M unit :=
  fun o w =>
    match io_error o (io_append f) with
    | Some e => (Throws e, w)
    | None =>
        if workflowDir (fs w) then
          let old := default EmptyString (content (fs w) f) in
          (Returns tt, set_fs (write_content f (old +:+ data)) w)
        else (Throws "ENOENT: no such file or directory", w)
    end.

(** [writeFileSync(f, data)]: replaces the content *)
Definition writeFileSync (f : File) (data : string) : M unit :=
  fun o w =>
    match io_error o (io_write f) with
    | Some e => (Throws e, w)
    | None =>
        if workflowDir (fs w) then
          (Returns tt, set_fs (write_content f data) w)
        else (Throws "ENOENT: no such file or directory", w)
    end.

(** [readFileSync(f, "utf-8")] *)
Definition readFileSync (f : File) : M string :=
  fun o w =>
    match io_error o (io_read f) with
    | Some e => (Throws e, w)
    | None =>
        match content (fs w) f with
        | Some data => (Returns data, w)
        | None => (Throws "ENOENT: no such file or directory", w)
        end
    end.

(** [await $`cmd`]: the process is started, then its result or its failure
    comes back. *)
Definition run (c : Command) : M ShellOutput :=
  fun o w => (shell o c, add_spawned c w).

(** [await $`cmd`.text()] *)
Definition run_text (c : Command) : M string :=
  let* out := run c in ret (stdout out).

(** [notifier.show]: the toast is best effort and never throws *)
Definition notifier_show (variant : NotificationVariant) (msg : string) : M unit :=
  modify (add_toast (variant, msg)).

(** ** lib/workflow-state.ts *)

Module workflow_state.
Section with_builtins.
Context `{JsBuiltins}.

Definition initial : WorkflowState :=
  {| currentPhase := None; phaseStartTime := None; filesModified := [] |}.

(** [set.add(x)] on a Set kept in insertion order *)
Definition Set_add (x : string) (xs : list string) : list string :=
  if bool_decide (x ∈ xs) then xs else xs ++ [x].

Definition initializeWorkflowState : M unit :=
  let* present := existsSync_workflowDir in
  if negb present then mkdirSync else ret tt.

Definition logTransition (from : option string) (to : string) (files : list string) : M unit :=
  let* stamp := Date_toISOString in
  let* started := gets (fun w => phaseStartTime (wf w)) in
  let* elapsed :=
    match started with
    | Some t0 => let* now := Date_now in ret (now - t0)%Z
    | None => ret 0%Z
    end in
  let transition :=
    {| timestamp := stamp; from := from; to := to; duration := elapsed;
       t_filesModified := Some files |} in
  appendFileSync transitions_jsonl
    (JSON_stringify_transition transition +:+ String LF EmptyString).

(** Member names that every plain object inherits from [Object.prototype].
    Reading one of them from an object that has no own property of that
    name yields the inherited (truthy) built-in. *)
Definition Object_prototype_names : list string :=
  [ "constructor"; "__defineGetter__"; "__defineSetter__"; "hasOwnProperty";
    "__lookupGetter__"; "__lookupSetter__"; "isPrototypeOf";
    "propertyIsEnumerable"; "toString"; "valueOf"; "__proto__";
    "toLocaleString" ].

Inductive Property (V : Type) : Type :=
| Own (v : V)
| Inherited
| Absent.
Arguments Own {V} v.
Arguments Inherited {V}.
Arguments Absent {V}.

(** [obj[key]] on a plain object used as a dictionary *)
Definition get_property {V} (obj : gmap string V) (key : string) : Property V :=
  match obj !! key with
  | Some v => Own v
  | None => if array_includes Object_prototype_names key then Inherited else Absent
  end.

(** The body of [transitions.forEach((t) => ...)].  When [t.to] names an
    inherited member, [report.phases[t.to]] is truthy without being an own
    property, so no entry is created and the two updates land on the
    built-in object: [report.phases] itself keeps its entries.  Durations
    are the whole milliseconds that [logTransition] writes and are added as
    integers: that is the source's addition of numbers as long as the sums
    stay within 2^53, the range in which every integer is a number. *)
Definition report_step (report : WorkflowReport) (t : WorkflowTransition) : WorkflowReport :=
  let phases' :=
    if JsString.truthy (to t) then
      match get_property (phases report) (to t) with
      | Own st =>
          <[to t := {| count := S (count st);
                       totalDuration := (totalDuration st + duration t)%Z |}]>
            (phases report)
      | Absent =>
          <[to t := {| count := 1; totalDuration := (0 + duration t)%Z |}]>
            (phases report)
      | Inherited => phases report
      end
    else phases report in
  let files' :=
    match t_filesModified t with
    | Some files => fold_left (fun acc f => Set_add f acc) files (filesChanged report)
    | None => filesChanged report
    end in
  {| totalTransitions := totalTransitions report;
     phases := phases'; filesChanged := files' |}.

Definition no_data : string := "No workflow data available yet.".

Definition generateReport : M (WorkflowReport + string) :=
  let* present := existsSync transitions_jsonl in
  if negb present then ret (inr no_data)
  else
    let* data := readFileSync transitions_jsonl in
    let lines := split LF (trim data) in
    let* transitions := mapM (fun line => lift (JSON_parse_transition line)) lines in
    let report :=
      fold_left report_step transitions
        {| totalTransitions := length transitions; phases := ∅; filesChanged := [] |} in
    writeFileSync report_json (JSON_stringify_report report) ;;;
    ret (inl report).

Definition getCurrentPhase : M (option string) :=
  gets (fun w => currentPhase (wf w)).

Definition setCurrentPhase (phase : string) : M unit :=
  modify (set_wf (fun s =>
    {| currentPhase := Some phase; phaseStartTime := phaseStartTime s;
       filesModified := filesModified s |})) ;;;
  let* now := Date_now in
  modify (set_wf (fun s =>
    {| currentPhase := currentPhase s; phaseStartTime := Some now;
       filesModified := filesModified s |})).

Definition getFilesModified : M (list string) :=
  gets (fun w => filesModified (wf w)).

Definition addModifiedFile (filePath : string) : M unit :=
  modify (set_wf (fun s =>
    {| currentPhase := currentPhase s; phaseStartTime := phaseStartTime s;
       filesModified := Set_add filePath (filesModified s) |})).

Definition clearModifiedFiles : M unit :=
  modify (set_wf (fun s =>
    {| currentPhase := currentPhase s; phaseStartTime := phaseStartTime s;
       filesModified := [] |})).

End with_builtins.
Arguments Own {V} v.
Arguments Inherited {V}.
Arguments Absent {V}.
End workflow_state.

(** ** tool/track-phase.ts *)

Module track_phase.
Section with_builtins.
Context `{JsBuiltins}.
Import workflow_state.

Definition validPhases : list string :=
  ["plan"; "design"; "implement"; "test"; "review"; "release"; "operate"].

Definition invalid_phase (phase : string) : string :=
  "❌ Invalid phase: " +:+ phase +:+ ". Must be one of: " +:+ join ", " validPhases.

Definition transitioned (phase : string) (previousPhase : option string) : string :=
  "✅ Transitioned to " +:+ phase +:+ " phase" +:+
  match previousPhase with
  | Some p => if JsString.truthy p then " from " +:+ p else EmptyString
  | None => EmptyString
  end.

Definition execute (phase : string) : M string :=
  if negb (array_includes validPhases (toLowerCase phase)) then
    ret (invalid_phase phase)
  else
    initializeWorkflowState ;;;
    let* previousPhase := getCurrentPhase in
    let* modifiedFiles := getFilesModified in
    logTransition previousPhase phase modifiedFiles ;;;
    setCurrentPhase phase ;;;
    clearModifiedFiles ;;;
    ret (transitioned phase previousPhase).

End with_builtins.
End track_phase.

(** ** plugin/quality-gate.ts *)

Definition arrow : string := "→".

Module quality_gate.
Section with_builtins.
Context `{JsBuiltins}.
Import workflow_state.

(** The environment variables the plugin reads *)
Record ProcessEnv : Type := {
  ENABLE_QUALITY_GATE : option string;
  QUALITY_GATE_STRICT : option string;
  QUALITY_GATE_COVERAGE_THRESHOLD : option string
}.

Record Config : Type := {
  enabled : bool;
  strictMode : bool;
  coverageThreshold : number
}.

Definition configure (env : ProcessEnv) : Config :=
  {| enabled := negb (bool_decide (ENABLE_QUALITY_GATE env = Some "false"));
     strictMode := bool_decide (QUALITY_GATE_STRICT env = Some "true");
     coverageThreshold :=
       parseInt
         match QUALITY_GATE_COVERAGE_THRESHOLD env with
         | Some v => if JsString.truthy v then v else "80"
         | None => "80"
         end |}.

(** The body of the plugin function before it returns its hooks: the
    workflow directory is created when it is absent. *)
Definition start : M unit :=
  let* present := existsSync_workflowDir in
  if negb present then mkdirSync else ret tt.

Definition logGateCheck (log : GateLog) : M unit :=
  try_catch
    (appendFileSync quality_gates_jsonl
       (JSON_stringify_gatelog log +:+ String LF EmptyString))
    (fun err => notifier_show toast_error ("Failed to log quality gate check: " +:+ err)).

(** [{ passed, message, transition, timestamp: new Date().toISOString() }] *)
Definition result (p : bool) (msg transition : string) : M GateResult :=
  let* stamp := Date_toISOString in
  ret {| passed := p; message := msg; transition := transition; g_timestamp := stamp |}.

(** an early [return] out of a gate body *)
Definition leave (p : bool) (msg transition : string) : M (option GateResult) :=
  let* r := result p msg transition in ret (Some r).

(** [probe.trim() === "true"] *)
Definition says_true (probe : string) : bool := String.eqb (trim probe) "true".

Definition design_implement : M GateResult :=
  let transition := "design→implement" in
  try_catch
    (let* designFiles := run_text find_design_files in
     if negb (JsString.truthy (trim designFiles)) then
       result false
         "❌ No design files found. Create design specifications before implementing."
         transition
     else result true "✅ Design files present" transition)
    (fun err => result false ("❌ Error checking design files: " +:+ err) transition).

Definition implement_test : M GateResult :=
  let transition := "implement→test" in
  try_catch
    (let* hasTypeScript := run_text test_tsconfig in
     let* compiled :=
       if says_true hasTypeScript then
         try_catch
           (run npx_tsc ;;; ret None)
           (fun _ =>
              leave false "❌ TypeScript compilation failed. Fix type errors before testing."
                transition)
       else ret None in
     match compiled with
     | Some r => ret r
     | None =>
         let* hasEslint := run_text test_eslint_config in
         let* linted :=
           if says_true hasEslint then
             try_catch
               (run npx_eslint ;;; ret None)
               (fun _ =>
                  leave false "❌ Linting failed. Fix linting errors before testing."
                    transition)
           else ret None in
         match linted with
         | Some r => ret r
         | None => result true "✅ Code compiles and passes linting" transition
         end
     end)
    (fun err =>
       result false ("❌ Error during implementation validation: " +:+ err) transition).

(** [coverage.total?.lines?.pct || 0] *)
Definition totalCoverage (coverage : CoverageSummary) : number :=
  or_zero
    match c_total coverage with
    | Some t => match lines t with Some l => pct l | None => None end
    | None => None
    end.

Definition coverage_message (totalCov threshold : number) : string :=
  "❌ Coverage is " +:+ Number_toString totalCov +:+ "%. Must be >" +:+
  Number_toString threshold +:+ "% before review.".

Definition test_review (coverageThreshold : number) : M GateResult :=
  let transition := "test→review" in
  try_catch
    (let* hasNpmTest := run_text grep_npm_test in
     let* tested :=
       if says_true hasNpmTest then
         try_catch
           (run npm_test ;;; ret None)
           (fun _ =>
              leave false "❌ Tests failed. Fix failing tests before review." transition)
       else ret None in
     match tested with
     | Some r => ret r
     | None =>
         let* hasCoverage := run_text test_coverage_file in
         let* covered :=
           if says_true hasCoverage then
             try_catch
               (let* coverageData := run_text cat_coverage_file in
                let* coverage := lift (JSON_parse_coverage coverageData) in
                let totalCov := totalCoverage coverage in
                if lt totalCov coverageThreshold then
                  leave false (coverage_message totalCov coverageThreshold) transition
                else ret None)
               (fun _ => ret None)      (* Could not verify coverage - continue *)
           else ret None in
         match covered with
         | Some r => ret r
         | None => result true "✅ Tests pass with sufficient coverage" transition
         end
     end)
    (fun err => result false ("❌ Error during test validation: " +:+ err) transition).

Definition review_release : M GateResult :=
  let transition := "review→release" in
  try_catch
    (let* audited :=
       try_catch
         (let* res := run npm_audit in
          if negb (Z.eqb (exitCode res) 0) then
            leave false
              "❌ Security vulnerabilities found. Run 'npm audit' to see details."
              transition
          else ret None)
         (fun _ =>
            leave false "❌ Security audit failed. Fix vulnerabilities before release."
              transition) in
     match audited with
     | Some r => ret r
     | None =>
         let* hasChangelog := run_text test_changelog in
         if negb (says_true hasChangelog) then
           result false "❌ CHANGELOG.md not found. Update changelog before release."
             transition
         else result true "✅ Security clean and documentation updated" transition
     end)
    (fun err => result false ("❌ Error during release validation: " +:+ err) transition).

(** The object literal [gates], as its own properties in source order *)
Definition gates (coverageThreshold : number) : list (string * M GateResult) :=
  [ ("design→implement", design_implement);
    ("implement→test", implement_test);
    ("test→review", test_review coverageThreshold);
    ("review→release", review_release) ].

Definition no_gate (transition : string) : string :=
  "ℹ️  No quality gate defined for transition: " +:+ transition.

(** [gates[transition]] is modelled as the lookup among the own properties:
    the keys this plugin passes are built as [`${currentPhase}→${nextPhase}`]
    and no member name inherited from [Object.prototype] contains the arrow
    (lemma [transition_key_not_inherited] below). *)
Definition validateGate (coverageThreshold : number) (transition : string) : M GateResult :=
  match List.find (fun entry => String.eqb (fst entry) transition) (gates coverageThreshold) with
  | None => result true (no_gate transition) transition
  | Some (_, gate) => gate
  end.

Definition count_where {A} (f : A -> bool) (xs : list A) : nat :=
  length (List.filter f xs).

(** The body of [logs.forEach((log) => ...)] *)
Definition quality_step (report : QualityReport) (log : GateLog) : QualityReport :=
  let bump (st : TransitionStats) : TransitionStats :=
    {| total := S (total st);
       s_passed := if l_passed log then S (s_passed st) else s_passed st;
       s_failed := if l_passed log then s_failed st else S (s_failed st) |} in
  let byTransition' :=
    match get_property (byTransition report) (l_transition log) with
    | Own st => <[l_transition log := bump st]> (byTransition report)
    | Absent =>
        <[l_transition log := bump {| total := 0; s_passed := 0; s_failed := 0 |}]>
          (byTransition report)
    | Inherited => byTransition report
    end in
  let commonFailures' :=
    if l_passed log then commonFailures report
    else
      let failureType := split_head colon (l_message log) in
      match get_property (commonFailures report) failureType with
      | Own (Count n) => <[failureType := Count (S n)]> (commonFailures report)
      | Own Garbled => <[failureType := Garbled]> (commonFailures report)
      | Absent => <[failureType := Count 1]> (commonFailures report)
      | Inherited =>
          (* the inherited built-in is truthy, [+ 1] appends to its text;
             the [__proto__] setter ignores a text *)
          if String.eqb failureType "__proto__" then commonFailures report
          else <[failureType := Garbled]> (commonFailures report)
      end in
  {| totalChecks := totalChecks report; q_passed := q_passed report;
     q_failed := q_failed report; q_blocked := q_blocked report;
     passRate := passRate report;
     byTransition := byTransition'; commonFailures := commonFailures' |}.

Definition generateQualityReport : M (option QualityReport) :=
  let* present := existsSync quality_gates_jsonl in
  if negb present then ret None
  else
    try_catch
      (let* data := readFileSync quality_gates_jsonl in
       let lines := split LF (trim data) in
       let* logs := mapM (fun line => lift (JSON_parse_gatelog line)) lines in
       let report :=
         fold_left quality_step logs
           {| totalChecks := length logs;
              q_passed := count_where l_passed logs;
              q_failed := count_where (fun l => negb (l_passed l)) logs;
              q_blocked := count_where blocked logs;
              passRate :=
                if Nat.ltb 0 (length logs)
                then RateText (percent_toFixed2 (count_where l_passed logs) (length logs))
                else RateZero;
              byTransition := ∅; commonFailures := ∅ |} in
       writeFileSync quality_report_json (JSON_stringify_quality report) ;;;
       ret (Some report))
      (fun err =>
         notifier_show toast_error ("Failed to generate quality report: " +:+ err) ;;;
         ret None).

(** [Object.entries(suggestions)] *)
Definition suggestions : list (string * string) :=
  [ (".ts", "Consider running 'implement→test' gate (compilation check)");
    (".tsx", "Consider running 'implement→test' gate (compilation check)");
    (".js", "Consider running 'implement→test' gate (linting check)");
    (".jsx", "Consider running 'implement→test' gate (linting check)");
    ("test.", "Consider running 'test→review' gate (test coverage check)");
    ("spec.", "Consider running 'test→review' gate (test coverage check)");
    (".design.md", "Consider running 'design→implement' gate (design review)");
    (".schema.sql", "Consider running 'design→implement' gate (schema review)");
    ("CHANGELOG.md", "Consider running 'review→release' gate (release readiness)") ].

Definition suggestGateCheck (filePath : string) : option string :=
  snd <$> List.find (fun entry => includes filePath (fst entry)) suggestions.

(** [output.args] *)
Record ToolArgs : Type := {
  phase : option string;
  file_path : option string;
  path : option string
}.

Definition is_truthy (v : option string) : bool :=
  match v with
  | Some s => JsString.truthy s
  | None => false
  end.

(** [a || b] *)
Definition or_else (a b : option string) : option string :=
  if is_truthy a then a else b.

(** [new Error(msg)], as [`${error}`] renders it *)
Definition Error (msg : string) : string := "Error: " +:+ msg.

Definition blocked_message (msg : string) : string :=
  "Quality gate failed: " +:+ msg +:+ String LF (String LF EmptyString) +:+
  "Transition blocked. Fix the issues and try again.".

(** The hook ["tool.execute.before"] *)
Definition tool_execute_before (cfg : Config) (tool : string) (args : ToolArgs) : M unit :=
  (if String.eqb tool "write" || String.eqb tool "edit" then
     match or_else (file_path args) (path args) with
     | Some filePath =>
         if JsString.truthy filePath then
           let* stamp := Date_toISOString in
           modify (set_recentModifications (fun m =>
             <[stamp := (default [] (m !! stamp) ++ [filePath])%list]> m)) ;;;
           match suggestGateCheck filePath with
           | Some suggestion =>
               if JsString.truthy suggestion
               then notifier_show toast_info suggestion else ret tt
           | None => ret tt
           end
         else ret tt
     | None => ret tt
     end
   else ret tt) ;;;
  if negb (String.eqb tool "track-phase") then ret tt
  else
    let* currentPhase := getCurrentPhase in
    let nextPhase := phase args in
    match currentPhase, nextPhase with
    | Some current, Some next =>
        if negb (JsString.truthy current) || negb (JsString.truthy next) then ret tt
        else
          let transition := current +:+ arrow +:+ next in
          let* res := validateGate (coverageThreshold cfg) transition in
          logGateCheck
            {| l_transition := transition;
               l_passed := passed res;
               l_message := message res;
               l_timestamp := g_timestamp res;
               mode := if strictMode cfg then strict else warning;
               blocked := negb (passed res) && strictMode cfg |} ;;;
          if negb (passed res) then
            if strictMode cfg then throw (Error (blocked_message (message res)))
            else notifier_show toast_warning ("Quality Gate Warning: " +:+ message res)
          else ret tt
    | _, _ => ret tt
    end.

End with_builtins.

Section with_engine.
Context `{JsBuiltins}.
Import workflow_state.

(** The text that a template literal gives for the member of the name [key]
    that plain objects inherit from [Object.prototype] (for a built-in
    function, its source text): it depends on the JavaScript engine. *)
Variable inherited_text : string -> string.

(** [nextPhases] of the [event] hook, as its own properties *)
Definition nextPhases : gmap string string :=
  list_to_map
    [ ("design", "implement"); ("implement", "test");
      ("test", "review"); ("review", "release") ].

(** the evaluation and the reminder inside the [session.idle] branch *)
Definition remind (cfg : Config) (transition : string) : M unit :=
  let* res := validateGate (coverageThreshold cfg) transition in
  if negb (passed res) && negb (strictMode cfg)
  then notifier_show toast_info ("Quality gate reminder: " +:+ message res)
  else ret tt.

(** The hook [event]; [type] is [evt.event.type].  [nextPhases[currentPhase]]
    is read through the prototype chain: for the name of an inherited member
    it is that member, which is truthy. *)
Definition event (cfg : Config) (type : string) : M unit :=
  (if String.eqb type "session.idle" then
     let* currentPhase := getCurrentPhase in
     match currentPhase with
     | Some current =>
         if JsString.truthy current then
           match get_property nextPhases current with
           | Own nextPhase =>
               if JsString.truthy nextPhase
               then remind cfg (current +:+ arrow +:+ nextPhase) else ret tt
           | Inherited => remind cfg (current +:+ arrow +:+ inherited_text current)
           | Absent => ret tt
           end
         else ret tt
     | None => ret tt
     end
   else ret tt) ;;;
  if String.eqb type "session.deleted" then generateQualityReport ;;; ret tt
  else ret tt.

End with_engine.
End quality_gate.

(** ** The runtime around the tool

    The opencode runtime is not part of the repository.  For a call of the
    track-phase tool it awaits the ["tool.execute.before"] hook that the
    plugin registered (none when the plugin is disabled) and runs the tool
    only if the hook did not throw; a throw of the hook is the failure of the
    call.  This is the behaviour the plugin relies on ("Strict mode: block the
    transition"). *)

Module runtime.
Section with_builtins.
Context `{JsBuiltins}.
Import quality_gate.

Definition call_track_phase (cfg : Config) (phase : string) : M string :=
  (if enabled cfg then
     tool_execute_before cfg "track-phase"
       {| phase := Some phase; file_path := None; path := None |}
   else ret tt) ;;;
  track_phase.execute phase.

End with_builtins.
End runtime.

(** ** tool/check-quality-gate.ts (the second part of [tool/view-metrics.ts])

    The tool has gates of its own, without the plugin's outer [try]; it
    starts the same commands with Bun's [$].  They are taken to run in the
    project directory, as the plugin's do, so that the one [shell] of the
    oracle answers both. *)

Module check_quality_gate.
Section with_builtins.
Context `{JsBuiltins}.
Import workflow_state quality_gate.

(** [{ passed: boolean; message: string }] *)
Record Verdict : Type := {
  v_passed : bool;
  v_message : string
}.

Definition design_implement : M Verdict :=
  let* designFiles := run_text find_design_files in
  if negb (JsString.truthy (trim designFiles)) then
    ret {| v_passed := false;
           v_message :=
             "❌ No design files found. Create design specifications before implementing." |}
  else ret {| v_passed := true; v_message := "✅ Design files present" |}.

Definition implement_test : M Verdict :=
  let* compiled :=
    try_catch
      (let* hasTypeScript := run_text test_tsconfig in
       if says_true hasTypeScript then run npx_tsc ;;; ret None else ret None)
      (fun _ =>
         ret (Some {| v_passed := false;
                      v_message :=
                        "❌ TypeScript compilation failed. Fix type errors before testing." |})) in
  match compiled with
  | Some r => ret r
  | None =>
      let* linted :=
        try_catch
          (let* hasEslint := run_text test_eslint_config in
           if says_true hasEslint then run npx_eslint ;;; ret None else ret None)
          (fun _ =>
             ret (Some {| v_passed := false;
                          v_message :=
                            "❌ Linting failed. Fix linting errors before testing." |})) in
      match linted with
      | Some r => ret r
      | None =>
          ret {| v_passed := true; v_message := "✅ Code compiles and passes linting" |}
      end
  end.

Definition test_review : M Verdict :=
  let* tested :=
    try_catch
      (let* hasNpmTest := run_text grep_npm_test in
       if says_true hasNpmTest then run npm_test ;;; ret None else ret None)
      (fun _ =>
         ret (Some {| v_passed := false;
                      v_message := "❌ Tests failed. Fix failing tests before review." |})) in
  match tested with
  | Some r => ret r
  | None =>
      let* covered :=
        try_catch
          (let* hasCoverage := run_text test_coverage_file in
           if says_true hasCoverage then
             let* coverageData := run_text cat_coverage_file in
             let* coverage := lift (JSON_parse_coverage coverageData) in
             let totalCov := totalCoverage coverage in
             if lt totalCov (of_Z 80) then
               ret (Some {| v_passed := false;
                            v_message :=
                              "❌ Coverage is " +:+ Number_toString totalCov +:+
                              "%. Must be >80% before review." |})
             else ret None
           else ret None)
          (fun _ => ret None)      (* Could not verify coverage - continue *) in
      match covered with
      | Some r => ret r
      | None =>
          ret {| v_passed := true; v_message := "✅ Tests pass with sufficient coverage" |}
      end
  end.

Definition review_release : M Verdict :=
  let* audited :=
    try_catch
      (let* res := run npm_audit in
       if negb (Z.eqb (exitCode res) 0) then
         ret (Some {| v_passed := false;
                      v_message :=
                        "❌ Security vulnerabilities found. Run 'npm audit' to see details." |})
       else ret None)
      (fun _ =>
         ret (Some {| v_passed := false;
                      v_message :=
                        "❌ Security audit failed. Fix vulnerabilities before release." |})) in
  match audited with
  | Some r => ret r
  | None =>
      let* hasChangelog := run_text test_changelog in
      if negb (says_true hasChangelog) then
        ret {| v_passed := false;
               v_message := "❌ CHANGELOG.md not found. Update changelog before release." |}
      else
        ret {| v_passed := true;
               v_message := "✅ Security clean and documentation updated" |}
  end.

(** The object literal [gates], as its own properties in source order *)
Definition gates : list (string * M Verdict) :=
  [ ("design→implement", design_implement);
    ("implement→test", implement_test);
    ("test→review", test_review);
    ("review→release", review_release) ].

Definition no_gate (transition : string) : string :=
  "❌ No quality gate defined for transition: " +:+ transition +:+
  String LF EmptyString +:+
  "Available transitions: " +:+ join ", " (fst <$> gates).

(** What [(await gate()).message] gives when [gates[transition]] is a member
    inherited from [Object.prototype], called without receiver: [undefined]
    (no text) or a [TypeError] whose text depends on the engine. *)
Variable inherited_call : string -> Outcome (option string).

(** [execute(args)]; the result is [undefined] ([None]) when the value that
    the call returned has no [message]. *)
Definition execute (transition : string) : M (option string) :=
  match List.find (fun entry => String.eqb (fst entry) transition) gates with
  | Some (_, gate) => let* res := gate in ret (Some (v_message res))
  | None =>
      if array_includes Object_prototype_names transition
      then lift (inherited_call transition)
      else ret (Some (no_gate transition))
  end.

End with_builtins.
End check_quality_gate.

(** ** plugin/workflow-tracker.ts (the second part of
       [plugin/compliance-checker.ts])

    The plugin keeps a phase, a start time and a set of files in its own
    closure and has copies of [logTransition] and [generateReport]; its state
    is passed explicitly from one hook call to the next. *)

Module workflow_tracker.
Section with_builtins.
Context `{JsBuiltins}.
Import workflow_state quality_gate.

(** The variables of the plugin's closure: they are the plugin's own, not
    those of [workflow-state.ts]. *)
Record Closure : Type := {
  currentPhase : option string;
  phaseStartTime : option Z;
  filesModified : list string          (* a Set, in insertion order *)
}.

Definition initial : Closure :=
  {| currentPhase := None; phaseStartTime := None; filesModified := [] |}.

(** The body of the plugin function before it returns its hooks *)
Definition start : M unit :=
  let* present := existsSync_workflowDir in
  if negb present then mkdirSync else ret tt.

Definition logTransition (s : Closure)
    (from : option string) (to : string) (files : list string) : M unit :=
  let* elapsed :=
    match phaseStartTime s with
    | Some t0 => let* now := Date_now in ret (now - t0)%Z
    | None => ret 0%Z
    end in
  let* stamp := Date_toISOString in
  let transition :=
    {| timestamp := stamp; from := from; to := to; duration := elapsed;
       t_filesModified := Some files |} in
  appendFileSync transitions_jsonl
    (JSON_stringify_transition transition +:+ String LF EmptyString).

Definition generateReport : M (WorkflowReport + string) :=
  let* present := existsSync transitions_jsonl in
  if negb present then ret (inr "No workflow data available yet.")
  else
    let* data := readFileSync transitions_jsonl in
    let lines := split LF (trim data) in
    let* transitions := mapM (fun line => lift (JSON_parse_transition line)) lines in
    let report :=
      fold_left report_step transitions
        {| totalTransitions := length transitions; phases := ∅; filesChanged := [] |} in
    writeFileSync report_json (JSON_stringify_report report) ;;;
    ret (inl report).

(** The hook ["tool.execute.before"] *)
Definition tool_execute_before (s : Closure) (tool : string) (args : ToolArgs) : M Closure :=
  if String.eqb tool "write" || String.eqb tool "edit" then
    match or_else (file_path args) (path args) with
    | Some filePath =>
        if JsString.truthy filePath then
          ret {| currentPhase := currentPhase s; phaseStartTime := phaseStartTime s;
                 filesModified := Set_add filePath (filesModified s) |}
        else ret s
    | None => ret s
    end
  else ret s.

(** The hook [event]; [type] is [evt.event.type]. *)
Definition event (s : Closure) (type : string) : M Closure :=
  let* s1 :=
    if String.eqb type "session.idle" then
      match currentPhase s with
      | Some current =>
          if JsString.truthy current && Nat.ltb 0 (length (filesModified s)) then
            logTransition s (Some current) current (filesModified s) ;;;
            ret {| currentPhase := currentPhase s; phaseStartTime := phaseStartTime s;
                   filesModified := [] |}
          else ret s
      | None => ret s
      end
    else ret s in
  if String.eqb type "session.deleted" then
    match currentPhase s1 with
    | Some current =>
        if JsString.truthy current
        then logTransition s1 (Some current) "complete" (filesModified s1)
        else ret tt
    | None => ret tt
    end ;;;
    generateReport ;;;
    ret s1
  else ret s1.

End with_builtins.
End workflow_tracker.

(** ** Notions used by the statements *)

Import workflow_state track_phase quality_gate runtime.

(** [sum(phases[p].count for p in phases)] *)
Definition sum_counts (m : gmap string PhaseStats) : nat :=
  map_fold (fun _ st acc => count st + acc) 0 m.

(** Calls of the state tracker that a client can make in any order *)
Inductive TrackerCall : Type :=
| call_setCurrentPhase (phase : string)
| call_addModifiedFile (filePath : string)
| call_clearModifiedFiles.

Definition tracker_call (c : TrackerCall) : M unit :=
  match c with
  | call_setCurrentPhase phase => setCurrentPhase phase
  | call_addModifiedFile filePath => addModifiedFile filePath
  | call_clearModifiedFiles => clearModifiedFiles
  end.

Fixpoint tracker_calls (cs : list TrackerCall) : M unit :=
  match cs with
  | [] => ret tt
  | c :: rest => tracker_call c ;;; tracker_calls rest
  end.

(** the argument of the most recent [setCurrentPhase] among the calls *)
Fixpoint last_set (cs : list TrackerCall) (before : option string) : option string :=
  match cs with
  | [] => before
  | call_setCurrentPhase phase :: rest => last_set rest (Some phase)
  | _ :: rest => last_set rest before
  end.

(** A world in which nothing has happened yet: no phase was set, the
    project has no workflow directory. *)
Definition fresh_world : World :=
  {| wf := workflow_state.initial;
     fs := {| workflowDir := false; content := fun _ => None |};
     recentModifications := ∅; toasts := []; spawned := []; ticks := 0 |}.

(** The environment of an empty project: [find] prints nothing, every
    [test -f ... && echo true || echo false] prints [false], the other
    commands exit with 0; the file system works and the clock advances by
    one second per reading. *)
Definition calm : Oracle :=
  {| shell := fun c =>
       match c with
       | test_tsconfig | test_eslint_config | grep_npm_test
       | test_coverage_file | test_changelog =>
           Returns {| exitCode := 0; stdout := "false" +:+ String LF EmptyString |}
       | _ => Returns {| exitCode := 0; stdout := EmptyString |}
       end;
     io_error := fun _ => None;
     clock := fun k => (1000 * Z.of_nat k)%Z |}.

(** ** An executable stand-in for the built-ins

    Used only to run the model on concrete inputs; every general statement
    below holds for all built-ins.  Texts are written without escapes, times
    are shown as their millisecond count, and a text parses when, white space
    around it apart, it is the text of one of the records listed here. *)

Module sample.

Definition decimal (z : Z) : string := NilZero.string_of_int (Z.to_int z).

Definition quoted (s : string) : string :=
  String quote (s +:+ String quote EmptyString).

Definition field (name value : string) : string := quoted name +:+ ":" +:+ value.

Definition object (fields : list string) : string := "{" +:+ join "," fields +:+ "}".

Definition array (items : list string) : string := "[" +:+ join "," items +:+ "]".

Definition nullable (v : option string) : string :=
  match v with Some s => quoted s | None => "null" end.

Definition boolean (b : bool) : string := if b then "true" else "false".

Definition show_number (a : number) : string :=
  match a with
  | NaN => "NaN"
  | PosInfinity => "Infinity"
  | NegInfinity => "-Infinity"
  | Finite q =>
      if Pos.eqb (Qden q) 1 then decimal (Qnum q)
      else decimal (Qnum q) +:+ "/" +:+ decimal (Zpos (Qden q))
  end.

Definition show_transition (t : WorkflowTransition) : string :=
  object
    ([ field "timestamp" (quoted (timestamp t));
       field "from" (nullable (from t));
       field "to" (quoted (to t));
       field "duration" (decimal (duration t)) ] ++
     match t_filesModified t with
     | Some files => [ field "filesModified" (array (quoted <$> files)) ]
     | None => []
     end)%list.

Definition show_mode (m : Mode) : string :=
  match m with warning => "warning" | strict => "strict" end.

Definition show_gatelog (l : GateLog) : string :=
  object
    [ field "transition" (quoted (l_transition l));
      field "passed" (boolean (l_passed l));
      field "message" (quoted (l_message l));
      field "timestamp" (quoted (l_timestamp l));
      field "mode" (quoted (show_mode (mode l)));
      field "blocked" (boolean (blocked l)) ].

Definition show_coverage (c : number) : string :=
  object [ field "total" (object [ field "lines" (object [ field "pct" (show_number c) ]) ]) ].

Definition coverage_of (c : number) : CoverageSummary :=
  {| c_total := Some {| lines := Some {| pct := Some c |} |} |}.

(** the first transitions of a session: into design, then into implement
    with two files touched *)
Definition into_design : WorkflowTransition :=
  {| timestamp := "0"; from := None; to := "design"; duration := 0;
     t_filesModified := Some [] |}.

Definition into_implement : WorkflowTransition :=
  {| timestamp := "2000"; from := Some "design"; to := "implement"; duration := 1000;
     t_filesModified := Some ["a.ts"; "b.ts"] |}.

Definition into_constructor : WorkflowTransition :=
  {| timestamp := "4000"; from := Some "implement"; to := "constructor"; duration := 1000;
     t_filesModified := Some [] |}.

Definition known_transitions : list WorkflowTransition :=
  [ into_design; into_implement; into_constructor ].

Definition missing_design : GateLog :=
  {| l_transition := "design→implement"; l_passed := false;
     l_message :=
       "❌ No design files found. Create design specifications before implementing.";
     l_timestamp := "0"; mode := warning; blocked := false |}.

Definition known_gatelogs : list GateLog := [ missing_design ].

Definition known_coverage : list number := [ of_Z 72; of_Z 80; of_Z 85 ].

Definition syntax_error : string := "SyntaxError: JSON Parse error".

Definition parse_with {A} (show : A -> string) (known : list A) (text : string) : Outcome A :=
  match List.find (fun a => String.eqb (show a) (trim text)) known with
  | Some a => Returns a
  | None => Throws syntax_error
  end.

Definition builtins : JsBuiltins :=
  {| toISOString := decimal;
     Number_toString := show_number;
     JSON_stringify_transition := show_transition;
     JSON_stringify_gatelog := show_gatelog;
     JSON_stringify_report := fun r => decimal (Z.of_nat (totalTransitions r));
     JSON_stringify_quality := fun r => decimal (Z.of_nat (totalChecks r));
     JSON_parse_transition := parse_with show_transition known_transitions;
     JSON_parse_gatelog := parse_with show_gatelog known_gatelogs;
     JSON_parse_coverage :=
       fun text =>
         match parse_with show_coverage known_coverage text with
         | Returns c => Returns (coverage_of c)
         | Throws e => Throws e
         end;
     percent_toFixed2 := fun p n => decimal (Z.of_nat (p * 100 / n)) |}.

(** a project directory with the workflow directory in place *)
Definition project (files : File -> option string) : World :=
  {| wf := workflow_state.initial;
     fs := {| workflowDir := true; content := files |};
     recentModifications := ∅; toasts := []; spawned := []; ticks := 0 |}.

Definition only (f : File) (text : string) : File -> option string :=
  fun g => if decide (g = f) then Some text else None.

Definition in_phase (phase : string) (w : World) : World :=
  set_wf (fun s => {| currentPhase := Some phase; phaseStartTime := Some 0%Z;
                      filesModified := filesModified s |}) w.

Definition line (text : string) : string := text +:+ String LF EmptyString.

Definition says (text : string) : Outcome ShellOutput :=
  Returns {| exitCode := 0; stdout := line text |}.

End sample.

(** ** Notions used by the proofs and the scenarios *)

Definition is_set (c : TrackerCall) : bool :=
  match c with call_setCurrentPhase _ => true | _ => false end.

Definition arrow_lead : ascii := "226"%char.

Fixpoint has_byte (c : ascii) (s : string) : bool :=
  match s with
  | EmptyString => false
  | String b s' => Ascii.eqb b c || has_byte c s'
  end.

Definition defined_gates : list string :=
  [ "design→implement"; "implement→test"; "test→review"; "review→release" ].

(** The message a gate gives when the process [c] could not run and threw
    [e]; the read of the coverage file is the one step without such a
    message. *)
Definition step_failure (c : Command) (e : string) : option string :=
  match c with
  | find_design_files => Some ("❌ Error checking design files: " +:+ e)
  | test_tsconfig | test_eslint_config =>
      Some ("❌ Error during implementation validation: " +:+ e)
  | npx_tsc => Some "❌ TypeScript compilation failed. Fix type errors before testing."
  | npx_eslint => Some "❌ Linting failed. Fix linting errors before testing."
  | grep_npm_test | test_coverage_file => Some ("❌ Error during test validation: " +:+ e)
  | npm_test => Some "❌ Tests failed. Fix failing tests before review."
  | cat_coverage_file => None
  | npm_audit => Some "❌ Security audit failed. Fix vulnerabilities before release."
  | test_changelog => Some ("❌ Error during release validation: " +:+ e)
  end.

(** A gate evaluation only starts processes and reads the clock once. *)
Definition gate_run (w w' : World) (started : list Command) : Prop :=
  wf w' = wf w /\ fs w' = fs w /\ recentModifications w' = recentModifications w /\
  toasts w' = toasts w /\ spawned w' = (spawned w ++ started)%list /\
  ticks w' = S (ticks w).

(** Every started process that threw, the coverage read apart, failed the
    gate with the message of its step. *)
Definition fail_closed (o : Oracle) (started : list Command) (r : GateResult) : Prop :=
  forall c e, c ∈ started -> shell o c = Throws e -> c <> cat_coverage_file ->
    passed r = false /\ Some (message r) = step_failure c e.

(** The coverage file could not be read or parsed. *)
Definition coverage_unreadable `{JsBuiltins} (o : Oracle) : Prop :=
  (exists e, shell o cat_coverage_file = Throws e) \/
  (exists out e, shell o cat_coverage_file = Returns out /\
                 JSON_parse_coverage (stdout out) = Throws e).

(** ... and the gate went on and passed. *)
Definition fail_open_on_coverage `{JsBuiltins}
    (o : Oracle) (started : list Command) (r : GateResult) : Prop :=
  cat_coverage_file ∈ started -> coverage_unreadable o ->
  passed r = true /\ message r = "✅ Tests pass with sufficient coverage".

(** the checks that a gate runs only when the probe before them prints
    [true]: the probe, then the check *)
Definition optional_checks : list (Command * Command) :=
  [ (test_tsconfig, npx_tsc); (test_eslint_config, npx_eslint);
    (grep_npm_test, npm_test); (test_coverage_file, cat_coverage_file) ].

(** the commands of a gate that do not wait for the output of a probe *)
Definition unconditional (key : string) : list Command :=
  if String.eqb key "design→implement" then [find_design_files]
  else if String.eqb key "implement→test" then [test_tsconfig; test_eslint_config]
  else if String.eqb key "test→review" then [grep_npm_test; test_coverage_file]
  else if String.eqb key "review→release" then [npm_audit; test_changelog]
  else [].

(** the command ran and its output, trimmed, is (or is not) [true] *)
Definition printed_true (o : Oracle) (c : Command) : Prop :=
  exists out, shell o c = Returns out /\ says_true (stdout out) = true.

Definition printed_other (o : Oracle) (c : Command) : Prop :=
  exists out, shell o c = Returns out /\ says_true (stdout out) = false.

(** the steps that an evaluation of the gate [key] has taken *)
Definition gate_steps (o : Oracle) (key : string) (started : list Command)
    (r : GateResult) : Prop :=
  head started = head (unconditional key) /\
  (passed r = true -> forall c, c ∈ unconditional key -> c ∈ started) /\
  (forall probe check, (probe, check) ∈ optional_checks ->
     check ∈ started <-> probe ∈ started /\ printed_true o probe) /\
  ((forall c, c ∈ unconditional key -> printed_other o c) ->
   key = "implement→test" \/ key = "test→review" ->
   passed r = true /\ started = unconditional key).

Definition gated_pairs : list (string * string) :=
  [ ("design", "implement"); ("implement", "test");
    ("test", "review"); ("review", "release") ].

Definition gate_log (cfg : Config) (key : string) (r : GateResult) : GateLog :=
  {| l_transition := key; l_passed := passed r; l_message := message r;
     l_timestamp := g_timestamp r;
     mode := if strictMode cfg then strict else warning;
     blocked := negb (passed r) && strictMode cfg |}.

Definition log_failure (e : string) : NotificationVariant * string :=
  (toast_error, "Failed to log quality gate check: " +:+ e).

(** a gate evaluation takes place: the tool is track-phase and both the
    current and the requested phase are present *)
Definition gate_checked (tool : string) (args : ToolArgs) (w : World) : bool :=
  String.eqb tool "track-phase" && is_truthy (currentPhase (wf w)) && is_truthy (phase args).

(** the append to the gate log goes through *)
Definition log_writable (o : Oracle) (w : World) : bool :=
  bool_decide (io_error o (io_append quality_gates_jsonl) = None) && workflowDir (fs w).

(** [w'] is [w] with one more line in quality-gates.jsonl, the text of [log] *)
Definition appended_record `{JsBuiltins} (w w' : World) (log : GateLog) : Prop :=
  content (fs w') quality_gates_jsonl =
  Some (default EmptyString (content (fs w) quality_gates_jsonl) +:+
        JSON_stringify_gatelog log +:+ String LF EmptyString).

Definition during_mode (s : bool) (T : number) : Config :=
  {| enabled := true; strictMode := s; coverageThreshold := T |}.

Definition reports (c : Q) : CoverageSummary :=
  {| c_total := Some {| lines := Some {| pct := Some (Finite c) |} |} |}.

(** a line that the fold counts under its target phase *)
Definition counted (t : WorkflowTransition) : Prop :=
  to t <> EmptyString /\ to t ∉ Object_prototype_names.

Definition report_failure (e : string) : NotificationVariant * string :=
  (toast_error, "Failed to generate quality report: " +:+ e).

(** the text of a log whose lines were each written with a final newline *)
Fixpoint unlines (ls : list string) : string :=
  match ls with
  | [] => EmptyString
  | l :: rest => l +:+ String LF (unlines rest)
  end.

(** a line as [JSON.stringify] writes an object: from an opening to a
    closing brace, without a newline inside *)
Definition object_line (l : string) : Prop :=
  exists mid, l = String "{" (mid +:+ "}") /\ has_byte LF mid = false.

Definition warning_mode : Config := during_mode false (of_Z 80).
Definition strict_mode : Config := during_mode true (of_Z 80).

(** a project in its design phase, with nothing logged yet *)
Definition design_phase : World :=
  sample.in_phase "design" (sample.project (fun _ => None)).

Definition track (phase : string) : ToolArgs :=
  {| phase := Some phase; file_path := None; path := None |}.

(** the verdict of design→implement on a project without design files *)
Definition no_design_files : GateResult :=
  {| passed := false;
     message := "❌ No design files found. Create design specifications before implementing.";
     transition := "design→implement";
     g_timestamp := "0" |}.

(** a project whose coverage file exists; [cat] is what reading it gives *)
Definition with_coverage (cat : Outcome ShellOutput) : Oracle :=
  {| shell := fun c =>
       match c with
       | test_coverage_file => sample.says "true"
       | cat_coverage_file => cat
       | _ => shell calm c
       end;
     io_error := io_error calm;
     clock := clock calm |}.

(** the file tests print [false]; compiler, linter, test suite and audit
    cannot be started *)
Definition nothing_installed : Oracle :=
  {| shell := fun c =>
       match c with
       | npx_tsc | npx_eslint | npm_test | npm_audit =>
           Throws "ShellError: command not found"
       | _ => shell calm c
       end;
     io_error := io_error calm;
     clock := clock calm |}.

Definition permission_denied : string := "ShellError: Failed with exit code 1".

(** a disk on which no append succeeds *)
Definition no_space : string := "ENOSPC: no space left on device".

Definition disk_full : Oracle :=
  {| shell := shell calm;
     io_error := fun op => match op with io_append _ => Some no_space | _ => None end;
     clock := clock calm |}.

(** two complete lines *)
Definition two_transitions : string :=
  sample.line (sample.show_transition sample.into_design) +:+
  sample.line (sample.show_transition sample.into_implement).

(** a complete line followed by a line cut short by a crash *)
Definition torn_line : string := "{" +:+ sample.quoted "timestamp" +:+ ":".

Definition torn_transitions : string :=
  sample.line (sample.show_transition sample.into_design) +:+ torn_line.

Definition torn_gate_log : string :=
  sample.line (sample.show_gatelog sample.missing_design) +:+ torn_line.

(** ** Notions used by the further properties *)

(** a session: the track-phase tool called on each phase in turn *)
Definition track_all `{JsBuiltins} (ps : list string) : M (list string) :=
  mapM track_phase.execute ps.

(** What a session that starts in the phase [prev] with the pending files
    [files] logs for the phases [ps], time stamps and durations apart: each
    line leaves the target of the line before it. *)
Fixpoint chained (prev : option string) (files : list string) (ps : list string)
    (ts : list WorkflowTransition) : Prop :=
  match ps, ts with
  | [], [] => True
  | p :: ps', t :: ts' =>
      from t = prev /\ to t = p /\ t_filesModified t = Some files /\
      chained (Some p) [] ps' ts'
  | _, _ => False
  end.

(** an environment in which [find] fails, as it does below a directory that
    it may not read *)
Definition find_fails : Oracle :=
  {| shell := fun c =>
       match c with
       | find_design_files => Throws permission_denied
       | _ => shell calm c
       end;
     io_error := io_error calm;
     clock := clock calm |}.

(** the time that [logTransition] records in the world [w]: from the start
    of the phase to the second reading of the clock *)
Definition elapsed_since (o : Oracle) (w : World) : Z :=
  match phaseStartTime (wf w) with
  | Some t0 => (clock o (S (ticks w)) - t0)%Z
  | None => 0%Z
  end.

Definition is_clear (c : TrackerCall) : bool :=
  match c with call_clearModifiedFiles => true | _ => false end.

(** the paths passed to [addModifiedFile] among the calls *)
Definition added (cs : list TrackerCall) : list string :=
  omap (fun c => match c with call_addModifiedFile f => Some f | _ => None end) cs.

(** the pending set after the calls, from the pending set before them *)
Fixpoint pending (cs : list TrackerCall) (files : list string) : list string :=
  match cs with
  | [] => files
  | call_addModifiedFile f :: rest => pending rest (Set_add f files)
  | call_clearModifiedFiles :: rest => pending rest []
  | call_setCurrentPhase _ :: rest => pending rest files
  end.

(** the record of a transition without a gate *)
Definition ungated_record `{JsBuiltins} (cfg : Config) (key : string) (now : Z) : GateLog :=
  {| l_transition := key; l_passed := true; l_message := no_gate key;
     l_timestamp := toISOString now;
     mode := if strictMode cfg then strict else warning;
     blocked := false |}.


(** the outcome of the process [c] fails the step of the gate that starts it *)
Definition step_fails `{JsBuiltins} (o : Oracle) (T : number) (c : Command) : Prop :=
  match shell o c with
  | Throws _ => c <> cat_coverage_file
  | Returns out =>
      match c with
      | find_design_files => trim (stdout out) = EmptyString
      | cat_coverage_file =>
          exists coverage,
            JSON_parse_coverage (stdout out) = Returns coverage /\
            lt (totalCoverage coverage) T = true
      | npm_audit => exitCode out <> 0%Z
      | test_changelog => says_true (stdout out) = false
      | _ => False
      end
  end.

(** the commands that test for a file or a setting of the project *)
Definition probes : list Command :=
  [ find_design_files; test_tsconfig; test_eslint_config; grep_npm_test;
    test_coverage_file; test_changelog ].

(** [coverage.total?.lines?.pct] *)
Definition reported (coverage : CoverageSummary) : option number :=
  match c_total coverage with
  | Some t => match lines t with Some l => pct l | None => None end
  | None => None
  end.

Definition tests_pass : string := "✅ Tests pass with sufficient coverage".

(** the decimal text of an integer, as [String(z)] gives it *)
Definition decimal_text (z : Z) : string := NilZero.string_of_int (Z.to_int z).

(** a text that does not continue a decimal number: it is empty or starts
    with a character that is neither a digit nor the [x] of a hexadecimal
    prefix *)
Definition ends_number (rest : string) : bool :=
  match rest with
  | EmptyString => true
  | String c _ =>
      match digit_value 10 c with
      | Some _ => false
      | None => negb (Ascii.eqb c "x" || Ascii.eqb c "X")
      end
  end.

(** the value of a run of decimal digits read after [acc] *)
Fixpoint uint_value (d : Decimal.uint) (acc : Z) : Z :=
  match d with
  | Decimal.Nil => acc
  | Decimal.D0 d' => uint_value d' (acc * 10 + 0)
  | Decimal.D1 d' => uint_value d' (acc * 10 + 1)
  | Decimal.D2 d' => uint_value d' (acc * 10 + 2)
  | Decimal.D3 d' => uint_value d' (acc * 10 + 3)
  | Decimal.D4 d' => uint_value d' (acc * 10 + 4)
  | Decimal.D5 d' => uint_value d' (acc * 10 + 5)
  | Decimal.D6 d' => uint_value d' (acc * 10 + 6)
  | Decimal.D7 d' => uint_value d' (acc * 10 + 7)
  | Decimal.D8 d' => uint_value d' (acc * 10 + 8)
  | Decimal.D9 d' => uint_value d' (acc * 10 + 9)
  end.

Definition uint_bytes (d : Decimal.uint) : list ascii :=
  list_ascii_of_string (NilEmpty.string_of_uint d).

(** the entries of [suggestions] that can be chosen *)
Definition reachable_suggestions : list (string * string) :=
  [ (".ts", "Consider running 'implement→test' gate (compilation check)");
    (".js", "Consider running 'implement→test' gate (linting check)");
    ("test.", "Consider running 'test→review' gate (test coverage check)");
    ("spec.", "Consider running 'test→review' gate (test coverage check)");
    (".design.md", "Consider running 'design→implement' gate (design review)");
    (".schema.sql", "Consider running 'design→implement' gate (schema review)");
    ("CHANGELOG.md", "Consider running 'review→release' gate (release readiness)") ].

(** the number of paths held by [recentModifications] *)
Definition recorded (m : gmap string (list string)) : nat :=
  map_fold (fun _ paths acc => length paths + acc) 0 m.

(** the quality report before the fold over the [logs] *)
Definition quality_start `{JsBuiltins} (logs : list GateLog) : QualityReport :=
  {| totalChecks := length logs;
     q_passed := count_where l_passed logs;
     q_failed := count_where (fun l => negb (l_passed l)) logs;
     q_blocked := count_where blocked logs;
     passRate :=
       if Nat.ltb 0 (length logs)
       then RateText (percent_toFixed2 (count_where l_passed logs) (length logs))
       else RateZero;
     byTransition := ∅; commonFailures := ∅ |}.

(** the records of the transition [k] *)
Definition about (k : string) (logs : list GateLog) : list GateLog :=
  List.filter (fun l => String.eqb (l_transition l) k) logs.

(** the failed records whose message, up to its first colon, is [f] *)
Definition failures_of (f : string) (logs : list GateLog) : list GateLog :=
  List.filter
    (fun l => negb (l_passed l) && String.eqb (split_head colon (l_message l)) f) logs.

(** the entry of [byTransition] for the records [logs] of one transition *)
Definition tally (logs : list GateLog) : option TransitionStats :=
  match logs with
  | [] => None
  | _ :: _ =>
      Some {| total := length logs;
              s_passed := count_where l_passed logs;
              s_failed := count_where (fun l => negb (l_passed l)) logs |}
  end.

(** the entry of [commonFailures] for the failed records [logs] of one kind *)
Definition failure_tally (logs : list GateLog) : option FailureCount :=
  match logs with
  | [] => None
  | _ :: _ => Some (Count (length logs))
  end.

(** an entry of [byTransition] after more records [m] of its transition *)
Definition add_tally (st : option TransitionStats) (m : list GateLog) : option TransitionStats :=
  match st, m with
  | None, [] => None
  | _, _ =>
      let z := default {| total := 0; s_passed := 0; s_failed := 0 |} st in
      Some {| total := total z + length m;
              s_passed := s_passed z + count_where l_passed m;
              s_failed := s_failed z + count_where (fun l => negb (l_passed l)) m |}
  end.

(** an entry of [commonFailures] after more failed records [m] of its kind *)
Definition add_failures (c : option FailureCount) (m : list GateLog) : option FailureCount :=
  match c, m with
  | None, [] => None
  | Some Garbled, _ => Some Garbled
  | Some (Count n), _ => Some (Count (n + length m))
  | None, _ => Some (Count (length m))
  end.

(** the workflow report before the fold over the transitions *)
Definition report_start (ts : list WorkflowTransition) : WorkflowReport :=
  {| totalTransitions := length ts; phases := ∅; filesChanged := [] |}.

(** the transitions into the phase [p] *)
Definition into (p : string) (ts : list WorkflowTransition) : list WorkflowTransition :=
  List.filter (fun t => String.eqb (to t) p) ts.

Definition sum_durations (ts : list WorkflowTransition) : Z :=
  fold_left (fun acc t => (acc + duration t)%Z) ts 0%Z.

(** the durations add up without rounding: the numbers of the source are
    doubles, which hold every integer up to 2^53 in absolute value, so that a
    sum is exact as long as the absolute values add up to no more *)
Definition exact_durations (ts : list WorkflowTransition) : Prop :=
  (fold_right (fun t acc => Z.abs (duration t) + acc) 0 ts <= 2 ^ 53)%Z.

(** the entry of [phases] for the transitions [ts] into one phase *)
Definition phase_tally (ts : list WorkflowTransition) : option PhaseStats :=
  match ts with
  | [] => None
  | _ :: _ => Some {| count := length ts; totalDuration := sum_durations ts |}
  end.

(** an entry of [phases] after more transitions [m] into its phase *)
Definition add_phase (st : option PhaseStats) (m : list WorkflowTransition) : option PhaseStats :=
  match st, m with
  | None, [] => None
  | _, _ =>
      let z := default {| count := 0; totalDuration := 0 |} st in
      Some {| count := count z + length m;
              totalDuration :=
                fold_left (fun acc t => (acc + duration t)%Z) m (totalDuration z) |}
  end.

(** the files of all the transitions, in order *)
Definition files_of (ts : list WorkflowTransition) : list string :=
  concat (map (fun t => default [] (t_filesModified t)) ts).

(** the stand-in built-ins, made to read the empty object as a coverage
    summary without [total] as well *)
Definition reading_empty_summary : JsBuiltins :=
  {| toISOString := toISOString (JsBuiltins := sample.builtins);
     Number_toString := Number_toString (JsBuiltins := sample.builtins);
     JSON_stringify_transition := JSON_stringify_transition (JsBuiltins := sample.builtins);
     JSON_stringify_gatelog := JSON_stringify_gatelog (JsBuiltins := sample.builtins);
     JSON_stringify_report := JSON_stringify_report (JsBuiltins := sample.builtins);
     JSON_stringify_quality := JSON_stringify_quality (JsBuiltins := sample.builtins);
     JSON_parse_transition := JSON_parse_transition (JsBuiltins := sample.builtins);
     JSON_parse_gatelog := JSON_parse_gatelog (JsBuiltins := sample.builtins);
     JSON_parse_coverage :=
       fun text =>
         if String.eqb (trim text) "{}" then Returns {| c_total := None |}
         else JSON_parse_coverage (JsBuiltins := sample.builtins) text;
     percent_toFixed2 := percent_toFixed2 (JsBuiltins := sample.builtins) |}.






(** * Properties *)

(** ** The state tracker *)

Lemma last_set_app cs rest before :
  last_set (cs ++ rest) before = last_set rest (last_set cs before).
Proof.
  revert before. induction cs as [|c cs IH]; intros before; [reflexivity|].
  destruct c; simpl; apply IH.
Qed.

Lemma last_set_none cs before :
  forallb (fun c => negb (is_set c)) cs = true -> last_set cs before = before.
Proof.
  revert before. induction cs as [|c cs IH]; intros before Hcs; [reflexivity|].
  destruct c; simpl in *; try discriminate; apply IH, Hcs.
Qed.

Lemma tracker_calls_phase cs o w :
  exists w',
    tracker_calls cs o w = (Returns tt, w') /\
    currentPhase (wf w') = last_set cs (currentPhase (wf w)) /\
    fs w' = fs w.
Proof.
  revert w. induction cs as [|c cs IH]; intros w.
  - exists w. repeat split.
  - destruct c; simpl; unfold bind; simpl;
      match goal with |- context [tracker_calls cs o ?w1] =>
        destruct (IH w1) as (w' & Hrun & Hphase & Hfs) end;
      exists w'; rewrite Hrun; repeat split; assumption.
Qed.

(** C9, as amended.  After any sequence of tracker calls, [getCurrentPhase]
    returns the argument of the most recent [setCurrentPhase] among them; and
    when [setCurrentPhase] was never called since the module was loaded, it
    returns [null] (no phase). *)
Theorem getCurrentPhase_contract :
  (forall o w before phase after,
     forallb (fun c => negb (is_set c)) after = true ->
     exists w',
       tracker_calls (before ++ call_setCurrentPhase phase :: after) o w = (Returns tt, w') /\
       getCurrentPhase o w' = (Returns (Some phase), w')) /\
  (forall o w cs,
     wf w = workflow_state.initial ->
     forallb (fun c => negb (is_set c)) cs = true ->
     exists w',
       tracker_calls cs o w = (Returns tt, w') /\
       getCurrentPhase o w' = (Returns None, w')).
Proof.
  split.
  - intros o w before phase after Hafter.
    destruct (tracker_calls_phase (before ++ call_setCurrentPhase phase :: after) o w)
      as (w' & Hrun & Hphase & _).
    exists w'. split; [exact Hrun|].
    unfold getCurrentPhase, gets. rewrite Hphase, last_set_app. simpl.
    rewrite (last_set_none after _ Hafter). reflexivity.
  - intros o w cs Hinit Hcs.
    destruct (tracker_calls_phase cs o w) as (w' & Hrun & Hphase & _).
    exists w'. split; [exact Hrun|].
    unfold getCurrentPhase, gets. rewrite Hphase, (last_set_none cs _ Hcs), Hinit.
    reflexivity.
Qed.

Lemma getCurrentPhase_contract_witness :
  (exists w',
     tracker_calls
       [ call_setCurrentPhase "design"; call_addModifiedFile "a.ts";
         call_setCurrentPhase "implement"; call_clearModifiedFiles ] calm fresh_world
     = (Returns tt, w') /\
     getCurrentPhase calm w' = (Returns (Some "implement"), w')) /\
  (exists w',
     tracker_calls [ call_addModifiedFile "a.ts" ] calm fresh_world = (Returns tt, w') /\
     getCurrentPhase calm w' = (Returns None, w')).
Proof.
  split.
  - apply (proj1 getCurrentPhase_contract calm fresh_world
             [ call_setCurrentPhase "design"; call_addModifiedFile "a.ts" ]
             "implement" [ call_clearModifiedFiles ]).
    reflexivity.
  - apply (proj2 getCurrentPhase_contract calm fresh_world); reflexivity.
Defined.

(** C9, as stated, fails: before any [setCurrentPhase] the getter returns
    [null], which is not the text "none". *)
Lemma getCurrentPhase_never_set_is_null :
  getCurrentPhase calm fresh_world = (Returns None, fresh_world) /\
  fst (getCurrentPhase calm fresh_world) <> Returns (Some "none").
Proof. split; [reflexivity | discriminate]. Qed.

(** ** The track-phase tool *)

Lemma invalid_phase_enumerates phase :
  invalid_phase phase =
  "❌ Invalid phase: " +:+ phase +:+
  ". Must be one of: plan, design, implement, test, review, release, operate".
Proof. reflexivity. Qed.

Lemma execute_rejects `{JsBuiltins} (phase : string) (o : Oracle) (w : World) :
  array_includes validPhases (toLowerCase phase) = false ->
  track_phase.execute phase o w = (Returns (invalid_phase phase), w).
Proof.
  intros Hbad. unfold track_phase.execute. rewrite Hbad. reflexivity.
Qed.

(** What a successful run of the tool leaves behind. *)
Lemma execute_accepts `{JsBuiltins} (phase : string) (o : Oracle) (w : World) :
  array_includes validPhases (toLowerCase phase) = true ->
  io_error o io_mkdir = None ->
  io_error o (io_append transitions_jsonl) = None ->
  exists w' stamp elapsed,
    track_phase.execute phase o w
      = (Returns (transitioned phase (currentPhase (wf w))), w') /\
    currentPhase (wf w') = Some phase /\
    filesModified (wf w') = [] /\
    content (fs w') transitions_jsonl =
      Some (default EmptyString (content (fs w) transitions_jsonl) +:+
            JSON_stringify_transition
              {| timestamp := stamp; from := currentPhase (wf w); to := phase;
                 duration := elapsed;
                 t_filesModified := Some (filesModified (wf w)) |} +:+
            String LF EmptyString) /\
    (forall f, f <> transitions_jsonl -> content (fs w') f = content (fs w) f) /\
    toasts w' = toasts w.
Proof.
  intros Hok Hmkdir Happend.
  unfold track_phase.execute. rewrite Hok. simpl.
  unfold bind, initializeWorkflowState, existsSync_workflowDir, gets, bind, mkdirSync,
    logTransition, getCurrentPhase, getFilesModified, Date_toISOString, Date_now,
    appendFileSync, setCurrentPhase, clearModifiedFiles, modify, ret, bind.
  simpl.
  destruct (workflowDir (fs w)) eqn:Hdir; simpl; rewrite ?Hmkdir; simpl;
    destruct (phaseStartTime (wf w)) as [t0|] eqn:Hstart; simpl;
    rewrite ?Happend; simpl; rewrite ?Hdir; simpl.
  all: do 3 eexists; (split; [reflexivity|]); simpl.
  all: repeat split; try reflexivity.
  all: intros f Hf; case_decide; [congruence|reflexivity].
Qed.

(** ** Transition keys *)

Lemma append_nil (s : string) : EmptyString +:+ s = s.
Proof. reflexivity. Qed.

Lemma append_cons (c : ascii) (a s : string) : String c a +:+ s = String c (a +:+ s).
Proof. reflexivity. Qed.

Lemma has_byte_arrow a b : has_byte arrow_lead (a +:+ arrow +:+ b) = true.
Proof.
  induction a as [|c a IH]; [reflexivity|].
  rewrite append_cons. simpl. rewrite IH. apply orb_true_r.
Qed.

(** A key is split by its arrow in one way only, when neither side of the
    reference key holds the first byte of the arrow. *)
Lemma arrow_split (k m a b : string) :
  has_byte arrow_lead k = false ->
  has_byte arrow_lead m = false ->
  a +:+ arrow +:+ b = k +:+ arrow +:+ m ->
  a = k /\ b = m.
Proof.
  revert a. induction k as [|c k IH]; intros a Hk Hm Heq.
  - unfold arrow in Heq at 2. rewrite append_nil, !append_cons, append_nil in Heq.
    destruct a as [|c1 [|c2 [|c3 a]]];
      unfold arrow in Heq; rewrite ?append_cons, ?append_nil in Heq;
      try discriminate.
    + injection Heq as ->. split; reflexivity.
    + exfalso. injection Heq as _ _ _ Heq.
      pose proof (has_byte_arrow a b) as Hin. unfold arrow in Hin.
      rewrite !append_cons, append_nil in Hin.
      rewrite Heq in Hin. congruence.
  - simpl in Hk. apply orb_false_elim in Hk as [Hc Hk].
    destruct a as [|c1 a]; rewrite ?append_nil, ?append_cons in Heq.
    + unfold arrow in Heq at 1. rewrite append_cons in Heq.
      injection Heq as Heq _. subst c. discriminate.
    + injection Heq as -> Heq. destruct (IH a Hk Hm Heq) as [-> ->].
      split; reflexivity.
Qed.

(** The keys that the hook forms are never names that the [gates] object
    inherits. *)
Lemma transition_key_not_inherited (cp np : string) :
  cp +:+ arrow +:+ np ∉ Object_prototype_names.
Proof.
  intros Hin. pose proof (has_byte_arrow cp np) as Hbyte.
  unfold Object_prototype_names in Hin.
  repeat (apply elem_of_cons in Hin as [Heq|Hin];
          [rewrite Heq in Hbyte; discriminate Hbyte|]).
  apply elem_of_nil in Hin. contradiction.
Qed.

(** ** The gate recipes *)

Ltac unfold_gate :=
  unfold try_catch, bind, leave, result, run_text, run, bind, lift, Date_toISOString,
    Date_now, bind, ret.

Ltac gate_cases o :=
  repeat (simpl;
          match goal with
          | |- context [shell o ?c] =>
              let E := fresh "Eshell" in destruct (shell o c) as [?|?] eqn:E
          | |- context [says_true ?s] =>
              let E := fresh "Esays" in destruct (says_true s) eqn:E
          | |- context [JsString.truthy ?s] =>
              let E := fresh "Etruthy" in destruct (JsString.truthy s) eqn:E
          | |- context [Z.eqb ?a ?b] =>
              let E := fresh "Eexit" in destruct (Z.eqb a b) eqn:E
          | |- context [JSON_parse_coverage ?s] =>
              let E := fresh "Eparse" in destruct (JSON_parse_coverage s) as [?|?] eqn:E
          | |- context [lt ?a ?b] =>
              let E := fresh "Elt" in destruct (lt a b) eqn:E
          end).

Ltac gate_leaf :=
  do 3 eexists; split; [reflexivity|]; split;
  [ repeat split; simpl; rewrite <- ?app_assoc; reflexivity |].

Ltac members Hin :=
  simpl in Hin;
  repeat match type of Hin with
         | _ ∈ _ :: _ => apply elem_of_cons in Hin as [->|Hin]
         | _ ∈ [] => apply elem_of_nil in Hin; contradiction
         end.

Ltac blame :=
  let c := fresh "c" in let e := fresh "e" in
  let Hin := fresh "Hin" in let Hthrow := fresh "Hthrow" in let Hne := fresh "Hne" in
  intros c e Hin Hthrow Hne; members Hin;
  try congruence;
  (split; [reflexivity | simpl; congruence]).

Ltac not_started :=
  let Hin := fresh "Hin" in let Heq := fresh "Heq" in
  intros Hin _; simpl in Hin;
  repeat (apply elem_of_cons in Hin as [Heq|Hin]; [discriminate Heq|]);
  apply elem_of_nil in Hin; contradiction.

Lemma design_implement_cases `{JsBuiltins} o w :
  exists r w' started,
    design_implement o w = (Returns r, w') /\
    gate_run w w' started /\ fail_closed o started r /\ fail_open_on_coverage o started r.
Proof.
  unfold design_implement. unfold_gate.
  gate_cases o; gate_leaf; (split; [blame | not_started]).
Qed.

Lemma implement_test_cases `{JsBuiltins} o w :
  exists r w' started,
    implement_test o w = (Returns r, w') /\
    gate_run w w' started /\ fail_closed o started r /\ fail_open_on_coverage o started r.
Proof.
  unfold implement_test. unfold_gate.
  gate_cases o; gate_leaf; (split; [blame | not_started]).
Qed.

Lemma review_release_cases `{JsBuiltins} o w :
  exists r w' started,
    review_release o w = (Returns r, w') /\
    gate_run w w' started /\ fail_closed o started r /\ fail_open_on_coverage o started r.
Proof.
  unfold review_release. unfold_gate.
  gate_cases o; gate_leaf; (split; [blame | not_started]).
Qed.

Lemma test_review_cases `{JsBuiltins} T o w :
  exists r w' started,
    test_review T o w = (Returns r, w') /\
    gate_run w w' started /\ fail_closed o started r /\ fail_open_on_coverage o started r.
Proof.
  unfold test_review. unfold_gate.
  gate_cases o; gate_leaf; (split; [blame |]).
  all: try not_started.
  all: intros Hin [(e' & He) | (out & e' & Hout & He)]; try congruence.
  all: try (split; reflexivity).
  all: rewrite Hout in *; simplify_eq.
Qed.

Lemma validateGate_cases `{JsBuiltins} T key o w :
  exists r w' started,
    validateGate T key o w = (Returns r, w') /\
    gate_run w w' started /\ fail_closed o started r /\
    fail_open_on_coverage o started r /\
    (key ∉ defined_gates -> passed r = true /\ message r = no_gate key).
Proof.
  unfold validateGate, gates. cbn [List.find fst snd].
  destruct (String.eqb "design→implement" key) eqn:E1;
    [|destruct (String.eqb "implement→test" key) eqn:E2;
      [|destruct (String.eqb "test→review" key) eqn:E3;
        [|destruct (String.eqb "review→release" key) eqn:E4]]].
  - apply String.eqb_eq in E1. subst key.
    destruct (design_implement_cases o w) as (r & w' & st & Hrun & Hw & Hc & Ho).
    exists r, w', st. do 4 (split; [assumption|]).
    intros Hnot. exfalso. apply Hnot. unfold defined_gates. set_solver.
  - apply String.eqb_eq in E2. subst key.
    destruct (implement_test_cases o w) as (r & w' & st & Hrun & Hw & Hc & Ho).
    exists r, w', st. do 4 (split; [assumption|]).
    intros Hnot. exfalso. apply Hnot. unfold defined_gates. set_solver.
  - apply String.eqb_eq in E3. subst key.
    destruct (test_review_cases T o w) as (r & w' & st & Hrun & Hw & Hc & Ho).
    exists r, w', st. do 4 (split; [assumption|]).
    intros Hnot. exfalso. apply Hnot. unfold defined_gates. set_solver.
  - apply String.eqb_eq in E4. subst key.
    destruct (review_release_cases o w) as (r & w' & st & Hrun & Hw & Hc & Ho).
    exists r, w', st. do 4 (split; [assumption|]).
    intros Hnot. exfalso. apply Hnot. unfold defined_gates. set_solver.
  - unfold_gate. do 2 eexists. exists []. split; [reflexivity|].
    split; [repeat split; simpl; rewrite ?app_nil_r; reflexivity|].
    split; [intros c e Hin; apply elem_of_nil in Hin; contradiction|].
    split; [intros Hin; apply elem_of_nil in Hin; contradiction|].
    intros _. split; reflexivity.
Qed.

Ltac in_list :=
  solve [ repeat first [ apply list_elem_of_here | apply list_elem_of_further ] ].

Ltac not_in H :=
  repeat (apply elem_of_cons in H as [H|H]; [discriminate H|]);
  apply elem_of_nil in H; contradiction.

Ltac steps_leaf o :=
  unfold gate_steps; cbn [unconditional String.eqb Ascii.eqb Bool.eqb head passed];
  split; [reflexivity|];
  split; [first [ discriminate
                | let c := fresh "c" in let Hc := fresh "Hc" in
                  intros _ c Hc; members Hc; in_list ] |];
  split;
  [ let p := fresh "p" in let k := fresh "k" in let Hp := fresh "Hp" in
    intros p k Hp; unfold optional_checks in Hp;
    repeat (apply elem_of_cons in Hp as [Hp|Hp]; [injection Hp as -> ->|]);
    [ .. | apply elem_of_nil in Hp; contradiction ];
    (split;
     [ let Hin := fresh "Hin" in
       intros Hin;
       first [ not_in Hin
             | split; [in_list | eexists; split; [eassumption | assumption]] ]
     | let Hin := fresh "Hin" in let out := fresh "out" in
       let Hout := fresh "Hout" in let Htrue := fresh "Htrue" in
       intros [Hin (out & Hout & Htrue)];
       first [ in_list | not_in Hin | congruence ] ])
  | let Hall := fresh "Hall" in let Hkey := fresh "Hkey" in
    intros Hall Hkey;
    first [ split; reflexivity
          | destruct Hkey as [Hkey|Hkey]; discriminate Hkey
          | exfalso;
            repeat match goal with
                   | E : shell o ?c = _ |- _ =>
                       let out := fresh "out" in let Ho := fresh "Ho" in
                       let Hs := fresh "Hs" in
                       assert (printed_other o c) as (out & Ho & Hs)
                         by (apply Hall; in_list);
                       rewrite E in Ho; revert E
                   end; intros; congruence ] ].

Lemma design_implement_steps `{JsBuiltins} o w :
  exists r w' started,
    design_implement o w = (Returns r, w') /\
    gate_run w w' started /\ gate_steps o "design→implement" started r.
Proof.
  unfold design_implement. unfold_gate.
  gate_cases o; gate_leaf; steps_leaf o.
Qed.

Lemma implement_test_steps `{JsBuiltins} o w :
  exists r w' started,
    implement_test o w = (Returns r, w') /\
    gate_run w w' started /\ gate_steps o "implement→test" started r.
Proof.
  unfold implement_test. unfold_gate.
  gate_cases o; gate_leaf; steps_leaf o.
Qed.

Lemma review_release_steps `{JsBuiltins} o w :
  exists r w' started,
    review_release o w = (Returns r, w') /\
    gate_run w w' started /\ gate_steps o "review→release" started r.
Proof.
  unfold review_release. unfold_gate.
  gate_cases o; gate_leaf; steps_leaf o.
Qed.

Lemma test_review_steps `{JsBuiltins} T o w :
  exists r w' started,
    test_review T o w = (Returns r, w') /\
    gate_run w w' started /\ gate_steps o "test→review" started r.
Proof.
  unfold test_review. unfold_gate.
  gate_cases o; gate_leaf; steps_leaf o.
Qed.

Lemma validateGate_steps `{JsBuiltins} T key o w :
  exists r w' started,
    validateGate T key o w = (Returns r, w') /\
    gate_run w w' started /\ gate_steps o key started r.
Proof.
  unfold validateGate, gates. cbn [List.find fst snd].
  destruct (String.eqb "design→implement" key) eqn:E1;
    [|destruct (String.eqb "implement→test" key) eqn:E2;
      [|destruct (String.eqb "test→review" key) eqn:E3;
        [|destruct (String.eqb "review→release" key) eqn:E4]]].
  - apply String.eqb_eq in E1. subst key. apply design_implement_steps.
  - apply String.eqb_eq in E2. subst key. apply implement_test_steps.
  - apply String.eqb_eq in E3. subst key. apply test_review_steps.
  - apply String.eqb_eq in E4. subst key. apply review_release_steps.
  - unfold_gate. do 2 eexists. exists []. split; [reflexivity|].
    split; [repeat split; simpl; rewrite ?app_nil_r; reflexivity|].
    assert (unconditional key = []) as Hnone.
    { unfold unconditional. rewrite String.eqb_sym, E1, String.eqb_sym, E2.
      rewrite String.eqb_sym, E3, String.eqb_sym, E4. reflexivity. }
    unfold gate_steps. rewrite Hnone. split; [reflexivity|].
    split; [intros _ c Hc; exact Hc|].
    split.
    + intros p k _. split; [intros Hin | intros [Hin _]];
        apply elem_of_nil in Hin; contradiction.
    + intros _ [-> | ->]; [discriminate E2 | discriminate E3].
Qed.

(** C2, as amended.  A gate fails closed on the commands that it starts,
    and on nothing else.  For every gate key and every environment the
    evaluation returns a result, and:
    - it starts the first command of the gate, a passing result has started
      every command of the gate that does not wait for a probe, and a check
      that waits for a probe is started exactly when the probe was started and
      printed [true];
    - every started command that threw, the read of the coverage file apart,
      makes the result [passed:false] with the message of its step;
    - a coverage file that cannot be read or parsed is passed over and the
      gate passes;
    - when the probes of implement→test or of test→review print anything
      else than [true] (as the shell lines do when the file is missing or when
      the test itself cannot run), the gate passes having started no check,
      whatever the checks would have done. *)
Theorem gates_fail_closed_when_started `{JsBuiltins}
    (T : number) (key : string) (o : Oracle) (w : World) :
  exists r w' started,
    validateGate T key o w = (Returns r, w') /\
    spawned w' = (spawned w ++ started)%list /\
    head started = head (unconditional key) /\
    (passed r = true -> forall c, c ∈ unconditional key -> c ∈ started) /\
    (forall probe check, (probe, check) ∈ optional_checks ->
       check ∈ started <-> probe ∈ started /\ printed_true o probe) /\
    (forall c e,
       c ∈ started -> shell o c = Throws e -> c <> cat_coverage_file ->
       passed r = false /\ Some (message r) = step_failure c e) /\
    (cat_coverage_file ∈ started ->
     ((exists e, shell o cat_coverage_file = Throws e) \/
      (exists out e, shell o cat_coverage_file = Returns out /\
                     JSON_parse_coverage (stdout out) = Throws e)) ->
     passed r = true /\ message r = "✅ Tests pass with sufficient coverage") /\
    ((forall c, c ∈ unconditional key -> printed_other o c) ->
     key = "implement→test" \/ key = "test→review" ->
     passed r = true /\ started = unconditional key).
Proof.
  destruct (validateGate_cases T key o w) as (r & w' & st & Hrun & Hw & Hc & Ho & _).
  destruct (validateGate_steps T key o w)
    as (r' & w'' & st' & Hrun' & Hw' & Hhead & Hall & Hopt & Hskip).
  rewrite Hrun in Hrun'. injection Hrun' as <- <-.
  assert (st' = st) as ->.
  { destruct Hw as (_ & _ & _ & _ & Hs & _), Hw' as (_ & _ & _ & _ & Hs' & _).
    rewrite Hs in Hs'. apply app_inv_head in Hs'. symmetry. exact Hs'. }
  exists r, w', st. split; [exact Hrun|]. split; [apply Hw|].
  split; [exact Hhead|]. split; [exact Hall|]. split; [exact Hopt|].
  split; [exact Hc|]. split; [exact Ho | exact Hskip].
Qed.

(** ** The enforcement hook *)

Lemma defined_key_phases (cp np : string) :
  cp +:+ arrow +:+ np ∈ defined_gates -> (cp, np) ∈ gated_pairs.
Proof.
  unfold defined_gates, gated_pairs. intros Hin.
  repeat (apply elem_of_cons in Hin as [Heq|Hin];
          [ first
              [ apply (arrow_split "design" "implement") in Heq as [-> ->]
              | apply (arrow_split "implement" "test") in Heq as [-> ->]
              | apply (arrow_split "test" "review") in Heq as [-> ->]
              | apply (arrow_split "review" "release") in Heq as [-> ->] ];
            [ set_solver | reflexivity | reflexivity ]
          | ]).
  apply elem_of_nil in Hin. contradiction.
Qed.

(** A key with a side that differs from its lower-cased form names no gate. *)
Lemma other_casing_not_gated (cp np : string) :
  toLowerCase cp <> cp \/ toLowerCase np <> np ->
  cp +:+ arrow +:+ np ∉ defined_gates.
Proof.
  intros Hcase Hin. apply defined_key_phases in Hin. unfold gated_pairs in Hin.
  repeat (apply elem_of_cons in Hin as [Heq|Hin];
          [ injection Heq as -> ->; destruct Hcase as [Hc|Hc]; apply Hc; reflexivity | ]).
  apply elem_of_nil in Hin. contradiction.
Qed.

Lemma logGateCheck_cases `{JsBuiltins} (log : GateLog) (o : Oracle) (w : World) :
  logGateCheck log o w =
  match io_error o (io_append quality_gates_jsonl) with
  | Some e => (Returns tt, add_toast (log_failure e) w)
  | None =>
      if workflowDir (fs w) then
        (Returns tt,
         set_fs (write_content quality_gates_jsonl
                   (default EmptyString (content (fs w) quality_gates_jsonl) +:+
                    JSON_stringify_gatelog log +:+ String LF EmptyString)) w)
      else (Returns tt, add_toast (log_failure "ENOENT: no such file or directory") w)
  end.
Proof.
  unfold logGateCheck, try_catch, appendFileSync, notifier_show, modify.
  destruct (io_error o (io_append quality_gates_jsonl)); [reflexivity|].
  destruct (workflowDir (fs w)); reflexivity.
Qed.

Lemma logGateCheck_frame `{JsBuiltins} (log : GateLog) (o : Oracle) (w : World) :
  exists w',
    logGateCheck log o w = (Returns tt, w') /\
    wf w' = wf w /\ workflowDir (fs w') = workflowDir (fs w) /\
    (forall f, f <> quality_gates_jsonl -> content (fs w') f = content (fs w) f).
Proof.
  rewrite logGateCheck_cases.
  destruct (io_error o (io_append quality_gates_jsonl));
    [|destruct (workflowDir (fs w)) eqn:Hdir];
    eexists; (split; [reflexivity|]); simpl; repeat split; try assumption.
  intros f Hf. case_decide; [congruence|reflexivity].
Qed.

(** The hook on a call of the track-phase tool, once the key is formed. *)
Lemma hook_on_track_phase `{JsBuiltins}
    (cfg : Config) (args : ToolArgs) (o : Oracle) (w : World) (cp np : string)
    (r : GateResult) (w1 : World) :
  phase args = Some np ->
  currentPhase (wf w) = Some cp ->
  JsString.truthy cp = true -> JsString.truthy np = true ->
  validateGate (coverageThreshold cfg) (cp +:+ arrow +:+ np) o w = (Returns r, w1) ->
  tool_execute_before cfg "track-phase" args o w =
  let w2 := snd (logGateCheck (gate_log cfg (cp +:+ arrow +:+ np) r) o w1) in
  if passed r then (Returns tt, w2)
  else if strictMode cfg then (Throws (Error (blocked_message (message r))), w2)
  else (Returns tt,
        add_toast (toast_warning, "Quality Gate Warning: " +:+ message r) w2).
Proof.
  intros Hnp Hcp Htcp Htnp Hgate.
  unfold tool_execute_before.
  change (String.eqb "track-phase" "write" || String.eqb "track-phase" "edit") with false.
  change (negb (String.eqb "track-phase" "track-phase")) with false.
  rewrite Hnp. unfold bind at 1. cbn [ret].
  unfold bind at 1. unfold getCurrentPhase at 1. unfold gets. rewrite Hcp, Htcp, Htnp.
  cbn [negb orb]. unfold bind at 1. rewrite Hgate.
  fold (gate_log cfg (cp +:+ arrow +:+ np) r).
  destruct (logGateCheck_frame (gate_log cfg (cp +:+ arrow +:+ np) r) o w1)
    as (w2 & Hlog & _).
  unfold bind. rewrite Hlog. cbn [snd].
  destruct (passed r); [reflexivity|]. cbn [negb].
  destruct (strictMode cfg); reflexivity.
Qed.

Lemma failing_gate_is_defined `{JsBuiltins}
    (T : number) (key : string) (o : Oracle) (w : World) (r : GateResult) (w1 : World) :
  validateGate T key o w = (Returns r, w1) ->
  passed r = false ->
  key ∈ defined_gates /\ wf w1 = wf w /\ fs w1 = fs w /\ toasts w1 = toasts w.
Proof.
  intros Hgate Hfail.
  destruct (validateGate_cases T key o w) as (r' & w' & st & Hrun & Hw & _ & _ & Hnone).
  rewrite Hgate in Hrun. injection Hrun as <- <-.
  destruct Hw as (Hwf & Hfs & _ & Htoasts & _).
  repeat split; try assumption.
  destruct (decide (key ∈ defined_gates)) as [Hin|Hout]; [exact Hin|].
  destruct (Hnone Hout) as [Hpass _]. congruence.
Qed.

(** C1.  Let the plugin be enabled and the gate evaluation of the requested
    transition return [passed:false].  In warning mode the call of the
    track-phase tool still succeeds (the file system accepting the log line),
    with a warning shown, and the current phase becomes the target.  In
    strict mode the call fails with the blocking error; the tool body, hence
    [setCurrentPhase], does not run: the tracker state and the transition log
    are what they were. *)
Theorem failing_gate_warns_or_blocks `{JsBuiltins}
    (cfg : Config) (o : Oracle) (w : World) (cp np : string)
    (r : GateResult) (w1 : World) :
  enabled cfg = true ->
  currentPhase (wf w) = Some cp ->
  validateGate (coverageThreshold cfg) (cp +:+ arrow +:+ np) o w = (Returns r, w1) ->
  passed r = false ->
  (strictMode cfg = false ->
   io_error o io_mkdir = None ->
   io_error o (io_append transitions_jsonl) = None ->
   exists w',
     call_track_phase cfg np o w = (Returns (transitioned np (Some cp)), w') /\
     getCurrentPhase o w' = (Returns (Some np), w') /\
     (toast_warning, "Quality Gate Warning: " +:+ message r) ∈ toasts w') /\
  (strictMode cfg = true ->
   exists w',
     call_track_phase cfg np o w
       = (Throws (Error (blocked_message (message r))), w') /\
     wf w' = wf w /\
     content (fs w') transitions_jsonl = content (fs w) transitions_jsonl).
Proof.
  intros Hen Hcp Hgate Hfail.
  destruct (failing_gate_is_defined _ _ _ _ _ _ Hgate Hfail)
    as (Hkey & Hwf1 & Hfs1 & Htoasts1).
  apply defined_key_phases in Hkey.
  assert (JsString.truthy cp = true /\ JsString.truthy np = true /\
          array_includes validPhases (toLowerCase np) = true) as (Htcp & Htnp & Hvalid).
  { unfold gated_pairs in Hkey.
    repeat (apply elem_of_cons in Hkey as [Heq|Hkey];
            [simplify_eq; repeat split; reflexivity|]).
    apply elem_of_nil in Hkey. contradiction. }
  pose proof (hook_on_track_phase cfg {| phase := Some np; file_path := None; path := None |}
                o w cp np r w1 eq_refl Hcp Htcp Htnp Hgate) as Hhook.
  destruct (logGateCheck_frame (gate_log cfg (cp +:+ arrow +:+ np) r) o w1)
    as (w2 & Hlog & Hwf2 & Hdir2 & Hfs2).
  rewrite Hlog, Hfail in Hhook. cbn [snd] in Hhook.
  unfold call_track_phase. rewrite Hen. split.
  - intros Hwarn Hmkdir Happend. rewrite Hwarn in Hhook.
    unfold bind at 1. rewrite Hhook.
    set (w3 := add_toast (toast_warning, "Quality Gate Warning: " +:+ message r) w2).
    destruct (execute_accepts np o w3 Hvalid Hmkdir Happend)
      as (w' & stamp & elapsed & Hexec & Hphase & _ & _ & _ & Htoasts).
    exists w'. rewrite Hexec. subst w3. cbn [wf add_toast]. rewrite Hwf2, Hwf1, Hcp.
    split; [reflexivity|]. split.
    + unfold getCurrentPhase, gets. rewrite Hphase. reflexivity.
    + rewrite Htoasts. cbn [toasts add_toast]. apply elem_of_app. right. constructor.
  - intros Hstrict. rewrite Hstrict in Hhook.
    unfold bind at 1. rewrite Hhook.
    exists w2. split; [reflexivity|]. split; [congruence|].
    rewrite Hfs2 by discriminate. rewrite Hfs1. reflexivity.
Qed.

(** *** What the hook writes to the gate log *)

Lemma hook_without_check `{JsBuiltins}
    (cfg : Config) (tool : string) (args : ToolArgs) (o : Oracle) (w : World) :
  gate_checked tool args w = false ->
  fs (snd (tool_execute_before cfg tool args o w)) = fs w /\
  wf (snd (tool_execute_before cfg tool args o w)) = wf w.
Proof.
  unfold gate_checked, tool_execute_before. intros Hno.
  destruct (String.eqb tool "write" || String.eqb tool "edit") eqn:Hedit.
  - assert (String.eqb tool "track-phase" = false) as Htrack.
    { apply orb_true_iff in Hedit as [Heq|Heq]; apply String.eqb_eq in Heq;
        subst tool; reflexivity. }
    rewrite Htrack. cbn [negb].
    unfold bind, Date_toISOString, Date_now, bind, modify, notifier_show, modify, ret.
    destruct (or_else (file_path args) (path args)) as [filePath|];
      [|split; reflexivity].
    destruct (JsString.truthy filePath); [|split; reflexivity].
    cbn [fst snd]. destruct (suggestGateCheck filePath) as [suggestion|];
      [|split; reflexivity].
    destruct (JsString.truthy suggestion); split; reflexivity.
  - destruct (String.eqb tool "track-phase") eqn:Htrack; cbn [negb];
      [|split; reflexivity].
    cbn [andb] in Hno.
    cbv beta iota delta [bind ret gets getCurrentPhase].
    destruct (currentPhase (wf w)) as [cp|]; [|split; reflexivity].
    destruct (phase args) as [np|]; [|split; reflexivity].
    cbn [is_truthy] in Hno.
    destruct (JsString.truthy cp); cbn [negb orb andb] in *; [|split; reflexivity].
    rewrite Hno. split; reflexivity.
Qed.

Lemma hook_with_check `{JsBuiltins}
    (cfg : Config) (tool : string) (args : ToolArgs) (o : Oracle) (w : World) :
  gate_checked tool args w = true ->
  exists cp np,
    currentPhase (wf w) = Some cp /\ phase args = Some np /\
    forall r w1,
      validateGate (coverageThreshold cfg) (cp +:+ arrow +:+ np) o w = (Returns r, w1) ->
      snd (tool_execute_before cfg tool args o w) =
        (if passed r || strictMode cfg then (fun x => x)
         else add_toast (toast_warning, "Quality Gate Warning: " +:+ message r))
          (snd (logGateCheck (gate_log cfg (cp +:+ arrow +:+ np) r) o w1)).
Proof.
  unfold gate_checked. intros Hyes.
  apply andb_true_iff in Hyes as [Hyes Hnp]. apply andb_true_iff in Hyes as [Htool Hcp].
  apply String.eqb_eq in Htool. subst tool.
  destruct (currentPhase (wf w)) as [cp|] eqn:Ecp; [|discriminate].
  destruct (phase args) as [np|] eqn:Enp; [|discriminate].
  cbn [is_truthy] in Hcp, Hnp.
  exists cp, np. split; [reflexivity|]. split; [reflexivity|].
  intros r w1 Hgate.
  rewrite (hook_on_track_phase cfg args o w cp np r w1 Enp Ecp Hcp Hnp Hgate).
  cbv zeta. destruct (passed r); [reflexivity|]. destruct (strictMode cfg); reflexivity.
Qed.

Lemma logged_record `{JsBuiltins}
    (log : GateLog) (o : Oracle) (w w1 : World) (note : World -> World) :
  fs w1 = fs w ->
  (forall x, fs (note x) = fs x) ->
  if log_writable o w then
    appended_record w (note (snd (logGateCheck log o w1))) log
  else
    content (fs (note (snd (logGateCheck log o w1)))) quality_gates_jsonl
      = content (fs w) quality_gates_jsonl.
Proof.
  intros Hfs Hnote. unfold log_writable, appended_record.
  rewrite Hnote, logGateCheck_cases, Hfs.
  destruct (io_error o (io_append quality_gates_jsonl)) as [e|] eqn:Hio.
  - rewrite bool_decide_eq_false_2 by discriminate. cbn [andb snd fs add_toast].
    rewrite Hfs. reflexivity.
  - rewrite bool_decide_eq_true_2 by reflexivity. cbn [andb].
    destruct (workflowDir (fs w)); cbn [snd fs add_toast set_fs content write_content].
    + rewrite Hfs. case_decide; [reflexivity|congruence].
    + rewrite Hfs. reflexivity.
Qed.

(** C5.  Run the hook on the same call, environment and world once in
    warning and once in strict mode.  When a gate is evaluated and the log
    accepts the line, each run appends one record; in both records [blocked]
    is true exactly when [passed] is false and the mode is strict, and the two
    records carry the same [passed].  Otherwise neither run touches the gate
    log. *)
Theorem gate_log_records `{JsBuiltins}
    (T : number) (tool : string) (args : ToolArgs) (o : Oracle) (w : World) :
  let after s := snd (tool_execute_before (during_mode s T) tool args o w) in
  if gate_checked tool args w && log_writable o w then
    exists lw ls,
      appended_record w (after false) lw /\ appended_record w (after true) ls /\
      mode lw = warning /\ mode ls = strict /\
      (blocked lw = true <-> l_passed lw = false /\ mode lw = strict) /\
      (blocked ls = true <-> l_passed ls = false /\ mode ls = strict) /\
      l_passed lw = l_passed ls
  else
    content (fs (after false)) quality_gates_jsonl = content (fs w) quality_gates_jsonl /\
    content (fs (after true)) quality_gates_jsonl = content (fs w) quality_gates_jsonl.
Proof.
  intros after. subst after. cbv beta.
  destruct (gate_checked tool args w) eqn:Hcheck; cbn [andb].
  - destruct (hook_with_check (during_mode false T) tool args o w Hcheck)
      as (cp & np & Hcp & Hnp & Hwarn).
    destruct (hook_with_check (during_mode true T) tool args o w Hcheck)
      as (cp' & np' & Hcp' & Hnp' & Hstrict).
    rewrite Hcp in Hcp'. rewrite Hnp in Hnp'.
    injection Hcp' as <-. injection Hnp' as <-.
    destruct (validateGate_cases T (cp +:+ arrow +:+ np) o w)
      as (r & w1 & st & Hgate & Hw & _).
    assert (fs w1 = fs w) as Hfs by apply Hw.
    rewrite (Hwarn r w1 Hgate), (Hstrict r w1 Hgate).
    cbn [strictMode during_mode]. rewrite orb_true_r.
    pose proof (logged_record (gate_log (during_mode false T) (cp +:+ arrow +:+ np) r)
                  o w w1
                  (if passed r || false then (fun x => x)
                   else add_toast (toast_warning, "Quality Gate Warning: " +:+ message r))
                  Hfs) as Lw.
    pose proof (logged_record (gate_log (during_mode true T) (cp +:+ arrow +:+ np) r)
                  o w w1 (fun x => x) Hfs (fun x => eq_refl)) as Ls.
    assert (forall x,
              fs ((if passed r || false then (fun x => x)
                   else add_toast (toast_warning,
                                   "Quality Gate Warning: " +:+ message r)) x) = fs x)
      as Hnote by (intros x; destruct (passed r); reflexivity).
    specialize (Lw Hnote).
    destruct (log_writable o w).
    + exists (gate_log (during_mode false T) (cp +:+ arrow +:+ np) r),
             (gate_log (during_mode true T) (cp +:+ arrow +:+ np) r).
      split; [exact Lw|]. split; [exact Ls|].
      cbn [mode blocked l_passed gate_log strictMode during_mode].
      split; [reflexivity|]. split; [reflexivity|].
      split; [rewrite andb_false_r; split; [discriminate | intros [_ Hm]; discriminate]|].
      split; [|reflexivity].
      rewrite andb_true_r. split.
      * intros Hb. split; [|reflexivity]. destruct (passed r); [discriminate|reflexivity].
      * intros [-> _]. reflexivity.
    + split; assumption.
  - destruct (hook_without_check (during_mode false T) tool args o w Hcheck) as [-> _].
    destruct (hook_without_check (during_mode true T) tool args o w Hcheck) as [-> _].
    split; reflexivity.
Qed.

(** ** The coverage threshold *)

Lemma Qltb_lt (a b : Q) : Qltb a b = true <-> (a < b)%Q.
Proof. unfold Qltb, Qlt. apply Z.ltb_lt. Qed.

Lemma lt_reported (c : Q) (T : Z) :
  lt (or_zero (Some (Finite c))) (of_Z T) = true <-> (c < inject_Z T)%Q.
Proof.
  unfold or_zero, JsNumber.truthy, of_Z.
  destruct (Qeq_bool c 0) eqn:Hzero; cbn [negb lt].
  - apply Qeq_bool_iff in Hzero. rewrite Qltb_lt, Hzero. reflexivity.
  - apply Qltb_lt.
Qed.

(** C6.  In the test→review gate, let the test-suite step succeed or not be
    configured.  With a coverage file reporting [c] against the threshold
    [T], the gate returns [passed:false] exactly when [c < T]: 72 against 80
    fails, 85 against 80 passes, [c] equal to [T] passes.  Without a coverage
    file the gate passes.  The threshold is 80 when the variable is not set. *)
Theorem coverage_threshold `{JsBuiltins}
    (T : Z) (c : Q) (o : Oracle) (w : World) (tests probe : ShellOutput) :
  shell o grep_npm_test = Returns tests ->
  (says_true (stdout tests) = true -> exists out, shell o npm_test = Returns out) ->
  shell o test_coverage_file = Returns probe ->
  exists r w',
    validateGate (of_Z T) "test→review" o w = (Returns r, w') /\
    (says_true (stdout probe) = true ->
     forall data,
       shell o cat_coverage_file = Returns data ->
       JSON_parse_coverage (stdout data) = Returns (reports c) ->
       (passed r = false <-> (c < inject_Z T)%Q) /\
       (T = 80%Z -> (c == 72)%Q -> passed r = false) /\
       (T = 80%Z -> (c == 85)%Q -> passed r = true) /\
       ((c == inject_Z T)%Q -> passed r = true)) /\
    (says_true (stdout probe) = false -> passed r = true) /\
    (forall env,
       QUALITY_GATE_COVERAGE_THRESHOLD env = None ->
       coverageThreshold (configure env) = of_Z 80).
Proof.
  intros Hgrep Hsuite Hprobe.
  assert (exists r w',
            test_review (of_Z T) o w = (Returns r, w') /\
            (says_true (stdout probe) = true ->
             forall data,
               shell o cat_coverage_file = Returns data ->
               JSON_parse_coverage (stdout data) = Returns (reports c) ->
               passed r = negb (lt (or_zero (Some (Finite c))) (of_Z T))) /\
            (says_true (stdout probe) = false -> passed r = true))
    as (r & w' & Hrun & Hcov & Hnone).
  { remember (lt (or_zero (Some (Finite c))) (of_Z T)) as verdict eqn:Hverdict.
    assert (forall cov, cov = reports c -> lt (totalCoverage cov) (of_Z T) = verdict)
      as Hsame by (intros cov ->; exact (eq_sym Hverdict)).
    clear Hverdict.
    unfold test_review. unfold_gate. rewrite Hgrep. cbn [stdout].
    destruct (says_true (stdout tests)) eqn:Hsays;
      [destruct (Hsuite eq_refl) as (out & Hout); rewrite Hout|];
      rewrite Hprobe; cbn [stdout];
      destruct (says_true (stdout probe)) eqn:Hpresent;
      gate_cases o; do 2 eexists; (split; [reflexivity|]); split;
      try (intros; discriminate); try (intros; reflexivity);
      intros _ data Hdata Hparse; injection Hdata as <-;
      try congruence;
      match goal with
      | E : JSON_parse_coverage _ = Returns ?cov, L : lt (totalCoverage ?cov) _ = _ |- _ =>
          rewrite E in Hparse; injection Hparse as Hcov;
          rewrite (Hsame _ Hcov) in L; rewrite L; reflexivity
      end. }
  exists r, w'. split; [exact Hrun|]. split; [|split; [exact Hnone|]].
  - intros Hpresent data Hdata Hparse.
    specialize (Hcov Hpresent data Hdata Hparse).
    pose proof (lt_reported c T) as Hlt.
    assert (passed r = false <-> (c < inject_Z T)%Q) as Hiff.
    { rewrite Hcov, <- Hlt. destruct (lt _ _); cbn [negb]; split; congruence. }
    split; [exact Hiff|]. repeat split.
    + intros -> Hc. apply Hiff. rewrite Hc. reflexivity.
    + intros -> Hc. destruct (passed r); [reflexivity|].
      exfalso. pose proof (proj1 Hiff eq_refl) as Hbelow.
      rewrite Hc in Hbelow. discriminate Hbelow.
    + intros Hc. destruct (passed r); [reflexivity|].
      exfalso. pose proof (proj1 Hiff eq_refl) as Hbelow.
      rewrite Hc in Hbelow. exact (Qlt_irrefl _ Hbelow).
  - intros env Henv. unfold configure. rewrite Henv. reflexivity.
Qed.

(** ** The lines of a written log *)

Lemma append_assoc (a b c : string) : (a +:+ b) +:+ c = a +:+ (b +:+ c).
Proof.
  induction a as [|x a IH]; [reflexivity|].
  rewrite !append_cons, IH. reflexivity.
Qed.

Lemma bytes_of_append (a b : string) :
  list_ascii_of_string (a +:+ b)
  = (list_ascii_of_string a ++ list_ascii_of_string b)%list.
Proof.
  induction a as [|x a IH]; [reflexivity|].
  rewrite append_cons. cbn [list_ascii_of_string app]. rewrite IH. reflexivity.
Qed.

Lemma text_of_bytes_app (a b : list ascii) :
  string_of_list_ascii (a ++ b) = string_of_list_ascii a +:+ string_of_list_ascii b.
Proof.
  induction a as [|x a IH]; [reflexivity|].
  cbn [app string_of_list_ascii]. rewrite IH, append_cons. reflexivity.
Qed.

(** [trim] takes the final newline off a text that runs from an opening to a
    closing brace, and nothing else. *)
Lemma trim_object_text (m : string) :
  trim (String "{" (m +:+ "}") +:+ String LF EmptyString) = String "{" (m +:+ "}").
Proof.
  unfold trim.
  rewrite append_cons, append_assoc. cbn [list_ascii_of_string].
  rewrite bytes_of_append.
  change (list_ascii_of_string ("}" +:+ String LF EmptyString))
    with ["}"%char; LF].
  set (bm := list_ascii_of_string m).
  assert (trimStart_bytes ("{"%char :: (bm ++ ["}"%char; LF])%list)
          = "{"%char :: (bm ++ ["}"%char; LF])%list) as ->.
  { unfold trimStart_bytes. cbn [length strip_all]. reflexivity. }
  unfold trimEnd_bytes.
  cbn [rev]. rewrite rev_app_distr. cbn [rev app length].
  rewrite length_app. cbn [length]. rewrite Nat.add_comm. cbn [Nat.add strip_all].
  change (strip_any (map (@rev ascii) white_space)
            (LF :: "}"%char :: (rev bm ++ ["{"%char])%list))
    with (Some ("}"%char :: (rev bm ++ ["{"%char])%list)).
  cbn iota.
  change (strip_any (map (@rev ascii) white_space)
            ("}"%char :: (rev bm ++ ["{"%char])%list))
    with (@None (list ascii)).
  cbn iota. cbn [rev]. rewrite rev_app_distr, rev_involutive. cbn [rev app].
  cbn [string_of_list_ascii]. rewrite text_of_bytes_app.
  subst bm. rewrite string_of_list_ascii_of_string. reflexivity.
Qed.

Lemma split_line (l rest : string) :
  has_byte LF l = false ->
  split LF (l +:+ String LF rest) = l :: split LF rest.
Proof.
  induction l as [|c l IH]; intros Hfree.
  - rewrite append_nil. cbn [split]. reflexivity.
  - cbn [has_byte] in Hfree. apply orb_false_elim in Hfree as [Hc Hl].
    rewrite append_cons. cbn [split]. rewrite Hc, (IH Hl). reflexivity.
Qed.

Lemma split_last_line (l : string) :
  has_byte LF l = false -> split LF l = [l].
Proof.
  induction l as [|c l IH]; intros Hfree; [reflexivity|].
  cbn [has_byte] in Hfree. apply orb_false_elim in Hfree as [Hc Hl].
  cbn [split]. rewrite Hc, (IH Hl). reflexivity.
Qed.

Lemma has_byte_append (c : ascii) (a b : string) :
  has_byte c (a +:+ b) = has_byte c a || has_byte c b.
Proof.
  induction a as [|x a IH]; [reflexivity|].
  rewrite append_cons. cbn [has_byte]. rewrite IH. apply orb_assoc.
Qed.

Lemma object_line_free (l : string) : object_line l -> has_byte LF l = false.
Proof.
  intros (mid & -> & Hmid). cbn [has_byte].
  rewrite has_byte_append, Hmid. reflexivity.
Qed.

Lemma split_joined (ls : list string) :
  ls <> [] ->
  Forall (fun l => has_byte LF l = false) ls ->
  split LF (join (String LF EmptyString) ls) = ls.
Proof.
  intros Hne Hall. induction Hall as [|l rest Hl Hrest IH]; [congruence|].
  destruct rest as [|l2 rest].
  - cbn [join]. apply split_last_line, Hl.
  - change (join (String LF EmptyString) (l :: l2 :: rest))
      with (l +:+ String LF EmptyString +:+ join (String LF EmptyString) (l2 :: rest)).
    rewrite append_cons, append_nil, (split_line _ _ Hl), IH by discriminate.
    reflexivity.
Qed.

Lemma joined_object_lines (ls : list string) :
  ls <> [] ->
  Forall object_line ls ->
  exists m, join (String LF EmptyString) ls = String "{" (m +:+ "}").
Proof.
  intros Hne Hall. induction Hall as [|l rest Hl Hrest IH]; [congruence|].
  destruct rest as [|l2 rest].
  - destruct Hl as (mid & -> & _). exists mid. reflexivity.
  - destruct Hl as (mid & -> & _).
    destruct IH as (m & Hjoin); [discriminate|].
    change (join (String LF EmptyString) (String "{" (mid +:+ "}") :: l2 :: rest))
      with (String "{" (mid +:+ "}") +:+ String LF EmptyString +:+
            join (String LF EmptyString) (l2 :: rest)).
    rewrite Hjoin.
    exists (mid +:+ "}" +:+ String LF EmptyString +:+ String "{" m).
    rewrite !append_cons, !append_assoc, !append_cons, !append_nil. reflexivity.
Qed.

Lemma unlines_joined (ls : list string) :
  ls <> [] ->
  unlines ls = join (String LF EmptyString) ls +:+ String LF EmptyString.
Proof.
  intros Hne. induction ls as [|l rest IH]; [congruence|].
  destruct rest as [|l2 rest]; [reflexivity|].
  cbn [unlines] in *. rewrite IH by discriminate.
  change (join (String LF EmptyString) (l :: l2 :: rest))
    with (l +:+ String LF EmptyString +:+ join (String LF EmptyString) (l2 :: rest)).
  rewrite !append_assoc, !append_cons, !append_nil. reflexivity.
Qed.

(** The lines that the report generators read from a log of N >= 1 object
    lines, each written with its newline, are those N lines. *)
Lemma written_log_lines (ls : list string) :
  ls <> [] ->
  Forall object_line ls ->
  split LF (trim (unlines ls)) = ls.
Proof.
  intros Hne Hall.
  destruct (joined_object_lines ls Hne Hall) as (m & Hjoin).
  rewrite (unlines_joined ls Hne), Hjoin, trim_object_text, <- Hjoin.
  apply split_joined; [exact Hne|].
  eapply Forall_impl; [exact Hall|]. apply object_line_free.
Qed.

(** ** Folding the logs into reports *)

Lemma mapM_lift_returns {A B} (f : A -> Outcome B) (xs : list A) (ys : list B) o w :
  Forall2 (fun x y => f x = Returns y) xs ys ->
  mapM (fun x => lift (f x)) xs o w = (Returns ys, w).
Proof.
  intros Hall. revert w. induction Hall as [|x y xs ys Hxy _ IH]; intros w.
  - reflexivity.
  - cbn [mapM]. unfold bind at 1. unfold lift at 1. rewrite Hxy.
    unfold bind at 1. rewrite IH. reflexivity.
Qed.

Lemma mapM_lift_throws {A B} (f : A -> Outcome B) (good : list A) (bad : A)
    (rest : list A) (e : string) o w :
  Forall (fun x => exists y, f x = Returns y) good ->
  f bad = Throws e ->
  mapM (fun x => lift (f x)) (good ++ bad :: rest) o w = (Throws e, w).
Proof.
  intros Hgood Hbad. induction Hgood as [|x good [y Hxy] _ IH].
  - cbn [app mapM]. unfold bind at 1. unfold lift at 1. rewrite Hbad. reflexivity.
  - cbn [app mapM]. unfold bind at 1. unfold lift at 1. rewrite Hxy.
    unfold bind at 1. rewrite IH. reflexivity.
Qed.

Lemma sum_counts_insert_fresh (m : gmap string PhaseStats) (k : string) (v : PhaseStats) :
  m !! k = None -> sum_counts (<[k := v]> m) = count v + sum_counts m.
Proof.
  intros Hfresh. unfold sum_counts.
  rewrite map_fold_insert_L; [reflexivity| |exact Hfresh].
  intros. lia.
Qed.

Lemma sum_counts_insert_present (m : gmap string PhaseStats) (k : string) (v v0 : PhaseStats) :
  m !! k = Some v0 -> sum_counts (<[k := v]> m) + count v0 = count v + sum_counts m.
Proof.
  intros Hpresent.
  rewrite <- (insert_delete_eq m k v).
  rewrite <- (insert_id m k v0 Hpresent) at 2.
  rewrite <- (insert_delete_eq m k v0).
  rewrite !sum_counts_insert_fresh by apply lookup_delete_eq. lia.
Qed.

Lemma report_step_counted (report : WorkflowReport) (t : WorkflowTransition) :
  counted t ->
  totalTransitions (report_step report t) = totalTransitions report /\
  sum_counts (phases (report_step report t)) = S (sum_counts (phases report)).
Proof.
  intros [Hto Hown]. split; [reflexivity|].
  unfold report_step. cbn [phases].
  destruct (to t) as [|c rest] eqn:Eto; [congruence|]. cbn [JsString.truthy].
  unfold get_property.
  destruct (phases report !! String c rest) as [st|] eqn:Hlook.
  - pose proof (sum_counts_insert_present (phases report) (String c rest)
                  {| count := S (count st);
                     totalDuration := (totalDuration st + duration t)%Z |} st Hlook) as Hsum.
    cbn [count] in Hsum. lia.
  - unfold array_includes. rewrite bool_decide_eq_false_2 by exact Hown.
    rewrite sum_counts_insert_fresh by exact Hlook. reflexivity.
Qed.

Lemma report_fold_counted (ts : list WorkflowTransition) (report : WorkflowReport) :
  Forall counted ts ->
  totalTransitions (fold_left report_step ts report) = totalTransitions report /\
  sum_counts (phases (fold_left report_step ts report))
    = sum_counts (phases report) + length ts.
Proof.
  intros Hall. revert report. induction Hall as [|t ts Ht _ IH]; intros report.
  - cbn. split; [reflexivity|lia].
  - cbn [fold_left length]. destruct (IH (report_step report t)) as [Htotal Hsum].
    destruct (report_step_counted report t Ht) as [Htotal1 Hsum1].
    split; [congruence|]. rewrite Hsum, Hsum1. lia.
Qed.

Lemma split_length (sep : ascii) (s : string) : 1 <= length (split sep s).
Proof.
  induction s as [|c s IH]; [cbn; lia|].
  cbn [split]. destruct (Ascii.eqb c sep); [cbn [length]; lia|].
  destruct (split sep s); cbn [length] in *; lia.
Qed.

(** The report of a log all of whose lines parse and are counted. *)
Lemma report_counts_lines `{JsBuiltins}
    (o : Oracle) (w : World) (data : string) (ts : list WorkflowTransition) :
  content (fs w) transitions_jsonl = Some data ->
  Forall2 (fun line t => JSON_parse_transition line = Returns t)
          (split LF (trim data)) ts ->
  Forall (fun t => to t <> EmptyString /\ to t ∉ Object_prototype_names) ts ->
  io_error o (io_read transitions_jsonl) = None ->
  io_error o (io_write report_json) = None ->
  workflowDir (fs w) = true ->
  exists report w',
    generateReport o w = (Returns (inl report), w') /\
    length (split LF (trim data)) = length ts /\
    1 <= length ts /\
    totalTransitions report = length ts /\
    sum_counts (phases report) = length ts.
Proof.
  intros Hdata Hlines Hcounted Hread Hwrite Hdir.
  unfold generateReport, existsSync, readFileSync, writeFileSync, gets.
  unfold bind at 1. rewrite Hdata.
  rewrite bool_decide_eq_true_2 by (eexists; reflexivity). cbn [negb].
  unfold bind at 1. rewrite Hread, Hdata.
  unfold bind at 1. rewrite (mapM_lift_returns _ _ ts o w Hlines).
  unfold bind at 1. rewrite Hwrite, Hdir.
  do 2 eexists. split; [reflexivity|].
  split; [exact (Forall2_length _ _ _ Hlines)|].
  split; [rewrite <- (Forall2_length _ _ _ Hlines); apply split_length|].
  destruct (report_fold_counted ts
              {| totalTransitions := length ts; phases := ∅; filesChanged := [] |}
              Hcounted) as [Htotal Hsum].
  split; [exact Htotal|]. rewrite Hsum. unfold sum_counts at 1.
  cbn [phases]. rewrite map_fold_empty. reflexivity.
Qed.

(** C7, as amended.  Let the log consist of N >= 1 lines (the lines that the
    generator reads: the text trimmed and split at newlines) that each parse as
    a transition with a non-empty target phase which is not the name of a
    member that plain objects inherit.  Then [generateReport] returns a report
    whose [totalTransitions] is N and whose phase counts sum to N. *)
Theorem generateReport_counts_every_line `{JsBuiltins}
    (o : Oracle) (w : World) (data : string) (ts : list WorkflowTransition) :
  content (fs w) transitions_jsonl = Some data ->
  Forall2 (fun line t => JSON_parse_transition line = Returns t)
          (split LF (trim data)) ts ->
  Forall (fun t => to t <> EmptyString /\ to t ∉ Object_prototype_names) ts ->
  io_error o (io_read transitions_jsonl) = None ->
  io_error o (io_write report_json) = None ->
  workflowDir (fs w) = true ->
  exists report w',
    generateReport o w = (Returns (inl report), w') /\
    length (split LF (trim data)) = length ts /\
    1 <= length ts /\
    totalTransitions report = length ts /\
    sum_counts (phases report) = length ts.
Proof. exact (report_counts_lines o w data ts). Qed.

(** The same for a log as [logTransition] writes it: N >= 1 object lines,
    each ended by a newline. *)
Corollary generateReport_counts_written_log `{JsBuiltins}
    (o : Oracle) (w : World) (ls : list string) (ts : list WorkflowTransition) :
  ls <> [] ->
  Forall object_line ls ->
  content (fs w) transitions_jsonl = Some (unlines ls) ->
  Forall2 (fun line t => JSON_parse_transition line = Returns t) ls ts ->
  Forall (fun t => to t <> EmptyString /\ to t ∉ Object_prototype_names) ts ->
  io_error o (io_read transitions_jsonl) = None ->
  io_error o (io_write report_json) = None ->
  workflowDir (fs w) = true ->
  exists report w',
    generateReport o w = (Returns (inl report), w') /\
    totalTransitions report = length ls /\
    sum_counts (phases report) = length ls.
Proof.
  intros Hne Hshape Hdata Hparse Hcounted Hread Hwrite Hdir.
  rewrite <- (written_log_lines ls Hne Hshape) in Hparse.
  destruct (report_counts_lines o w (unlines ls) ts
              Hdata Hparse Hcounted Hread Hwrite Hdir)
    as (report & w' & Hrun & Hlen & _ & Htotal & Hsum).
  rewrite (written_log_lines ls Hne Hshape) in Hlen.
  exists report, w'. rewrite Hlen. repeat split; assumption.
Qed.

Lemma count_where_split {A} (f : A -> bool) (xs : list A) :
  count_where f xs + count_where (fun x => negb (f x)) xs = length xs.
Proof.
  unfold count_where. induction xs as [|x xs IH]; [reflexivity|].
  cbn [List.filter]. destruct (f x); cbn [negb length]; lia.
Qed.

Lemma quality_fold_totals (logs : list GateLog) (report : QualityReport) :
  totalChecks (fold_left quality_step logs report) = totalChecks report /\
  q_passed (fold_left quality_step logs report) = q_passed report /\
  q_failed (fold_left quality_step logs report) = q_failed report.
Proof.
  revert report. induction logs as [|log logs IH]; intros report; [repeat split|].
  cbn [fold_left]. destruct (IH (quality_step report log)) as (H1 & H2 & H3).
  rewrite H1, H2, H3. repeat split.
Qed.

(** C3, as amended.  Report generation has no recovery from a malformed
    line.  As soon as one line of transitions.jsonl does not parse,
    [generateReport] raises that parse error; as soon as one line of
    quality-gates.jsonl does not parse, [generateQualityReport] shows an
    error notification and returns [null].  In both cases no report file is
    written and nothing is counted.  A report, which aggregates all the lines,
    is produced only when every line parses. *)
Theorem malformed_line_aborts_report `{JsBuiltins} (o : Oracle) (w : World) (data : string) :
  (forall good bad rest e,
     content (fs w) transitions_jsonl = Some data ->
     io_error o (io_read transitions_jsonl) = None ->
     split LF (trim data) = (good ++ bad :: rest)%list ->
     Forall (fun line => exists t, JSON_parse_transition line = Returns t) good ->
     JSON_parse_transition bad = Throws e ->
     generateReport o w = (Throws e, w)) /\
  (forall good bad rest e,
     content (fs w) quality_gates_jsonl = Some data ->
     io_error o (io_read quality_gates_jsonl) = None ->
     split LF (trim data) = (good ++ bad :: rest)%list ->
     Forall (fun line => exists l, JSON_parse_gatelog line = Returns l) good ->
     JSON_parse_gatelog bad = Throws e ->
     generateQualityReport o w = (Returns None, add_toast (report_failure e) w)) /\
  (forall logs,
     content (fs w) quality_gates_jsonl = Some data ->
     io_error o (io_read quality_gates_jsonl) = None ->
     Forall2 (fun line l => JSON_parse_gatelog line = Returns l)
             (split LF (trim data)) logs ->
     io_error o (io_write quality_report_json) = None ->
     workflowDir (fs w) = true ->
     exists report w',
       generateQualityReport o w = (Returns (Some report), w') /\
       totalChecks report = length logs /\
       q_passed report + q_failed report = length logs).
Proof.
  split; [|split].
  - intros good bad rest e Hdata Hread Hlines Hgood Hbad.
    unfold generateReport, existsSync, readFileSync, gets.
    unfold bind at 1. rewrite Hdata.
    rewrite bool_decide_eq_true_2 by (eexists; reflexivity). cbn [negb].
    unfold bind at 1. rewrite Hread, Hdata.
    unfold bind at 1. rewrite Hlines.
    rewrite (mapM_lift_throws _ good bad rest e o w Hgood Hbad). reflexivity.
  - intros good bad rest e Hdata Hread Hlines Hgood Hbad.
    unfold generateQualityReport, existsSync, readFileSync, gets.
    unfold bind at 1. rewrite Hdata.
    rewrite bool_decide_eq_true_2 by (eexists; reflexivity). cbn [negb].
    unfold try_catch. unfold bind at 1. rewrite Hread, Hdata.
    unfold bind at 1. rewrite Hlines.
    rewrite (mapM_lift_throws _ good bad rest e o w Hgood Hbad). reflexivity.
  - intros logs Hdata Hread Hlines Hwrite Hdir.
    unfold generateQualityReport, existsSync, readFileSync, writeFileSync, gets.
    unfold bind at 1. rewrite Hdata.
    rewrite bool_decide_eq_true_2 by (eexists; reflexivity). cbn [negb].
    unfold try_catch. unfold bind at 1. rewrite Hread, Hdata.
    unfold bind at 1. rewrite (mapM_lift_returns _ _ logs o w Hlines).
    unfold bind at 1. rewrite Hwrite, Hdir.
    do 2 eexists. split; [reflexivity|].
    match goal with |- context [fold_left quality_step logs ?r0] =>
      destruct (quality_fold_totals logs r0) as (H1 & H2 & H3) end.
    rewrite H1, H2, H3. cbn [totalChecks q_passed q_failed].
    split; [reflexivity|apply count_where_split].
Qed.

(** ** Failing appends *)

(** C4, as amended.  When the append to transitions.jsonl fails,
    [logTransition] raises the error to its caller, and so does the
    track-phase tool, with the phase not updated and nothing logged.  When the
    append to quality-gates.jsonl fails, [logGateCheck] catches the error,
    shows it as an error notification and returns normally to the hook. *)
Theorem append_failure_raised_or_notified `{JsBuiltins} (o : Oracle) (w : World) (e : string) :
  (io_error o (io_append transitions_jsonl) = Some e ->
   (forall from to files,
      exists w',
        logTransition from to files o w = (Throws e, w') /\
        wf w' = wf w /\ fs w' = fs w) /\
   (forall phase,
      array_includes validPhases (toLowerCase phase) = true ->
      io_error o io_mkdir = None ->
      exists w',
        track_phase.execute phase o w = (Throws e, w') /\
        wf w' = wf w /\
        content (fs w') transitions_jsonl = content (fs w) transitions_jsonl)) /\
  (io_error o (io_append quality_gates_jsonl) = Some e ->
   forall log,
     logGateCheck log o w = (Returns tt, add_toast (log_failure e) w)).
Proof.
  split.
  - intros Hfail. split.
    + intros from to files.
      unfold logTransition, Date_toISOString, Date_now, gets, appendFileSync, bind, ret.
      cbn [fst snd wf tick]. destruct (phaseStartTime (wf w)); cbn [wf tick fs];
        rewrite Hfail; eexists; repeat split.
    + intros phase Hvalid Hmkdir.
      unfold track_phase.execute. rewrite Hvalid. cbn [negb].
      unfold bind, initializeWorkflowState, existsSync_workflowDir, gets, bind, mkdirSync,
        logTransition, getCurrentPhase, getFilesModified, Date_toISOString, Date_now,
        appendFileSync, gets, bind, ret.
      cbn [fst snd negb].
      destruct (workflowDir (fs w)) eqn:Hdir; cbn [negb]; rewrite ?Hmkdir;
        cbn [wf fs tick set_fs];
        destruct (phaseStartTime (wf w)); cbn [wf fs tick set_fs];
        rewrite Hfail; eexists; repeat split.
  - intros Hfail log. rewrite logGateCheck_cases, Hfail. reflexivity.
Qed.

(** ** Other casings of a phase name *)

Lemma validateGate_ungated `{JsBuiltins} (T : number) (key : string) :
  key ∉ defined_gates ->
  validateGate T key = result true (no_gate key) key.
Proof.
  intros Hout. unfold validateGate, gates. cbn [List.find fst snd].
  repeat match goal with
         | |- context [String.eqb ?lit key] =>
             let E := fresh "E" in
             destruct (String.eqb lit key) eqn:E;
             [ apply String.eqb_eq in E; exfalso; apply Hout; rewrite <- E;
               unfold defined_gates; set_solver
             | ]
         end.
  reflexivity.
Qed.

Lemma hook_passes_ungated `{JsBuiltins}
    (cfg : Config) (args : ToolArgs) (p : string) (o : Oracle) (w : World) :
  phase args = Some p ->
  (forall cp, cp +:+ arrow +:+ p ∉ defined_gates) ->
  exists w2,
    tool_execute_before cfg "track-phase" args o w = (Returns tt, w2) /\
    wf w2 = wf w /\
    (forall f, f <> quality_gates_jsonl -> content (fs w2) f = content (fs w) f).
Proof.
  intros Hp Hcase.
  destruct (gate_checked "track-phase" args w) eqn:Hcheck.
  - unfold gate_checked in Hcheck. rewrite Hp in Hcheck.
    change (String.eqb "track-phase" "track-phase") with true in Hcheck.
    cbn [andb is_truthy] in Hcheck. apply andb_true_iff in Hcheck as [Hcp Htp].
    destruct (currentPhase (wf w)) as [cp|] eqn:Ecp; [|discriminate].
    cbn [is_truthy] in Hcp.
    destruct (validateGate_cases (coverageThreshold cfg) (cp +:+ arrow +:+ p) o w)
      as (r & w1 & st & Hgate & Hw & _ & _ & Hnone).
    destruct (Hnone (Hcase cp)) as [Hpass _].
    rewrite (hook_on_track_phase cfg args o w cp p r w1 Hp Ecp Hcp Htp Hgate).
    rewrite Hpass. cbv zeta.
    destruct (logGateCheck_frame (gate_log cfg (cp +:+ arrow +:+ p) r) o w1)
      as (w2 & Hlog & Hwf2 & _ & Hfs2).
    rewrite Hlog. cbn [snd]. exists w2. split; [reflexivity|].
    destruct Hw as (Hwf1 & Hfs1 & _). split; [congruence|].
    intros f Hf. rewrite (Hfs2 f Hf), Hfs1. reflexivity.
  - destruct (hook_without_check cfg "track-phase" args o w Hcheck) as [Hfs Hwf].
    assert (fst (tool_execute_before cfg "track-phase" args o w) = Returns tt) as Hret.
    { unfold gate_checked in Hcheck. rewrite Hp in Hcheck.
      change (String.eqb "track-phase" "track-phase") with true in Hcheck.
      cbn [andb is_truthy] in Hcheck.
      unfold tool_execute_before.
      change (String.eqb "track-phase" "write" || String.eqb "track-phase" "edit")
        with false.
      change (negb (String.eqb "track-phase" "track-phase")) with false.
      rewrite Hp. cbv beta iota delta [bind ret gets getCurrentPhase].
      destruct (currentPhase (wf w)) as [cp|]; [|reflexivity].
      cbn [is_truthy] in Hcheck.
      destruct (JsString.truthy cp); cbn [negb orb andb] in *; [|reflexivity].
      rewrite Hcheck. reflexivity. }
    destruct (tool_execute_before cfg "track-phase" args o w) as [out w2].
    cbn [fst snd] in *. subst out. exists w2. split; [reflexivity|].
    split; [exact Hwf|]. intros f _. rewrite Hfs. reflexivity.
Qed.

(** ** Rejected phase names *)

Lemma invalid_not_gated (p : string) :
  array_includes validPhases (toLowerCase p) = false ->
  forall cp, cp +:+ arrow +:+ p ∉ defined_gates.
Proof.
  intros Hbad cp Hin. apply defined_key_phases in Hin. unfold gated_pairs in Hin.
  repeat (apply elem_of_cons in Hin as [Heq|Hin];
          [injection Heq as _ Hp; rewrite Hp in Hbad; discriminate Hbad|]).
  apply elem_of_nil in Hin. contradiction.
Qed.

(** C8, as amended.  For every argument whose lower-cased form is not one of
    the seven phase names, the tool returns the rejection message, which
    enumerates the legal names, and leaves the whole world as it was.  Called
    through the runtime, with the plugin's hook in front, the call returns the
    same rejection; no transition is appended, the current phase and the
    pending files stay as they were. *)
Theorem execute_rejects_without_effect `{JsBuiltins} (phase : string) (o : Oracle) (w : World) :
  array_includes validPhases (toLowerCase phase) = false ->
  track_phase.execute phase o w = (Returns (invalid_phase phase), w) /\
  invalid_phase phase =
    "❌ Invalid phase: " +:+ phase +:+
    ". Must be one of: plan, design, implement, test, review, release, operate" /\
  (forall cfg,
     exists w',
       call_track_phase cfg phase o w = (Returns (invalid_phase phase), w') /\
       wf w' = wf w /\
       content (fs w') transitions_jsonl = content (fs w) transitions_jsonl).
Proof.
  intros Hbad. split; [exact (execute_rejects phase o w Hbad)|].
  split; [apply invalid_phase_enumerates|].
  intros cfg. unfold call_track_phase. destruct (enabled cfg).
  - destruct (hook_passes_ungated cfg
                {| phase := Some phase; file_path := None; path := None |}
                phase o w eq_refl (invalid_not_gated phase Hbad))
      as (w2 & Hhook & Hwf & Hfs).
    exists w2. unfold bind. rewrite Hhook, (execute_rejects phase o w2 Hbad).
    split; [reflexivity|]. split; [exact Hwf|]. apply Hfs. discriminate.
  - exists w. unfold bind. cbn [ret]. rewrite (execute_rejects phase o w Hbad).
    repeat split.
Qed.

Lemma execute_rejects_without_effect_witness :
  @track_phase.execute sample.builtins "deploy" calm design_phase
    = (Returns (invalid_phase "deploy"), design_phase) /\
  invalid_phase "deploy" =
    "❌ Invalid phase: deploy. Must be one of: plan, design, implement, test, review, release, operate" /\
  (exists w',
     @call_track_phase sample.builtins strict_mode "deploy" calm design_phase
       = (Returns (invalid_phase "deploy"), w') /\
     wf w' = wf design_phase /\
     content (fs w') transitions_jsonl = content (fs design_phase) transitions_jsonl).
Proof.
  destruct (@execute_rejects_without_effect sample.builtins "deploy" calm design_phase
              eq_refl) as (Htool & Hmsg & Hcall).
  split; [exact Htool|]. split; [exact Hmsg|]. exact (Hcall strict_mode).
Defined.

(** C8, as stated, fails: "IMPLEMENT" is not one of the seven phase names,
    yet the tool accepts it, appends a transition and changes the phase. *)
Lemma execute_accepts_other_casing :
  ("IMPLEMENT" ∉ validPhases) /\
  exists w',
    @track_phase.execute sample.builtins "IMPLEMENT" calm fresh_world
      = (Returns "✅ Transitioned to IMPLEMENT phase", w') /\
    currentPhase (wf w') = Some "IMPLEMENT" /\
    content (fs fresh_world) transitions_jsonl = None /\
    content (fs w') transitions_jsonl =
      Some (sample.line
              (sample.show_transition
                 {| timestamp := "0"; from := None; to := "IMPLEMENT"; duration := 0;
                    t_filesModified := Some [] |})).
Proof.
  split.
  - intros Hin. apply (proj1 (list_elem_of_In _ _)) in Hin.
    simpl in Hin. intuition discriminate.
  - eexists. split; [vm_compute; reflexivity|]. vm_compute. repeat split.
Qed.

(** C10.  Let [p] be a spelling of a phase name that differs from the
    lower-case name (such as "IMPLEMENT").  The tool accepts it, whatever the
    enforcement mode, and keeps it verbatim: afterwards the current phase is
    [p] and the appended transition has [to] equal to [p].  A transition key
    with [p] on either side names no gate: its evaluation is the informational
    "no gate defined" pass. *)
Theorem other_casing_kept_verbatim `{JsBuiltins}
    (cfg : Config) (p : string) (o : Oracle) (w : World) :
  array_includes validPhases (toLowerCase p) = true ->
  toLowerCase p <> p ->
  io_error o io_mkdir = None ->
  io_error o (io_append transitions_jsonl) = None ->
  (exists w' stamp elapsed,
     call_track_phase cfg p o w = (Returns (transitioned p (currentPhase (wf w))), w') /\
     getCurrentPhase o w' = (Returns (Some p), w') /\
     content (fs w') transitions_jsonl =
       Some (default EmptyString (content (fs w) transitions_jsonl) +:+
             JSON_stringify_transition
               {| timestamp := stamp; from := currentPhase (wf w); to := p;
                  duration := elapsed;
                  t_filesModified := Some (filesModified (wf w)) |} +:+
             String LF EmptyString)) /\
  (forall T other,
     validateGate T (p +:+ arrow +:+ other)
       = result true (no_gate (p +:+ arrow +:+ other)) (p +:+ arrow +:+ other) /\
     validateGate T (other +:+ arrow +:+ p)
       = result true (no_gate (other +:+ arrow +:+ p)) (other +:+ arrow +:+ p)).
Proof.
  intros Hvalid Hcase Hmkdir Happend. split.
  - assert (exists w2,
              (if enabled cfg then
                 tool_execute_before cfg "track-phase"
                   {| phase := Some p; file_path := None; path := None |}
               else ret tt) o w = (Returns tt, w2) /\
              wf w2 = wf w /\
              content (fs w2) transitions_jsonl = content (fs w) transitions_jsonl)
      as (w2 & Hhook & Hwf & Hfs).
    { destruct (enabled cfg).
      - destruct (hook_passes_ungated cfg
                    {| phase := Some p; file_path := None; path := None |}
                    p o w eq_refl
                    (fun cp => other_casing_not_gated cp p (or_intror Hcase)))
          as (w2 & Hhook & Hwf & Hfs).
        exists w2. split; [exact Hhook|]. split; [exact Hwf|].
        apply Hfs. discriminate.
      - exists w. repeat split. }
    destruct (execute_accepts p o w2 Hvalid Hmkdir Happend)
      as (w' & stamp & elapsed & Hexec & Hphase & _ & Hlog & _).
    exists w', stamp, elapsed. unfold call_track_phase, bind.
    rewrite Hhook, Hexec. rewrite Hwf, Hfs in *.
    split; [reflexivity|]. split; [|exact Hlog].
    unfold getCurrentPhase, gets. rewrite Hphase. reflexivity.
  - intros T other. split; apply validateGate_ungated, other_casing_not_gated.
    + left. exact Hcase.
    + right. exact Hcase.
Qed.

(** ** Scenarios *)

(** Scenario B: no design files, design → implement. *)
Lemma failing_gate_warns_or_blocks_witness :
  (exists w',
     @call_track_phase sample.builtins warning_mode "implement" calm design_phase
       = (Returns "✅ Transitioned to implement phase from design", w') /\
     getCurrentPhase calm w' = (Returns (Some "implement"), w') /\
     (toast_warning, "Quality Gate Warning: " +:+ message no_design_files) ∈ toasts w') /\
  (exists w',
     @call_track_phase sample.builtins strict_mode "implement" calm design_phase
       = (Throws (Error (blocked_message (message no_design_files))), w') /\
     wf w' = wf design_phase /\
     content (fs w') transitions_jsonl = content (fs design_phase) transitions_jsonl).
Proof.
  split.
  - apply (proj1 (@failing_gate_warns_or_blocks sample.builtins warning_mode calm
                    design_phase "design" "implement" no_design_files
                    (tick (add_spawned find_design_files design_phase))
                    eq_refl eq_refl eq_refl eq_refl)); reflexivity.
  - apply (proj2 (@failing_gate_warns_or_blocks sample.builtins strict_mode calm
                    design_phase "design" "implement" no_design_files
                    (tick (add_spawned find_design_files design_phase))
                    eq_refl eq_refl eq_refl eq_refl)); reflexivity.
Defined.

(** C2, as stated, fails: the coverage file is there but cannot be read, the
    [cat] that the gate started threw, and the gate passed all the same. *)
Lemma unreadable_coverage_passes :
  exists r w',
    @validateGate sample.builtins (of_Z 80) "test→review"
      (with_coverage (Throws permission_denied)) design_phase = (Returns r, w') /\
    cat_coverage_file ∈ spawned w' /\
    shell (with_coverage (Throws permission_denied)) cat_coverage_file
      = Throws permission_denied /\
    passed r = true /\
    message r = "✅ Tests pass with sufficient coverage".
Proof.
  do 2 eexists. split; [vm_compute; reflexivity|].
  cbn [spawned passed message]. repeat split.
  apply (proj2 (list_elem_of_In _ _)). simpl. tauto.
Qed.

(** a compiler that is not installed fails the gate in the step's name *)
Example missing_compiler_fails_closed :
  let o := {| shell := fun c =>
                match c with
                | test_tsconfig => sample.says "true"
                | npx_tsc => Throws "ShellError: command not found: npx"
                | _ => shell calm c
                end;
              io_error := io_error calm; clock := clock calm |} in
  fst (@validateGate sample.builtins (of_Z 80) "implement→test" o design_phase)
  = Returns {| passed := false;
               message := "❌ TypeScript compilation failed. Fix type errors before testing.";
               transition := "implement→test"; g_timestamp := "0" |}.
Proof. reflexivity. Qed.

(** file tests that print [false] and checks that are not installed: the two
    gates pass without a check *)
Example unavailable_checks_are_skipped :
  fst (@validateGate sample.builtins (of_Z 80) "implement→test" nothing_installed design_phase)
  = Returns {| passed := true; message := "✅ Code compiles and passes linting";
               transition := "implement→test"; g_timestamp := "0" |} /\
  fst (@validateGate sample.builtins (of_Z 80) "test→review" nothing_installed design_phase)
  = Returns {| passed := true; message := "✅ Tests pass with sufficient coverage";
               transition := "test→review"; g_timestamp := "0" |}.
Proof. split; reflexivity. Qed.

(** C3, as stated, fails: with one complete and one torn line, no report
    comes out of either generator and nothing is written or counted. *)
Lemma torn_line_aborts_both_reports :
  let w := sample.project (sample.only transitions_jsonl torn_transitions) in
  let wq := sample.project (sample.only quality_gates_jsonl torn_gate_log) in
  split LF (trim torn_transitions)
    = [ sample.show_transition sample.into_design; torn_line ] /\
  JSON_parse_transition (JsBuiltins := sample.builtins)
    (sample.show_transition sample.into_design) = Returns sample.into_design /\
  @generateReport sample.builtins calm w = (Throws sample.syntax_error, w) /\
  content (fs w) report_json = None /\
  split LF (trim torn_gate_log)
    = [ sample.show_gatelog sample.missing_design; torn_line ] /\
  JSON_parse_gatelog (JsBuiltins := sample.builtins)
    (sample.show_gatelog sample.missing_design) = Returns sample.missing_design /\
  @generateQualityReport sample.builtins calm wq
    = (Returns None, add_toast (report_failure sample.syntax_error) wq) /\
  content (fs wq) quality_report_json = None.
Proof. vm_compute. repeat split. Qed.

Lemma malformed_line_aborts_report_witness :
  let w := sample.project (sample.only transitions_jsonl torn_transitions) in
  let wq := sample.project (sample.only quality_gates_jsonl torn_gate_log) in
  @generateReport sample.builtins calm w = (Throws sample.syntax_error, w) /\
  @generateQualityReport sample.builtins calm wq
    = (Returns None, add_toast (report_failure sample.syntax_error) wq).
Proof.
  intros w wq. split.
  - apply (proj1 (@malformed_line_aborts_report sample.builtins calm w torn_transitions)
             [ sample.show_transition sample.into_design ] torn_line [] sample.syntax_error);
      try reflexivity.
    constructor; [|constructor]. exists sample.into_design. reflexivity.
  - apply (proj1 (proj2 (@malformed_line_aborts_report sample.builtins calm wq torn_gate_log))
             [ sample.show_gatelog sample.missing_design ] torn_line [] sample.syntax_error);
      try reflexivity.
    constructor; [|constructor]. exists sample.missing_design. reflexivity.
Defined.

(** C4, as stated, fails: the disk is full, the hook's append of the gate
    check fails, and the hook returns normally; the record is lost and only a
    notification tells. *)
Lemma lost_gate_record_is_not_raised :
  exists w',
    @tool_execute_before sample.builtins warning_mode "track-phase" (track "implement")
      disk_full design_phase = (Returns tt, w') /\
    io_error disk_full (io_append quality_gates_jsonl) = Some no_space /\
    content (fs w') quality_gates_jsonl = None /\
    toasts w' =
      [ log_failure no_space;
        (toast_warning, "Quality Gate Warning: " +:+ message no_design_files) ].
Proof. eexists. split; [vm_compute; reflexivity|]. repeat split. Qed.

Lemma append_failure_raised_or_notified_witness :
  (exists w',
     @logTransition sample.builtins (Some "design") "implement" [] disk_full design_phase
       = (Throws no_space, w') /\
     wf w' = wf design_phase /\ fs w' = fs design_phase) /\
  (exists w',
     @track_phase.execute sample.builtins "implement" disk_full design_phase
       = (Throws no_space, w') /\
     wf w' = wf design_phase /\
     content (fs w') transitions_jsonl = content (fs design_phase) transitions_jsonl) /\
  @logGateCheck sample.builtins sample.missing_design disk_full design_phase
    = (Returns tt, add_toast (log_failure no_space) design_phase).
Proof.
  pose proof (@append_failure_raised_or_notified sample.builtins disk_full design_phase
                no_space) as [Hlog Hgate].
  destruct (Hlog eq_refl) as [Hraise Htool].
  split; [apply Hraise|]. split; [apply Htool; reflexivity|].
  apply Hgate. reflexivity.
Defined.

(** Scenario C: 72 against the default threshold of 80. *)
Lemma coverage_threshold_witness :
  exists r w',
    @validateGate sample.builtins (of_Z 80) "test→review"
      (with_coverage (sample.says (sample.show_coverage (of_Z 72)))) design_phase
      = (Returns r, w') /\
    passed r = false.
Proof.
  destruct (@coverage_threshold sample.builtins 80 72
              (with_coverage (sample.says (sample.show_coverage (of_Z 72)))) design_phase
              {| exitCode := 0; stdout := sample.line "false" |}
              {| exitCode := 0; stdout := sample.line "true" |}
              eq_refl
              (fun absurd : false = true => False_ind _ (Bool.diff_false_true absurd))
              eq_refl)
    as (r & w' & Hrun & Hcov & _).
  exists r, w'. split; [exact Hrun|].
  destruct (Hcov eq_refl
              {| exitCode := 0; stdout := sample.line (sample.show_coverage (of_Z 72)) |}
              eq_refl eq_refl) as (_ & Hlow & _).
  apply Hlow; reflexivity.
Defined.

Example coverage_85_passes :
  fst (@validateGate sample.builtins (of_Z 80) "test→review"
         (with_coverage (sample.says (sample.show_coverage (of_Z 85)))) design_phase)
  = Returns {| passed := true; message := "✅ Tests pass with sufficient coverage";
               transition := "test→review"; g_timestamp := "0" |}.
Proof. reflexivity. Qed.

Example coverage_80_passes :
  fst (@validateGate sample.builtins (of_Z 80) "test→review"
         (with_coverage (sample.says (sample.show_coverage (of_Z 80)))) design_phase)
  = Returns {| passed := true; message := "✅ Tests pass with sufficient coverage";
               transition := "test→review"; g_timestamp := "0" |}.
Proof. reflexivity. Qed.

(** C7, as stated, fails at its edges.  With no transition logged there is
    no report with zero transitions: without a log file the generator returns
    the "no data" text, and an existing empty log is one blank line to it,
    which does not parse.  And a line whose target is the name of an inherited
    member, such as "constructor", is counted in [totalTransitions] but under
    no phase. *)
Lemma report_round_trip_edges :
  fst (@generateReport sample.builtins calm (sample.project (fun _ => None)))
    = Returns (inr no_data) /\
  @generateReport sample.builtins calm
    (sample.project (sample.only transitions_jsonl EmptyString))
    = (Throws sample.syntax_error,
       sample.project (sample.only transitions_jsonl EmptyString)) /\
  JSON_parse_transition (JsBuiltins := sample.builtins)
    (sample.show_transition sample.into_constructor) = Returns sample.into_constructor /\
  to sample.into_constructor <> EmptyString /\
  exists report w',
    @generateReport sample.builtins calm
      (sample.project
         (sample.only transitions_jsonl
            (sample.line (sample.show_transition sample.into_constructor))))
      = (Returns (inl report), w') /\
    totalTransitions report = 1 /\
    sum_counts (phases report) = 0.
Proof.
  split; [reflexivity|]. split; [reflexivity|]. split; [reflexivity|].
  split; [discriminate|].
  do 2 eexists. split; [vm_compute; reflexivity|]. split; reflexivity.
Qed.

(** Scenario A: two logged transitions. *)
Lemma generateReport_counts_every_line_witness :
  exists report w',
    @generateReport sample.builtins calm
      (sample.project (sample.only transitions_jsonl two_transitions))
      = (Returns (inl report), w') /\
    length (split LF (trim two_transitions)) = 2 /\
    1 <= 2 /\
    totalTransitions report = 2 /\
    sum_counts (phases report) = 2.
Proof.
  apply (@generateReport_counts_every_line sample.builtins calm
           (sample.project (sample.only transitions_jsonl two_transitions))
           two_transitions [ sample.into_design; sample.into_implement ]);
    try reflexivity.
  - vm_compute. repeat constructor.
  - repeat constructor; try discriminate;
      intros Hin; apply (proj1 (list_elem_of_In _ _)) in Hin; simpl in Hin;
      intuition discriminate.
Defined.

Example scenario_A_phases :
  exists report w',
    @generateReport sample.builtins calm
      (sample.project (sample.only transitions_jsonl two_transitions))
      = (Returns (inl report), w') /\
    count <$> (phases report !! "design") = Some 1 /\
    count <$> (phases report !! "implement") = Some 1 /\
    filesChanged report = ["a.ts"; "b.ts"].
Proof. do 2 eexists. split; [vm_compute; reflexivity|]. vm_compute. repeat split. Qed.

Lemma other_casing_kept_verbatim_witness :
  exists w',
    @call_track_phase sample.builtins strict_mode "IMPLEMENT" calm design_phase
      = (Returns "✅ Transitioned to IMPLEMENT phase from design", w') /\
    getCurrentPhase calm w' = (Returns (Some "IMPLEMENT"), w') /\
    @validateGate sample.builtins (of_Z 80) ("IMPLEMENT" +:+ arrow +:+ "test")
      = @result sample.builtins true (no_gate ("IMPLEMENT" +:+ arrow +:+ "test"))
          ("IMPLEMENT" +:+ arrow +:+ "test").
Proof.
  destruct (@other_casing_kept_verbatim sample.builtins strict_mode "IMPLEMENT" calm
              design_phase eq_refl) as [(w' & stamp & elapsed & Hcall & Hphase & _) Hkeys];
    try reflexivity; [discriminate|].
  exists w'. split; [exact Hcall|]. split; [exact Hphase|].
  apply (Hkeys (of_Z 80) "test").
Defined.

(** Scenario E: the same failing check in the two modes. *)
Example scenario_E_records :
  let after cfg :=
    snd (@tool_execute_before sample.builtins cfg "track-phase" (track "implement")
           calm design_phase) in
  content (fs (after warning_mode)) quality_gates_jsonl
    = Some (sample.line (sample.show_gatelog sample.missing_design)) /\
  content (fs (after strict_mode)) quality_gates_jsonl
    = Some (sample.line
              (sample.show_gatelog
                 {| l_transition := l_transition sample.missing_design;
                    l_passed := false;
                    l_message := l_message sample.missing_design;
                    l_timestamp := l_timestamp sample.missing_design;
                    mode := strict; blocked := true |})).
Proof. split; reflexivity. Qed.

(** * Further properties *)

(** ** The pending files of the state tracker *)

Lemma tracker_calls_files cs o w :
  exists w',
    tracker_calls cs o w = (Returns tt, w') /\
    filesModified (wf w') = pending cs (filesModified (wf w)).
Proof.
  revert w. induction cs as [|c cs IH]; intros w.
  - exists w. split; reflexivity.
  - destruct c; simpl; unfold bind; simpl;
      match goal with |- context [tracker_calls cs o ?w1] =>
        destruct (IH w1) as (w' & Hrun & Hfiles) end;
      exists w'; rewrite Hrun; split; first [reflexivity | exact Hfiles].
Qed.

Lemma Set_add_NoDup f files : NoDup files -> NoDup (Set_add f files).
Proof.
  intros Hnd. unfold Set_add. case_bool_decide as Hin; [exact Hnd|].
  apply NoDup_app. split; [exact Hnd|]. split; [|apply NoDup_singleton].
  intros x Hx Hx'. apply list_elem_of_singleton in Hx'. subst x. contradiction.
Qed.

Lemma Set_add_elem f g files : g ∈ Set_add f files <-> g ∈ files \/ g = f.
Proof.
  unfold Set_add. case_bool_decide as Hin.
  - split; [intros Hg; left; exact Hg | intros [Hg | ->]; assumption].
  - rewrite elem_of_app, list_elem_of_singleton. reflexivity.
Qed.

Lemma pending_NoDup cs files : NoDup files -> NoDup (pending cs files).
Proof.
  revert files. induction cs as [|c cs IH]; intros files Hnd; [exact Hnd|].
  destruct c; cbn [pending]; apply IH; [exact Hnd | apply Set_add_NoDup, Hnd | constructor].
Qed.

Lemma pending_app cs rest files : pending (cs ++ rest) files = pending rest (pending cs files).
Proof.
  revert files. induction cs as [|c cs IH]; intros files; [reflexivity|].
  destruct c; cbn [app pending]; apply IH.
Qed.

Lemma pending_no_clear cs files g :
  forallb (fun c => negb (is_clear c)) cs = true ->
  g ∈ pending cs files <-> g ∈ files \/ g ∈ added cs.
Proof.
  revert files. induction cs as [|c cs IH]; intros files Hcs.
  - cbn. rewrite elem_of_nil. tauto.
  - destruct c; cbn [forallb is_clear negb andb] in Hcs; try discriminate;
      cbn [pending]; rewrite (IH _ Hcs); unfold added; cbn [omap list_omap].
    + reflexivity.
    + rewrite Set_add_elem, elem_of_cons. tauto.
Qed.

(** X1.  After any sequence of tracker calls, [getFilesModified] returns the
    pending files without changing anything; the list has no duplicates when
    it had none before; it holds exactly the paths added since the last
    [clearModifiedFiles], and when nothing was cleared, the earlier ones as
    well. *)
Theorem getFilesModified_since_clear (o : Oracle) (w : World) (cs : list TrackerCall) :
  exists w' files,
    tracker_calls cs o w = (Returns tt, w') /\
    getFilesModified o w' = (Returns files, w') /\
    (NoDup (filesModified (wf w)) -> NoDup files) /\
    (forall before after,
       cs = (before ++ call_clearModifiedFiles :: after)%list ->
       forallb (fun c => negb (is_clear c)) after = true ->
       forall f, f ∈ files <-> f ∈ added after) /\
    (forallb (fun c => negb (is_clear c)) cs = true ->
     forall f, f ∈ files <-> f ∈ filesModified (wf w) \/ f ∈ added cs).
Proof.
  destruct (tracker_calls_files cs o w) as (w' & Hrun & Hfiles).
  exists w', (filesModified (wf w')). split; [exact Hrun|]. split; [reflexivity|].
  rewrite Hfiles. split; [apply pending_NoDup|]. split.
  - intros before after -> Hafter f.
    rewrite pending_app. cbn [pending]. rewrite (pending_no_clear _ _ _ Hafter).
    rewrite elem_of_nil. tauto.
  - intros Hcs f. apply pending_no_clear, Hcs.
Qed.

Lemma getFilesModified_since_clear_witness :
  exists w' files,
    tracker_calls
      [ call_addModifiedFile "a.ts"; call_clearModifiedFiles;
        call_addModifiedFile "b.ts"; call_setCurrentPhase "test";
        call_addModifiedFile "b.ts" ] calm fresh_world = (Returns tt, w') /\
    getFilesModified calm w' = (Returns files, w') /\
    NoDup files /\
    forall f, f ∈ files <-> f ∈ ["b.ts"; "b.ts"].
Proof.
  destruct (getFilesModified_since_clear calm fresh_world
              [ call_addModifiedFile "a.ts"; call_clearModifiedFiles;
                call_addModifiedFile "b.ts"; call_setCurrentPhase "test";
                call_addModifiedFile "b.ts" ])
    as (w' & files & Hrun & Hget & Hnd & Hsince & _).
  exists w', files. split; [exact Hrun|]. split; [exact Hget|].
  split; [apply Hnd; constructor|].
  apply (Hsince [ call_addModifiedFile "a.ts" ]
                [ call_addModifiedFile "b.ts"; call_setCurrentPhase "test";
                  call_addModifiedFile "b.ts" ]); reflexivity.
Defined.

(** ** Runs of the track-phase tool *)

(** X2.  Whenever the track-phase tool fails, the phase was legal and the
    failure is that of creating the missing workflow directory or of the
    append to the transition log; the tracker state, the content of every file
    and the notifications are what they were. *)
Theorem execute_failure_keeps_state `{JsBuiltins}
    (phase : string) (o : Oracle) (w w' : World) (e : string) :
  track_phase.execute phase o w = (Throws e, w') ->
  wf w' = wf w /\
  content (fs w') = content (fs w) /\
  toasts w' = toasts w /\
  array_includes validPhases (toLowerCase phase) = true /\
  ((workflowDir (fs w) = false /\ io_error o io_mkdir = Some e) \/
   io_error o (io_append transitions_jsonl) = Some e).
Proof.
  unfold track_phase.execute.
  destruct (array_includes validPhases (toLowerCase phase)) eqn:Hvalid; cbn [negb];
    [|discriminate].
  unfold bind, initializeWorkflowState, existsSync_workflowDir, gets, bind, mkdirSync,
    logTransition, getCurrentPhase, getFilesModified, Date_toISOString, Date_now,
    appendFileSync, setCurrentPhase, clearModifiedFiles, modify, gets, bind, ret.
  cbn [fst snd negb].
  destruct (workflowDir (fs w)) eqn:Hdir; cbn [negb];
    [|destruct (io_error o io_mkdir) as [e1|] eqn:Hmkdir];
    cbn [wf fs tick set_fs workflowDir];
    try (intros [= <- <-]; repeat split; left; split; reflexivity).
  all: destruct (phaseStartTime (wf w)); cbn [wf fs tick set_fs workflowDir];
    destruct (io_error o (io_append transitions_jsonl)) as [e2|] eqn:Happend;
    rewrite ?Hdir; cbn [wf fs tick set_fs workflowDir];
    intros [= <- <-] || intros [=]; repeat split; right; reflexivity.
Qed.

Lemma execute_failure_keeps_state_witness :
  let w' := snd (@track_phase.execute sample.builtins "implement" disk_full design_phase) in
  wf w' = wf design_phase /\
  content (fs w') = content (fs design_phase) /\
  toasts w' = toasts design_phase /\
  array_includes validPhases (toLowerCase "implement") = true /\
  ((workflowDir (fs design_phase) = false /\ io_error disk_full io_mkdir = Some no_space) \/
   io_error disk_full (io_append transitions_jsonl) = Some no_space).
Proof.
  apply (@execute_failure_keeps_state sample.builtins "implement" disk_full design_phase).
  reflexivity.
Defined.

(** X3.  A successful run of the tool logs the time since the phase it
    leaves was set, nothing when no phase was set before; its time stamp is
    the first reading of the clock.  It reads the clock a last time for the
    start of the new phase, from which the next run measures. *)
Theorem execute_logs_elapsed_time `{JsBuiltins} (phase : string) (o : Oracle) (w : World) :
  array_includes validPhases (toLowerCase phase) = true ->
  io_error o io_mkdir = None ->
  io_error o (io_append transitions_jsonl) = None ->
  exists w',
    track_phase.execute phase o w
      = (Returns (transitioned phase (currentPhase (wf w))), w') /\
    content (fs w') transitions_jsonl =
      Some (default EmptyString (content (fs w) transitions_jsonl) +:+
            JSON_stringify_transition
              {| timestamp := toISOString (clock o (ticks w));
                 from := currentPhase (wf w); to := phase;
                 duration := elapsed_since o w;
                 t_filesModified := Some (filesModified (wf w)) |} +:+
            String LF EmptyString) /\
    phaseStartTime (wf w') = Some (clock o (Nat.pred (ticks w'))) /\
    elapsed_since o w' = (clock o (S (ticks w')) - clock o (Nat.pred (ticks w')))%Z /\
    ticks w' = match phaseStartTime (wf w) with
               | Some _ => 3 + ticks w
               | None => 2 + ticks w
               end.
Proof.
  intros Hok Hmkdir Happend.
  unfold track_phase.execute, elapsed_since. rewrite Hok. cbn [negb].
  unfold bind, initializeWorkflowState, existsSync_workflowDir, gets, bind, mkdirSync,
    logTransition, getCurrentPhase, getFilesModified, Date_toISOString, Date_now,
    appendFileSync, setCurrentPhase, clearModifiedFiles, modify, ret, bind.
  simpl.
  destruct (workflowDir (fs w)) eqn:Hdir; simpl; rewrite ?Hmkdir; simpl;
    destruct (phaseStartTime (wf w)) as [t0|] eqn:Hstart; simpl;
    rewrite ?Happend; simpl; rewrite ?Hdir; simpl.
  all: eexists; (split; [reflexivity|]); simpl.
  all: repeat split; try reflexivity.
  all: case_decide; [reflexivity|congruence].
Qed.

Lemma execute_logs_elapsed_time_witness :
  exists w',
    @track_phase.execute sample.builtins "implement" calm design_phase
      = (Returns "✅ Transitioned to implement phase from design", w') /\
    content (fs w') transitions_jsonl =
      Some (sample.line
              (sample.show_transition
                 {| timestamp := "0"; from := Some "design"; to := "implement";
                    duration := 1000; t_filesModified := Some [] |})) /\
    phaseStartTime (wf w') = Some 2000%Z.
Proof.
  destruct (@execute_logs_elapsed_time sample.builtins "implement" calm design_phase
              eq_refl eq_refl eq_refl) as (w' & Hrun & Hlog & Hstart & _ & Hticks).
  exists w'. split; [exact Hrun|]. split; [exact Hlog|].
  rewrite Hstart, Hticks. reflexivity.
Defined.

Lemma track_all_chain `{JsBuiltins} (ps : list string) (o : Oracle) (w : World) :
  Forall (fun p => array_includes validPhases (toLowerCase p) = true) ps ->
  io_error o io_mkdir = None ->
  io_error o (io_append transitions_jsonl) = None ->
  exists w' ts msgs,
    track_all ps o w = (Returns msgs, w') /\
    chained (currentPhase (wf w)) (filesModified (wf w)) ps ts /\
    msgs = zip_with transitioned ps (from <$> ts) /\
    (ps <> [] ->
     content (fs w') transitions_jsonl =
       Some (default EmptyString (content (fs w) transitions_jsonl) +:+
             unlines (JSON_stringify_transition <$> ts)) /\
     currentPhase (wf w') = last ps /\
     filesModified (wf w') = []) /\
    (forall f, f <> transitions_jsonl -> content (fs w') f = content (fs w) f) /\
    toasts w' = toasts w.
Proof.
  intros Hvalid Hmkdir Happend. revert w.
  induction Hvalid as [|p ps Hp _ IH]; intros w.
  - exists w, [], []. repeat split; try reflexivity; congruence.
  - destruct (execute_accepts p o w Hp Hmkdir Happend)
      as (w1 & stamp & elapsed & Hexec & Hphase & Hfiles & Hlog & Hother & Htoasts).
    destruct (IH w1) as (w' & ts & msgs & Hrun & Hchain & Hmsgs & Hrest & Hother' & Htoasts').
    set (t := {| timestamp := stamp; from := currentPhase (wf w); to := p;
                 duration := elapsed; t_filesModified := Some (filesModified (wf w)) |}).
    exists w', (t :: ts), (transitioned p (currentPhase (wf w)) :: msgs).
    unfold track_all in *. cbn [mapM]. unfold bind at 1. rewrite Hexec.
    unfold bind at 1. rewrite Hrun. split; [reflexivity|].
    split; [cbn [chained]; rewrite Hphase, Hfiles in Hchain; repeat split; exact Hchain|].
    split; [rewrite Hmsgs; reflexivity|].
    split; [|split; [intros f Hf; rewrite (Hother' f Hf); apply Hother, Hf | congruence]].
    intros _. destruct ps as [|p2 ps].
    + destruct ts; [|destruct Hchain].
      injection Hrun as <- <-. cbn [fmap list_fmap unlines last].
      rewrite Hlog. split; [|split; [exact Hphase|exact Hfiles]].
      reflexivity.
    + destruct Hrest as (Hlog' & Hphase' & Hfiles'); [discriminate|].
      split; [|split; [exact Hphase'|exact Hfiles']].
      rewrite Hlog', Hlog. cbn [fmap list_fmap unlines]. fold t.
      change (default EmptyString (Some ?x)) with x.
      rewrite !append_assoc, !append_cons, !append_nil. reflexivity.
Qed.

(** X4.  A session of track-phase calls on legal phases, the file system
    working, appends one line per call; the lines form a chain: the first
    leaves the phase that was current, with the files that were pending, and
    every other line leaves the target of the line before it, with no file.
    Each call answers with the transition it made; afterwards the current
    phase is the last one and no file is pending.  No other file changes. *)
Theorem session_log_is_chain `{JsBuiltins} (ps : list string) (o : Oracle) (w : World) :
  ps <> [] ->
  Forall (fun p => array_includes validPhases (toLowerCase p) = true) ps ->
  io_error o io_mkdir = None ->
  io_error o (io_append transitions_jsonl) = None ->
  exists w' ts,
    track_all ps o w = (Returns (zip_with transitioned ps (from <$> ts)), w') /\
    chained (currentPhase (wf w)) (filesModified (wf w)) ps ts /\
    content (fs w') transitions_jsonl =
      Some (default EmptyString (content (fs w) transitions_jsonl) +:+
            unlines (JSON_stringify_transition <$> ts)) /\
    currentPhase (wf w') = last ps /\
    filesModified (wf w') = [] /\
    (forall f, f <> transitions_jsonl -> content (fs w') f = content (fs w) f).
Proof.
  intros Hne Hvalid Hmkdir Happend.
  destruct (track_all_chain ps o w Hvalid Hmkdir Happend)
    as (w' & ts & msgs & Hrun & Hchain & -> & Hrest & Hother & _).
  destruct (Hrest Hne) as (Hlog & Hphase & Hfiles).
  exists w', ts. repeat split; assumption.
Qed.

Lemma session_log_is_chain_witness :
  exists w' ts,
    @track_all sample.builtins ["design"; "implement"] calm fresh_world
      = (Returns [ "✅ Transitioned to design phase";
                   "✅ Transitioned to implement phase from design" ], w') /\
    chained None [] ["design"; "implement"] ts /\
    currentPhase (wf w') = Some "implement".
Proof.
  destruct (@session_log_is_chain sample.builtins ["design"; "implement"] calm fresh_world)
    as (w' & ts & Hrun & Hchain & _ & Hphase & _);
    [discriminate | repeat constructor | reflexivity | reflexivity |].
  exists w', ts. split; [|split; [exact Hchain|exact Hphase]].
  rewrite Hrun. destruct ts as [|t1 [|t2 [|t3 ts]]]; cbn [chained] in Hchain;
    try contradiction; try (destruct Hchain as (_ & _ & _ & []); fail);
    try (destruct Hchain as (_ & _ & _ & _ & _ & _ & []); fail).
  destruct Hchain as (Hf1 & _ & _ & Hf2 & _). cbn [fmap list_fmap zip_with].
  rewrite Hf1, Hf2. reflexivity.
Defined.

(** ** What a gate evaluation does *)




Ltac stop_leaf :=
  do 3 eexists; split; [reflexivity|]; split;
  [ simpl; rewrite <- ?app_assoc; reflexivity |];
  simpl; first
    [ intros Hfalse; discriminate Hfalse
    | intros _; eexists; split;
      [ reflexivity
      | unfold step_fails;
        repeat match goal with E : shell _ _ = _ |- _ => rewrite E; clear E end;
        first
          [ discriminate
          | eexists; split; eassumption
          | apply Z.eqb_neq; assumption
          | assumption
          | match goal with
            | E : JsString.truthy ?s = false |- ?s = EmptyString =>
                destruct s; [reflexivity|discriminate E]
            end ] ] ].

(** X6.  A gate stops at the step that fails it: when the result is
    [passed:false], the last process started is the one whose outcome failed
    its step (it threw, or it printed or returned what the step rejects), and
    no later step of the gate was started. *)
Theorem failed_gate_stops_at_failing_step `{JsBuiltins}
    (T : number) (key : string) (o : Oracle) (w : World) :
  exists r w' started,
    validateGate T key o w = (Returns r, w') /\
    spawned w' = (spawned w ++ started)%list /\
    (passed r = false -> exists c, last started = Some c /\ step_fails o T c).
Proof.
  unfold validateGate, gates. cbn [List.find fst snd].
  destruct (String.eqb "design→implement" key) eqn:E1;
    [|destruct (String.eqb "implement→test" key) eqn:E2;
      [|destruct (String.eqb "test→review" key) eqn:E3;
        [|destruct (String.eqb "review→release" key) eqn:E4]]].
  - unfold design_implement. unfold_gate. gate_cases o; stop_leaf.
  - unfold implement_test. unfold_gate. gate_cases o; stop_leaf.
  - unfold test_review. unfold_gate. gate_cases o; stop_leaf.
  - unfold review_release. unfold_gate. gate_cases o; stop_leaf.
  - unfold_gate. do 2 eexists. exists []. split; [reflexivity|].
    split; [simpl; rewrite app_nil_r; reflexivity|]. intros Hfalse. discriminate Hfalse.
Qed.

(** ** What the enforcement hook lets through *)

Lemma hook_unchecked_returns `{JsBuiltins}
    (cfg : Config) (tool : string) (args : ToolArgs) (o : Oracle) (w : World) :
  gate_checked tool args w = false ->
  fst (tool_execute_before cfg tool args o w) = Returns tt /\
  spawned (snd (tool_execute_before cfg tool args o w)) = spawned w.
Proof.
  unfold gate_checked, tool_execute_before. intros Hno.
  destruct (String.eqb tool "write" || String.eqb tool "edit") eqn:Hedit.
  - assert (String.eqb tool "track-phase" = false) as Htrack.
    { apply orb_true_iff in Hedit as [Heq|Heq]; apply String.eqb_eq in Heq;
        subst tool; reflexivity. }
    rewrite Htrack. cbn [negb].
    unfold bind, Date_toISOString, Date_now, bind, modify, notifier_show, modify, ret.
    destruct (or_else (file_path args) (path args)) as [filePath|];
      [|split; reflexivity].
    destruct (JsString.truthy filePath); [|split; reflexivity].
    cbn [fst snd]. destruct (suggestGateCheck filePath) as [suggestion|];
      [|split; reflexivity].
    destruct (JsString.truthy suggestion); split; reflexivity.
  - destruct (String.eqb tool "track-phase") eqn:Htrack; cbn [negb];
      [|split; reflexivity].
    cbn [andb] in Hno.
    cbv beta iota delta [bind ret gets getCurrentPhase].
    destruct (currentPhase (wf w)) as [cp|]; [|split; reflexivity].
    destruct (phase args) as [np|]; [|split; reflexivity].
    cbn [is_truthy] in Hno.
    destruct (JsString.truthy cp); cbn [negb orb andb] in *; [|split; reflexivity].
    rewrite Hno. split; reflexivity.
Qed.

(** X7.  The hook throws only to block: when it throws, the mode is strict,
    the tool is track-phase, the pair of the current and the requested phase
    is one of the four gated pairs, the gate of that pair returned
    [passed:false], and the error carries its message.  The tracker state is
    untouched. *)
Theorem hook_throws_only_to_block `{JsBuiltins}
    (cfg : Config) (tool : string) (args : ToolArgs) (o : Oracle) (w w' : World)
    (e : string) :
  tool_execute_before cfg tool args o w = (Throws e, w') ->
  strictMode cfg = true /\ tool = "track-phase" /\
  exists cp np r w1,
    currentPhase (wf w) = Some cp /\ phase args = Some np /\
    (cp, np) ∈ gated_pairs /\
    validateGate (coverageThreshold cfg) (cp +:+ arrow +:+ np) o w = (Returns r, w1) /\
    passed r = false /\
    e = Error (blocked_message (message r)) /\
    wf w' = wf w.
Proof.
  intros Hthrow.
  destruct (gate_checked tool args w) eqn:Hcheck.
  - unfold gate_checked in Hcheck.
    apply andb_true_iff in Hcheck as [Hcheck Hnp].
    apply andb_true_iff in Hcheck as [Htool Hcp].
    apply String.eqb_eq in Htool. subst tool.
    destruct (currentPhase (wf w)) as [cp|] eqn:Ecp; [|discriminate].
    destruct (phase args) as [np|] eqn:Enp; [|discriminate].
    cbn [is_truthy] in Hcp, Hnp.
    destruct (validateGate_cases (coverageThreshold cfg) (cp +:+ arrow +:+ np) o w)
      as (r & w1 & st & Hgate & Hw & _ & _ & Hnone).
    rewrite (hook_on_track_phase cfg args o w cp np r w1 Enp Ecp Hcp Hnp Hgate) in Hthrow.
    cbv zeta in Hthrow.
    destruct (logGateCheck_frame (gate_log cfg (cp +:+ arrow +:+ np) r) o w1)
      as (w2 & Hlog & Hwf2 & _).
    rewrite Hlog in Hthrow. cbn [snd] in Hthrow.
    destruct (passed r) eqn:Hpass; [discriminate|].
    destruct (strictMode cfg) eqn:Hstrict; [|discriminate].
    injection Hthrow as <- <-.
    split; [reflexivity|]. split; [reflexivity|].
    exists cp, np, r, w1. split; [reflexivity|]. split; [reflexivity|].
    split.
    { apply defined_key_phases.
      destruct (decide (cp +:+ arrow +:+ np ∈ defined_gates)) as [Hin|Hout]; [exact Hin|].
      destruct (Hnone Hout) as [Hp _]. discriminate Hp. }
    split; [exact Hgate|]. split; [exact Hpass|]. split; [reflexivity|].
    rewrite Hwf2. apply Hw.
  - destruct (hook_unchecked_returns cfg tool args o w Hcheck) as [Hret _].
    rewrite Hthrow in Hret. discriminate Hret.
Qed.

Lemma hook_throws_only_to_block_witness :
  let w' := snd (@tool_execute_before sample.builtins strict_mode "track-phase"
                   (track "implement") calm design_phase) in
  strictMode strict_mode = true /\ "track-phase" = "track-phase" /\
  exists cp np r w1,
    currentPhase (wf design_phase) = Some cp /\ phase (track "implement") = Some np /\
    (cp, np) ∈ gated_pairs /\
    @validateGate sample.builtins (coverageThreshold strict_mode) (cp +:+ arrow +:+ np)
      calm design_phase = (Returns r, w1) /\
    passed r = false /\
    Error (blocked_message (message no_design_files)) = Error (blocked_message (message r)) /\
    wf w' = wf design_phase.
Proof.
  apply (@hook_throws_only_to_block sample.builtins strict_mode "track-phase"
           (track "implement") calm design_phase).
  reflexivity.
Defined.

(** X8.  A transition between two phases that are not one of the four gated
    pairs passes the hook in either mode: no process is started and the tracker
    state stays; the hook records it in the gate log as an informational pass
    that is not blocked, or, when the log cannot be written, shows the failure
    and changes no file. *)
Theorem ungated_transition_passes `{JsBuiltins}
    (cfg : Config) (args : ToolArgs) (cp np : string) (o : Oracle) (w : World) :
  currentPhase (wf w) = Some cp ->
  phase args = Some np ->
  cp <> EmptyString -> np <> EmptyString ->
  (cp, np) ∉ gated_pairs ->
  exists w',
    tool_execute_before cfg "track-phase" args o w = (Returns tt, w') /\
    spawned w' = spawned w /\ wf w' = wf w /\
    if log_writable o w then
      appended_record w w'
        (ungated_record cfg (cp +:+ arrow +:+ np) (clock o (ticks w))) /\
      toasts w' = toasts w
    else
      content (fs w') = content (fs w) /\
      exists e, toasts w' = (toasts w ++ [log_failure e])%list.
Proof.
  intros Hcp Hnp Htcp Htnp Hpair.
  assert (cp +:+ arrow +:+ np ∉ defined_gates) as Hout.
  { intros Hin. apply Hpair, defined_key_phases, Hin. }
  assert (JsString.truthy cp = true) as Tcp by (destruct cp; [congruence|reflexivity]).
  assert (JsString.truthy np = true) as Tnp by (destruct np; [congruence|reflexivity]).
  pose proof (hook_on_track_phase cfg args o w cp np
                {| passed := true; message := no_gate (cp +:+ arrow +:+ np);
                   transition := cp +:+ arrow +:+ np;
                   g_timestamp := toISOString (clock o (ticks w)) |}
                (tick w) Hnp Hcp Tcp Tnp) as Hhook.
  rewrite (validateGate_ungated _ _ Hout) in Hhook. specialize (Hhook eq_refl).
  cbv zeta in Hhook. cbn [passed] in Hhook. rewrite Hhook.
  eexists. split; [reflexivity|].
  rewrite logGateCheck_cases. unfold log_writable, appended_record.
  destruct (io_error o (io_append quality_gates_jsonl)) as [e|] eqn:Hio.
  - rewrite bool_decide_eq_false_2 by discriminate. cbn.
    repeat split. exists e. reflexivity.
  - rewrite bool_decide_eq_true_2 by reflexivity. cbn [andb tick fs].
    destruct (workflowDir (fs w)); cbn.
    + repeat split.
    + repeat split. eexists. reflexivity.
Qed.

Lemma ungated_transition_passes_witness :
  exists w',
    @tool_execute_before sample.builtins strict_mode "track-phase" (track "release")
      calm design_phase = (Returns tt, w') /\
    spawned w' = spawned design_phase /\ wf w' = wf design_phase /\
    @appended_record sample.builtins design_phase w'
      (@ungated_record sample.builtins strict_mode ("design" +:+ arrow +:+ "release") 0) /\
    toasts w' = toasts design_phase.
Proof.
  destruct (@ungated_transition_passes sample.builtins strict_mode (track "release")
              "design" "release" calm design_phase eq_refl eq_refl)
    as (w' & Hrun & Hspawned & Hwf & Hlog); try discriminate.
  - unfold gated_pairs. intros Hin.
    repeat (apply elem_of_cons in Hin as [Heq|Hin]; [discriminate Heq|]).
    apply elem_of_nil in Hin. exact Hin.
  - exists w'. split; [exact Hrun|]. split; [exact Hspawned|]. split; [exact Hwf|].
    exact Hlog.
Defined.

Lemma execute_frame `{JsBuiltins} (phase : string) (o : Oracle) (w : World) :
  spawned (snd (track_phase.execute phase o w)) = spawned w /\
  toasts (snd (track_phase.execute phase o w)) = toasts w /\
  content (fs (snd (track_phase.execute phase o w))) quality_gates_jsonl
    = content (fs w) quality_gates_jsonl.
Proof.
  unfold track_phase.execute.
  destruct (array_includes validPhases (toLowerCase phase)); cbn [negb];
    [|repeat split].
  unfold bind, initializeWorkflowState, existsSync_workflowDir, gets, bind, mkdirSync,
    logTransition, getCurrentPhase, getFilesModified, Date_toISOString, Date_now,
    appendFileSync, setCurrentPhase, clearModifiedFiles, modify, gets, bind, ret.
  cbn [fst snd negb].
  destruct (workflowDir (fs w)) eqn:Hdir; cbn [negb];
    [|destruct (io_error o io_mkdir)]; cbn [wf fs tick set_fs workflowDir];
    try (repeat split; fail).
  all: destruct (phaseStartTime (wf w)); cbn [wf fs tick set_fs workflowDir];
    destruct (io_error o (io_append transitions_jsonl));
    rewrite ?Hdir; cbn; repeat split.
Qed.

(** X9.  The first transition of a session is not gated: while no phase is
    current, a call of the tool through the runtime is the run of the tool
    alone, whatever the configuration; no process is started and the gate log
    is not written. *)
Theorem first_transition_not_gated `{JsBuiltins}
    (cfg : Config) (p : string) (o : Oracle) (w : World) :
  currentPhase (wf w) = None ->
  call_track_phase cfg p o w = track_phase.execute p o w /\
  spawned (snd (call_track_phase cfg p o w)) = spawned w /\
  toasts (snd (call_track_phase cfg p o w)) = toasts w /\
  content (fs (snd (call_track_phase cfg p o w))) quality_gates_jsonl
    = content (fs w) quality_gates_jsonl.
Proof.
  intros Hnone.
  assert (call_track_phase cfg p o w = track_phase.execute p o w) as Hsame.
  { unfold call_track_phase.
    destruct (enabled cfg); [|reflexivity].
    unfold tool_execute_before.
    change (String.eqb "track-phase" "write" || String.eqb "track-phase" "edit") with false.
    change (negb (String.eqb "track-phase" "track-phase")) with false.
    cbv beta iota delta [bind ret gets getCurrentPhase]. rewrite Hnone. reflexivity. }
  split; [exact Hsame|]. rewrite Hsame. apply execute_frame.
Qed.

Lemma first_transition_not_gated_witness :
  @call_track_phase sample.builtins strict_mode "implement" calm fresh_world
    = @track_phase.execute sample.builtins "implement" calm fresh_world /\
  spawned (snd (@call_track_phase sample.builtins strict_mode "implement" calm fresh_world))
    = [] /\
  toasts (snd (@call_track_phase sample.builtins strict_mode "implement" calm fresh_world))
    = [] /\
  content
    (fs (snd (@call_track_phase sample.builtins strict_mode "implement" calm fresh_world)))
    quality_gates_jsonl = None.
Proof.
  apply (@first_transition_not_gated sample.builtins strict_mode "implement" calm
           fresh_world).
  reflexivity.
Defined.

(** ** Suggestions and the record of modified files *)

Lemma starts_with_append (p q s : string) :
  starts_with (p +:+ q) s = true -> starts_with p s = true.
Proof.
  revert s. induction p as [|c p IH]; intros s; [reflexivity|].
  rewrite append_cons. destruct s as [|d s]; cbn [starts_with]; [discriminate|].
  intros Hs. apply andb_true_iff in Hs as [Hc Hs]. rewrite Hc, (IH s Hs). reflexivity.
Qed.

Lemma includes_append (s p q : string) :
  includes s (p +:+ q) = true -> includes s p = true.
Proof.
  induction s as [|c s IH]; cbn [includes].
  - rewrite !orb_false_r. apply starts_with_append.
  - intros Hs. apply orb_true_iff in Hs as [Hs|Hs].
    + rewrite (starts_with_append _ _ _ Hs). reflexivity.
    + rewrite (IH Hs). apply orb_true_r.
Qed.

(** X10.  The entries [.tsx] and [.jsx] of the suggestion table are never
    chosen, the entries [.ts] and [.js] before them catch every path that they
    would catch: the suggestion is the first match among the other seven
    entries.  In particular every path that contains [.ts] gets the
    compilation suggestion, also a test file, and otherwise every path that
    contains [.js] gets the linting suggestion, also a [.json] file. *)
Theorem suggestGateCheck_shadowed (filePath : string) :
  suggestGateCheck filePath
    = snd <$> List.find (fun entry => includes filePath (fst entry)) reachable_suggestions /\
  (includes filePath ".ts" = true ->
   suggestGateCheck filePath
     = Some "Consider running 'implement→test' gate (compilation check)") /\
  (includes filePath ".ts" = false -> includes filePath ".js" = true ->
   suggestGateCheck filePath
     = Some "Consider running 'implement→test' gate (linting check)").
Proof.
  unfold suggestGateCheck, reachable_suggestions, suggestions.
  cbn [List.find fst snd].
  pose proof (includes_append filePath ".ts" "x") as Htsx.
  pose proof (includes_append filePath ".js" "x") as Hjsx.
  change (".ts" +:+ "x") with ".tsx" in Htsx. change (".js" +:+ "x") with ".jsx" in Hjsx.
  destruct (includes filePath ".ts") eqn:Ets.
  - repeat split; intros; first [reflexivity | discriminate].
  - destruct (includes filePath ".tsx") eqn:Etsx; [specialize (Htsx eq_refl); discriminate|].
    destruct (includes filePath ".js") eqn:Ejs.
    + repeat split; intros; first [reflexivity | discriminate].
    + destruct (includes filePath ".jsx") eqn:Ejsx; [specialize (Hjsx eq_refl); discriminate|].
      repeat split; intros; first [reflexivity | discriminate].
Qed.

Lemma suggestGateCheck_shadowed_witness :
  suggestGateCheck "src/gate.test.ts"
    = Some "Consider running 'implement→test' gate (compilation check)" /\
  suggestGateCheck "package.json"
    = Some "Consider running 'implement→test' gate (linting check)".
Proof.
  split.
  - apply (proj1 (proj2 (suggestGateCheck_shadowed "src/gate.test.ts"))). reflexivity.
  - apply (proj2 (proj2 (suggestGateCheck_shadowed "package.json"))); reflexivity.
Defined.

Lemma recorded_insert_fresh (m : gmap string (list string)) (k : string) (v : list string) :
  m !! k = None -> recorded (<[k := v]> m) = length v + recorded m.
Proof.
  intros Hfresh. unfold recorded.
  rewrite map_fold_insert_L; [reflexivity| |exact Hfresh].
  intros. lia.
Qed.

Lemma recorded_push (m : gmap string (list string)) (k x : string) :
  recorded (<[k := (default [] (m !! k) ++ [x])%list]> m) = S (recorded m).
Proof.
  destruct (m !! k) as [l|] eqn:Hlook; cbn [default].
  - rewrite <- (insert_delete_eq m k (l ++ [x])%list).
    rewrite <- (insert_id m k l Hlook) at 2.
    rewrite <- (insert_delete_eq m k l).
    rewrite !recorded_insert_fresh by apply lookup_delete_eq.
    rewrite length_app. cbn [length]. lia.
  - rewrite recorded_insert_fresh by exact Hlook. reflexivity.
Qed.

Lemma suggestion_truthy (filePath s : string) :
  suggestGateCheck filePath = Some s -> JsString.truthy s = true.
Proof.
  unfold suggestGateCheck, suggestions. cbn [List.find fst snd].
  repeat match goal with
         | |- context [includes filePath ?p] => destruct (includes filePath p)
         end;
    cbn; intros [= <-]; reflexivity.
Qed.

(** X11.  On a write or an edit of a path ([file_path], or [path] when that
    is missing or empty) the hook returns normally in either mode: it files
    the path under the time stamp of the call behind the paths already filed
    there, so that the record grows by one path whatever the time stamp, and
    shows the suggestion for the path, if there is one.  It touches neither the
    files nor the tracker state and starts no process. *)
Theorem hook_records_modification `{JsBuiltins}
    (cfg : Config) (tool : string) (args : ToolArgs) (filePath : string)
    (o : Oracle) (w : World) :
  tool = "write" \/ tool = "edit" ->
  or_else (file_path args) (path args) = Some filePath ->
  filePath <> EmptyString ->
  exists w',
    tool_execute_before cfg tool args o w = (Returns tt, w') /\
    recentModifications w' =
      <[toISOString (clock o (ticks w)) :=
          (default [] (recentModifications w !! toISOString (clock o (ticks w)))
           ++ [filePath])%list]> (recentModifications w) /\
    recorded (recentModifications w') = S (recorded (recentModifications w)) /\
    toasts w' =
      (toasts w ++ match suggestGateCheck filePath with
                   | Some suggestion => [(toast_info, suggestion)]
                   | None => []
                   end)%list /\
    wf w' = wf w /\ fs w' = fs w /\ spawned w' = spawned w.
Proof.
  intros Htool Hpath Hne.
  assert (JsString.truthy filePath = true) as Htruthy
    by (destruct filePath; [congruence|reflexivity]).
  unfold tool_execute_before.
  assert (String.eqb tool "write" || String.eqb tool "edit" = true) as ->
    by (destruct Htool as [-> | ->]; reflexivity).
  assert (String.eqb tool "track-phase" = false) as ->
    by (destruct Htool as [-> | ->]; reflexivity).
  rewrite Hpath, Htruthy. cbn [negb].
  unfold bind, Date_toISOString, Date_now, bind, modify, notifier_show, modify, ret.
  cbn [fst snd].
  destruct (suggestGateCheck filePath) as [suggestion|] eqn:Hs.
  - rewrite (suggestion_truthy filePath suggestion Hs).
    eexists. split; [reflexivity|]. cbn.
    split; [reflexivity|]. split; [apply recorded_push|]. repeat split.
  - eexists. split; [reflexivity|]. cbn.
    split; [reflexivity|]. split; [apply recorded_push|].
    rewrite app_nil_r. repeat split.
Qed.

Lemma hook_records_modification_witness :
  exists w',
    @tool_execute_before sample.builtins strict_mode "edit"
      {| phase := None; file_path := Some EmptyString; path := Some "docs/api.design.md" |}
      calm design_phase = (Returns tt, w') /\
    recentModifications w' = {[ "0" := ["docs/api.design.md"] ]} /\
    recorded (recentModifications w') = 1 /\
    toasts w' =
      [ (toast_info, "Consider running 'design→implement' gate (design review)") ].
Proof.
  destruct (@hook_records_modification sample.builtins strict_mode "edit"
              {| phase := None; file_path := Some EmptyString;
                 path := Some "docs/api.design.md" |}
              "docs/api.design.md" calm design_phase)
    as (w' & Hrun & Hrecent & Hcount & Htoasts & _);
    [right; reflexivity | reflexivity | discriminate |].
  exists w'. split; [exact Hrun|]. split; [exact Hrecent|].
  split; [exact Hcount|exact Htoasts].
Defined.

(** ** Reading the coverage threshold *)

Lemma uint_value_acc (d : Decimal.uint) (acc : positive) :
  uint_value d (Z.pos acc) = Z.pos (Pos.of_uint_acc d acc).
Proof.
  revert acc. induction d; intros acc; cbn [uint_value Pos.of_uint_acc];
    try reflexivity; rewrite <- IHd; f_equal; lia.
Qed.

Lemma uint_value_of_uint (d : Decimal.uint) : uint_value d 0 = Z.of_uint d.
Proof.
  unfold Z.of_uint. induction d; cbn [uint_value Pos.of_uint]; try reflexivity;
    try exact IHd; cbn [Z.mul Z.add Z.of_N]; apply uint_value_acc.
Qed.

Lemma digits_uint (d : Decimal.uint) (acc : Z) (cnt : nat) (rest : list ascii) :
  digits 10 acc cnt (uint_bytes d ++ rest)
  = digits 10 (uint_value d acc) (cnt + Decimal.nb_digits d) rest.
Proof.
  unfold uint_bytes. revert acc cnt.
  induction d; intros acc cnt;
    cbn [NilEmpty.string_of_uint list_ascii_of_string app digits uint_value Decimal.nb_digits];
    [rewrite Nat.add_0_r; reflexivity|..];
    change (digit_value 10 _) with (Some 0%Z) || change (digit_value 10 _) with (Some 1%Z)
    || change (digit_value 10 _) with (Some 2%Z) || change (digit_value 10 _) with (Some 3%Z)
    || change (digit_value 10 _) with (Some 4%Z) || change (digit_value 10 _) with (Some 5%Z)
    || change (digit_value 10 _) with (Some 6%Z) || change (digit_value 10 _) with (Some 7%Z)
    || change (digit_value 10 _) with (Some 8%Z) || change (digit_value 10 _) with (Some 9%Z);
    cbn iota; rewrite IHd, Nat.add_succ_r; reflexivity.
Qed.

Lemma digits_end (acc : Z) (cnt : nat) (rest : string) :
  ends_number rest = true ->
  digits 10 acc cnt (list_ascii_of_string rest) = (acc, cnt).
Proof.
  destruct rest as [|c rest]; [reflexivity|]. cbn [ends_number list_ascii_of_string digits].
  destruct (digit_value 10 c); [discriminate|reflexivity].
Qed.

Lemma nonzero_digit_is_decimal (k : ascii) (t : list ascii) :
  Ascii.eqb k "0" = false ->
  match k :: t with
  | z :: x :: rest =>
      if Ascii.eqb z "0" && (Ascii.eqb x "x" || Ascii.eqb x "X")
      then (16%Z, rest) else (10%Z, k :: t)
  | _ => (10%Z, k :: t)
  end = (10%Z, k :: t).
Proof. intros Hk. destruct t as [|x t]; [reflexivity|]. rewrite Hk. reflexivity. Qed.

Lemma ends_number_not_x (rest : string) :
  ends_number rest = true ->
  match list_ascii_of_string rest with
  | [] => True
  | x :: _ => Ascii.eqb x "x" || Ascii.eqb x "X" = false
  end.
Proof.
  destruct rest as [|c rest]; [constructor|]. cbn [ends_number list_ascii_of_string].
  destruct (digit_value 10 c); [discriminate|]. apply negb_true_iff.
Qed.

Lemma zero_digit_is_decimal (t : list ascii) :
  match t with [] => True | x :: _ => Ascii.eqb x "x" || Ascii.eqb x "X" = false end ->
  match "0"%char :: t with
  | z :: x :: rest =>
      if Ascii.eqb z "0" && (Ascii.eqb x "x" || Ascii.eqb x "X")
      then (16%Z, rest) else (10%Z, "0"%char :: t)
  | _ => (10%Z, "0"%char :: t)
  end = (10%Z, "0"%char :: t).
Proof. destruct t as [|x t]; [reflexivity|]. intros ->. reflexivity. Qed.

Lemma uint_text_not_x (d : Decimal.uint) (rest : string) :
  ends_number rest = true ->
  match (uint_bytes d ++ list_ascii_of_string rest)%list with
  | [] => True
  | x :: _ => Ascii.eqb x "x" || Ascii.eqb x "X" = false
  end.
Proof.
  intros Hrest. destruct d; try reflexivity. apply ends_number_not_x, Hrest.
Qed.

Lemma uint_number (d : Decimal.uint) (rest : string) :
  ends_number rest = true ->
  let s := (list_ascii_of_string (NilZero.string_of_uint d) ++ list_ascii_of_string rest)%list in
  trimStart_bytes s = s /\
  match s with
  | c :: r =>
      if Ascii.eqb c "-" then ((-1)%Z, r)
      else if Ascii.eqb c "+" then (1%Z, r) else (1%Z, s)
  | [] => (1%Z, s)
  end = (1%Z, s) /\
  match s with
  | z :: x :: r =>
      if Ascii.eqb z "0" && (Ascii.eqb x "x" || Ascii.eqb x "X")
      then (16%Z, r) else (10%Z, s)
  | _ => (10%Z, s)
  end = (10%Z, s) /\
  exists n, digits 10 0 0 s = (Z.of_uint d, S n).
Proof.
  intros Hrest. rewrite <- uint_value_of_uint.
  pose proof (digits_uint d 0 0 (list_ascii_of_string rest)) as Hdigits.
  rewrite (digits_end _ _ rest Hrest) in Hdigits. unfold uint_bytes in Hdigits.
  pose proof (ends_number_not_x rest Hrest) as Hx0.
  pose proof (digits_end (0 * 10 + 0) 1 rest Hrest) as Hzero.
  destruct d; cbn [NilZero.string_of_uint NilEmpty.string_of_uint list_ascii_of_string app]
    in *; cbv zeta.
  all: unfold trimStart_bytes; cbn [length strip_all].
  all: match goal with
       | |- context [strip_any white_space (?c :: ?t)] =>
           change (strip_any white_space (c :: t)) with (@None (list ascii))
       end; cbn iota.
  all: match goal with
       | |- context [Ascii.eqb ?c "-"] => change (Ascii.eqb c "-") with false
       end; cbn iota.
  all: match goal with
       | |- context [Ascii.eqb ?c "+"] => change (Ascii.eqb c "+") with false
       end; cbn iota.
  all: split; [reflexivity|]; split; [reflexivity|].
  all: try (split; [apply nonzero_digit_is_decimal; reflexivity|];
            eexists; rewrite Hdigits; cbn [Decimal.nb_digits Nat.add]; reflexivity).
  - split; [apply zero_digit_is_decimal, Hx0|].
    exists 0. cbn [digits]. change (digit_value 10 "0") with (Some 0%Z). cbn iota.
    exact Hzero.
  - pose proof (uint_text_not_x d rest Hrest) as Hx. unfold uint_bytes in Hx.
    split; [apply zero_digit_is_decimal, Hx|].
    eexists. rewrite Hdigits. cbn [Decimal.nb_digits Nat.add]. reflexivity.
Qed.

Lemma parseInt_unsigned (d : Decimal.uint) (rest : string) :
  ends_number rest = true ->
  parseInt (NilZero.string_of_uint d +:+ rest) = of_Z (Z.of_uint d).
Proof.
  intros Hrest. destruct (uint_number d rest Hrest) as (Htrim & Hsign & Hradix & n & Hdigits).
  unfold parseInt. rewrite bytes_of_append, Htrim, Hsign, Hradix, Hdigits, Z.mul_1_l.
  reflexivity.
Qed.

Lemma parseInt_negative (d : Decimal.uint) (rest : string) :
  ends_number rest = true ->
  parseInt (String "-" (NilZero.string_of_uint d) +:+ rest) = of_Z (- Z.of_uint d).
Proof.
  intros Hrest. destruct (uint_number d rest Hrest) as (_ & _ & Hradix & n & Hdigits).
  unfold parseInt. rewrite append_cons. cbn [list_ascii_of_string].
  rewrite bytes_of_append.
  unfold trimStart_bytes. cbn [length strip_all].
  match goal with
  | |- context [strip_any white_space (?c :: ?t)] =>
      change (strip_any white_space (c :: t)) with (@None (list ascii))
  end; cbn iota.
  change (Ascii.eqb "-" "-") with true. cbn iota.
  rewrite Hradix, Hdigits.
  replace (-1 * Z.of_uint d)%Z with (- Z.of_uint d)%Z by lia. reflexivity.
Qed.

(** [parseInt] reads back the decimal text of an integer, whatever follows
    the number. *)
Lemma parseInt_decimal_text (z : Z) (rest : string) :
  ends_number rest = true ->
  parseInt (decimal_text z +:+ rest) = of_Z z.
Proof.
  intros Hrest. unfold decimal_text.
  rewrite <- (DecimalZ.of_to z) at 2.
  destruct (Z.to_int z) as [d|d]; cbn [NilZero.string_of_int Z.of_int].
  - apply parseInt_unsigned, Hrest.
  - apply parseInt_negative, Hrest.
Qed.

Lemma decimal_text_truthy (z : Z) (rest : string) :
  JsString.truthy (decimal_text z +:+ rest) = true.
Proof.
  unfold decimal_text.
  destruct (Z.to_int z) as [d|d]; cbn [NilZero.string_of_int]; [|reflexivity].
  destruct d; reflexivity.
Qed.

(** X12.  The coverage threshold is what [parseInt] reads from the
    variable: the decimal text of an integer (in the range where numbers are
    exact), followed or not by text that does not continue the number, such as
    the rest of [85.5%], gives that integer. *)
Theorem coverageThreshold_read_with_parseInt
    (env : ProcessEnv) (z : Z) (rest : string) :
  (Z.abs z <= 2 ^ 53)%Z ->
  ends_number rest = true ->
  QUALITY_GATE_COVERAGE_THRESHOLD env = Some (decimal_text z +:+ rest) ->
  coverageThreshold (configure env) = of_Z z.
Proof.
  intros _ Hrest Henv. unfold configure. cbn [coverageThreshold]. rewrite Henv.
  rewrite decimal_text_truthy. apply parseInt_decimal_text, Hrest.
Qed.

Lemma coverageThreshold_read_with_parseInt_witness :
  coverageThreshold
    (configure
       {| ENABLE_QUALITY_GATE := None; QUALITY_GATE_STRICT := None;
          QUALITY_GATE_COVERAGE_THRESHOLD := Some "85.5%" |}) = of_Z 85.
Proof.
  apply (coverageThreshold_read_with_parseInt _ 85 ".5%"); [|reflexivity|reflexivity].
  intros Hle. vm_compute in Hle. discriminate Hle.
Defined.

(** ** The coverage check at its edges *)

Lemma test_review_verdict `{JsBuiltins}
    (T : number) (o : Oracle) (w : World) (tests probe : ShellOutput) :
  shell o grep_npm_test = Returns tests ->
  (says_true (stdout tests) = true -> exists out, shell o npm_test = Returns out) ->
  shell o test_coverage_file = Returns probe ->
  exists r w',
    test_review T o w = (Returns r, w') /\
    (says_true (stdout probe) = false -> passed r = true /\ message r = tests_pass) /\
    (says_true (stdout probe) = true ->
     forall data cov,
       shell o cat_coverage_file = Returns data ->
       JSON_parse_coverage (stdout data) = Returns cov ->
       passed r = negb (lt (totalCoverage cov) T) /\
       message r = if lt (totalCoverage cov) T
                   then coverage_message (totalCoverage cov) T else tests_pass) /\
    (says_true (stdout probe) = true -> coverage_unreadable o ->
     passed r = true /\ message r = tests_pass).
Proof.
  intros Hgrep Hsuite Hprobe.
  unfold test_review. unfold_gate. rewrite Hgrep. cbn [stdout].
  destruct (says_true (stdout tests)) eqn:Hsays;
    [destruct (Hsuite eq_refl) as (out & Hout); rewrite Hout|];
    rewrite Hprobe; cbn [stdout];
    destruct (says_true (stdout probe)) eqn:Hpresent;
    gate_cases o; do 2 eexists; (split; [reflexivity|]); (split; [|split]);
    try (intros; discriminate); try (intros; split; reflexivity).
  all: try (intros _ data cov Hdata Hparse; injection Hdata as <-;
            try congruence;
            match goal with
            | E : JSON_parse_coverage _ = Returns ?c, L : lt (totalCoverage ?c) _ = _ |- _ =>
                rewrite E in Hparse; injection Hparse as <-; rewrite L; split; reflexivity
            end).
  all: intros _ [(e' & He) | (out' & e' & Hout' & He)]; try congruence;
    split; reflexivity.
Qed.

Lemma lt_NaN (a : number) : lt a NaN = false.
Proof. destruct a; reflexivity. Qed.

(** X13.  A threshold that [parseInt] cannot read is [NaN], and then the
    coverage check is off: no number is below [NaN], so in the test→review
    gate, the test suite succeeding or not being configured, the result is a
    pass whatever the coverage file says. *)
Theorem unreadable_threshold_disables_coverage_check `{JsBuiltins}
    (env : ProcessEnv) (v : string) (o : Oracle) (w : World) (tests probe : ShellOutput) :
  QUALITY_GATE_COVERAGE_THRESHOLD env = Some v ->
  v <> EmptyString ->
  parseInt v = NaN ->
  shell o grep_npm_test = Returns tests ->
  (says_true (stdout tests) = true -> exists out, shell o npm_test = Returns out) ->
  shell o test_coverage_file = Returns probe ->
  coverageThreshold (configure env) = NaN /\
  exists r w',
    validateGate (coverageThreshold (configure env)) "test→review" o w = (Returns r, w') /\
    passed r = true /\ message r = tests_pass.
Proof.
  intros Henv Hne Hnan Hgrep Hsuite Hprobe.
  assert (coverageThreshold (configure env) = NaN) as HT.
  { unfold configure. cbn [coverageThreshold]. rewrite Henv.
    destruct v; [congruence|]. exact Hnan. }
  split; [exact HT|]. rewrite HT.
  change (validateGate NaN "test→review") with (test_review NaN).
  destruct (test_review_verdict NaN o w tests probe Hgrep Hsuite Hprobe)
    as (r & w' & Hrun & Habsent & Hpresent & Hopen).
  exists r, w'. split; [exact Hrun|].
  destruct (says_true (stdout probe)) eqn:Hsays; [|apply Habsent; reflexivity].
  destruct (shell o cat_coverage_file) as [data|e] eqn:Hcat.
  - destruct (JSON_parse_coverage (stdout data)) as [cov|e] eqn:Hparse.
    + destruct (Hpresent eq_refl data cov eq_refl Hparse) as [Hp Hm].
      rewrite lt_NaN in Hp, Hm. split; assumption.
    + apply Hopen; [reflexivity|]. right. exists data, e. split; assumption.
  - apply Hopen; [reflexivity|]. left. exists e. exact Hcat.
Qed.

(** X14.  A coverage summary without [total.lines.pct], or with 0 or [NaN]
    there, counts as 0 percent: the test→review gate fails it against every
    positive threshold, reporting a coverage of 0, and passes it otherwise. *)
Theorem missing_pct_counts_as_zero `{JsBuiltins}
    (T : Z) (o : Oracle) (w : World) (tests probe data : ShellOutput)
    (cov : CoverageSummary) :
  shell o grep_npm_test = Returns tests ->
  (says_true (stdout tests) = true -> exists out, shell o npm_test = Returns out) ->
  shell o test_coverage_file = Returns probe ->
  says_true (stdout probe) = true ->
  shell o cat_coverage_file = Returns data ->
  JSON_parse_coverage (stdout data) = Returns cov ->
  reported cov = None \/ reported cov = Some NaN \/ reported cov = Some (of_Z 0) ->
  exists r w',
    validateGate (of_Z T) "test→review" o w = (Returns r, w') /\
    ((0 < T)%Z -> passed r = false /\ message r = coverage_message (of_Z 0) (of_Z T)) /\
    ((T <= 0)%Z -> passed r = true).
Proof.
  intros Hgrep Hsuite Hprobe Hsays Hcat Hparse Hmissing.
  change (validateGate (of_Z T) "test→review") with (test_review (of_Z T)).
  destruct (test_review_verdict (of_Z T) o w tests probe Hgrep Hsuite Hprobe)
    as (r & w' & Hrun & _ & Hpresent & _).
  exists r, w'. split; [exact Hrun|].
  destruct (Hpresent Hsays data cov Hcat Hparse) as [Hp Hm].
  assert (totalCoverage cov = of_Z 0) as Hzero.
  { unfold totalCoverage. fold (reported cov).
    destruct Hmissing as [-> | [-> | ->]]; reflexivity. }
  rewrite Hzero in Hp, Hm.
  assert (lt (of_Z 0) (of_Z T) = true <-> (0 < T)%Z) as Hlt.
  { unfold of_Z. cbn [lt]. rewrite Qltb_lt. rewrite <- Zlt_Qlt. reflexivity. }
  destruct (lt (of_Z 0) (of_Z T)) eqn:E; cbn [negb] in Hp.
  - split; [intros _; split; assumption|]. intros Hle.
    pose proof (proj1 Hlt eq_refl). lia.
  - split; [|intros _; exact Hp]. intros Hpos.
    pose proof (proj2 Hlt Hpos). discriminate.
Qed.

Lemma unreadable_threshold_disables_coverage_check_witness :
  let env := {| ENABLE_QUALITY_GATE := None; QUALITY_GATE_STRICT := None;
                QUALITY_GATE_COVERAGE_THRESHOLD := Some "high" |} in
  coverageThreshold (configure env) = NaN /\
  exists r w',
    @validateGate sample.builtins (coverageThreshold (configure env)) "test→review"
      (with_coverage (sample.says (sample.show_coverage (of_Z 72)))) design_phase
      = (Returns r, w') /\
    passed r = true /\ message r = tests_pass.
Proof.
  apply (@unreadable_threshold_disables_coverage_check sample.builtins _ "high"
           (with_coverage (sample.says (sample.show_coverage (of_Z 72)))) design_phase
           {| exitCode := 0; stdout := sample.line "false" |}
           {| exitCode := 0; stdout := sample.line "true" |});
    try reflexivity; discriminate.
Defined.

Lemma missing_pct_counts_as_zero_witness :
  exists r w',
    @validateGate reading_empty_summary (of_Z 80) "test→review"
      (with_coverage (sample.says "{}")) design_phase = (Returns r, w') /\
    passed r = false /\
    message r = "❌ Coverage is 0%. Must be >80% before review.".
Proof.
  destruct (@missing_pct_counts_as_zero reading_empty_summary 80
              (with_coverage (sample.says "{}")) design_phase
              {| exitCode := 0; stdout := sample.line "false" |}
              {| exitCode := 0; stdout := sample.line "true" |}
              {| exitCode := 0; stdout := sample.line "{}" |}
              {| c_total := None |})
    as (r & w' & Hrun & Hfail & _); try reflexivity; try discriminate.
  - left. reflexivity.
  - exists r, w'. split; [exact Hrun|]. apply Hfail. reflexivity.
Defined.

(** ** The counters of the workflow report *)

Lemma mapM_lift_cases {A B} (f : A -> Outcome B) (xs : list A) o w :
  (exists ys, Forall2 (fun x y => f x = Returns y) xs ys /\
              mapM (fun x => lift (f x)) xs o w = (Returns ys, w)) \/
  (exists e, mapM (fun x => lift (f x)) xs o w = (Throws e, w)).
Proof.
  induction xs as [|x xs IH].
  - left. exists []. split; [constructor|reflexivity].
  - destruct (f x) as [y|e] eqn:Hx.
    + destruct IH as [(ys & Hall & Hrun) | (e & Hrun)].
      * left. exists (y :: ys). split; [constructor; assumption|].
        cbn [mapM]. unfold bind at 1. unfold lift at 1. rewrite Hx.
        unfold bind at 1. rewrite Hrun. reflexivity.
      * right. exists e.
        cbn [mapM]. unfold bind at 1. unfold lift at 1. rewrite Hx.
        unfold bind at 1. rewrite Hrun. reflexivity.
    + right. exists e. cbn [mapM]. unfold bind at 1. unfold lift at 1. rewrite Hx.
      reflexivity.
Qed.

Lemma generateReport_cases `{JsBuiltins} (o : Oracle) (w : World) :
  match content (fs w) transitions_jsonl with
  | None => generateReport o w = (Returns (inr no_data), w)
  | Some data =>
      (exists e, generateReport o w = (Throws e, w)) \/
      (exists ts,
         Forall2 (fun line t => JSON_parse_transition line = Returns t)
                 (split LF (trim data)) ts /\
         generateReport o w =
           (Returns (inl (fold_left report_step ts (report_start ts))),
            set_fs (write_content report_json
                      (JSON_stringify_report
                         (fold_left report_step ts (report_start ts)))) w))
  end.
Proof.
  remember (generateReport o w) as R eqn:HR.
  unfold generateReport, existsSync, readFileSync, writeFileSync, gets in HR.
  unfold bind at 1 in HR.
  destruct (content (fs w) transitions_jsonl) as [data|] eqn:Hdata.
  - rewrite bool_decide_eq_true_2 in HR by (eexists; reflexivity). cbn [negb] in HR.
    unfold bind at 1 in HR.
    destruct (io_error o (io_read transitions_jsonl)) as [e|];
      [left; exists e; exact HR|].
    rewrite Hdata in HR. unfold bind at 1 in HR.
    destruct (mapM_lift_cases JSON_parse_transition (split LF (trim data)) o w)
      as [(ts & Hall & Hrun) | (e & Hrun)]; rewrite Hrun in HR;
      [|left; exists e; exact HR].
    fold (report_start ts) in HR. unfold bind at 1 in HR.
    destruct (io_error o (io_write report_json)) as [e|];
      [left; exists e; exact HR|].
    destruct (workflowDir (fs w)); [|left; eexists; exact HR].
    right. exists ts. split; [exact Hall|exact HR].
  - rewrite bool_decide_eq_false_2 in HR by (intros [x Hx]; discriminate Hx). exact HR.
Qed.

Lemma phases_fold (ts : list WorkflowTransition) (report : WorkflowReport) (p : string) :
  p <> EmptyString -> p ∉ Object_prototype_names ->
  phases (fold_left report_step ts report) !! p = add_phase (phases report !! p) (into p ts).
Proof.
  intros Hne Hown. revert report. induction ts as [|t ts IH]; intros report.
  - cbn [fold_left into List.filter add_phase].
    destruct (phases report !! p) as [[a b]|]; [|reflexivity].
    cbn. rewrite Nat.add_0_r. reflexivity.
  - cbn [fold_left]. rewrite IH. unfold into at 2. cbn [List.filter].
    fold (into p ts). unfold report_step at 1. cbn [phases].
    destruct (String.eqb (to t) p) eqn:Hp.
    + apply String.eqb_eq in Hp. rewrite Hp.
      assert (JsString.truthy p = true) as -> by (destruct p; [congruence|reflexivity]).
      unfold get_property.
      destruct (phases report !! p) as [[a b]|] eqn:Hlook.
      * rewrite lookup_insert_eq. unfold add_phase.
        cbn [default count totalDuration length fold_left]. unfold id.
        cbn [count totalDuration]. do 2 f_equal. lia.
      * unfold array_includes. rewrite bool_decide_eq_false_2 by exact Hown.
        rewrite lookup_insert_eq. unfold add_phase.
        cbn [default count totalDuration length fold_left]. unfold id.
        cbn [count totalDuration]. reflexivity.
    + apply String.eqb_neq in Hp.
      assert (forall v, <[to t := v]> (phases report) !! p = phases report !! p) as Hother
        by (intros v; apply lookup_insert_ne, Hp).
      destruct (JsString.truthy (to t)); [|reflexivity].
      destruct (get_property (phases report) (to t)); rewrite ?Hother; reflexivity.
Qed.

Lemma report_fold_total (ts : list WorkflowTransition) (report : WorkflowReport) :
  totalTransitions (fold_left report_step ts report) = totalTransitions report.
Proof.
  revert report. induction ts as [|t ts IH]; intros report; [reflexivity|].
  cbn [fold_left]. rewrite IH. reflexivity.
Qed.

Lemma Set_add_all (files acc : list string) :
  (NoDup acc -> NoDup (fold_left (fun a f => Set_add f a) files acc)) /\
  forall g, g ∈ fold_left (fun a f => Set_add f a) files acc <-> g ∈ acc \/ g ∈ files.
Proof.
  revert acc. induction files as [|f files IH]; intros acc.
  - cbn. split; [tauto|]. intros g. rewrite elem_of_nil. tauto.
  - cbn [fold_left]. destruct (IH (Set_add f acc)) as [Hnd Hin]. split.
    + intros Hacc. apply Hnd, Set_add_NoDup, Hacc.
    + intros g. rewrite Hin, Set_add_elem, elem_of_cons. tauto.
Qed.

Lemma report_step_files (report : WorkflowReport) (t : WorkflowTransition) :
  filesChanged (report_step report t)
  = fold_left (fun a f => Set_add f a) (default [] (t_filesModified t)) (filesChanged report).
Proof. unfold report_step. cbn [filesChanged]. destruct (t_filesModified t); reflexivity. Qed.

Lemma files_fold (ts : list WorkflowTransition) (report : WorkflowReport) :
  (NoDup (filesChanged report) -> NoDup (filesChanged (fold_left report_step ts report))) /\
  forall g, g ∈ filesChanged (fold_left report_step ts report)
            <-> g ∈ filesChanged report \/ g ∈ files_of ts.
Proof.
  revert report. induction ts as [|t ts IH]; intros report.
  - cbn. split; [tauto|]. intros g. rewrite elem_of_nil. tauto.
  - cbn [fold_left]. destruct (IH (report_step report t)) as [Hnd Hin].
    unfold files_of. cbn [map concat]. fold (files_of ts).
    rewrite report_step_files in Hnd. setoid_rewrite report_step_files in Hin.
    destruct (Set_add_all (default [] (t_filesModified t)) (filesChanged report))
      as [Hnd1 Hin1].
    split.
    + intros Hacc. apply Hnd, Hnd1, Hacc.
    + intros g. rewrite Hin, Hin1, elem_of_app. tauto.
Qed.

(** X15.  Whenever [generateReport] returns a report, the log was there
    and each of its lines parsed; [totalTransitions] is the number of lines.
    For every phase whose name is not empty and not that of an inherited
    member, the entry counts the transitions into the phase, and there is no
    entry when no transition enters it; when the durations of these
    transitions add up without rounding (their absolute values sum to at most
    2^53), the entry holds their sum: the time is counted under the phase
    entered, not under the phase left. *)
Theorem generateReport_counts_by_phase `{JsBuiltins}
    (o : Oracle) (w w' : World) (report : WorkflowReport) :
  generateReport o w = (Returns (inl report), w') ->
  exists data ts,
    content (fs w) transitions_jsonl = Some data /\
    Forall2 (fun line t => JSON_parse_transition line = Returns t) (split LF (trim data)) ts /\
    totalTransitions report = length ts /\
    forall p, p <> EmptyString -> p ∉ Object_prototype_names ->
      count <$> phases report !! p = count <$> phase_tally (into p ts) /\
      (exact_durations (into p ts) -> phases report !! p = phase_tally (into p ts)).
Proof.
  intros Hrun. pose proof (generateReport_cases o w) as Hcases.
  destruct (content (fs w) transitions_jsonl) as [data|]; [|congruence].
  destruct Hcases as [(e & He) | (ts & Hall & Hok)]; [congruence|].
  rewrite Hok in Hrun. injection Hrun as <- <-.
  exists data, ts. split; [reflexivity|]. split; [exact Hall|].
  split; [apply report_fold_total|].
  intros p Hne Hown. rewrite (phases_fold ts (report_start ts) p Hne Hown).
  cbn [report_start phases]. rewrite lookup_empty.
  unfold add_phase, phase_tally. destruct (into p ts); split; reflexivity.
Qed.

Lemma generateReport_counts_by_phase_witness :
  let w := sample.project (sample.only transitions_jsonl two_transitions) in
  let report := fold_left report_step [sample.into_design; sample.into_implement]
                  (report_start [sample.into_design; sample.into_implement]) in
  @generateReport sample.builtins calm w
    = (Returns (inl report), snd (@generateReport sample.builtins calm w)) /\
  totalTransitions report = 2 /\
  phases report !! "implement" = Some {| count := 1; totalDuration := 1000 |} /\
  count <$> phases report !! "test" = None.
Proof.
  intros w report.
  assert (@generateReport sample.builtins calm w
          = (Returns (inl report), snd (@generateReport sample.builtins calm w)))
    as Hrun by (vm_compute; reflexivity).
  split; [exact Hrun|].
  destruct (@generateReport_counts_by_phase sample.builtins calm w _ report Hrun)
    as (data & ts & Hdata & Hparse & Htotal & Hphases).
  injection Hdata as <-.
  replace (split LF (trim two_transitions))
    with [ sample.show_transition sample.into_design;
           sample.show_transition sample.into_implement ] in Hparse
    by (vm_compute; reflexivity).
  apply Forall2_cons_inv_l in Hparse as (t1 & ts1 & H1 & Hparse & ->).
  apply Forall2_cons_inv_l in Hparse as (t2 & ts2 & H2 & Hparse & ->).
  apply Forall2_nil_inv_l in Hparse as ->.
  vm_compute in H1. injection H1 as <-. vm_compute in H2. injection H2 as <-.
  split; [exact Htotal|]. split.
  - apply (Hphases "implement"); [discriminate| |].
    + intros Hin. apply (proj1 (list_elem_of_In _ _)) in Hin. simpl in Hin.
      intuition discriminate.
    + unfold exact_durations. vm_compute. discriminate.
  - apply (Hphases "test"); [discriminate|].
    intros Hin. apply (proj1 (list_elem_of_In _ _)) in Hin. simpl in Hin.
    intuition discriminate.
Defined.

(** X16.  The [filesChanged] of a report that [generateReport] returns has
    no duplicates and holds exactly the files that the lines of the log list;
    the report is also what was written to report.json. *)
Theorem generateReport_files_changed `{JsBuiltins}
    (o : Oracle) (w w' : World) (report : WorkflowReport) :
  generateReport o w = (Returns (inl report), w') ->
  exists data ts,
    content (fs w) transitions_jsonl = Some data /\
    Forall2 (fun line t => JSON_parse_transition line = Returns t) (split LF (trim data)) ts /\
    NoDup (filesChanged report) /\
    (forall f, f ∈ filesChanged report <-> f ∈ files_of ts) /\
    content (fs w') report_json = Some (JSON_stringify_report report).
Proof.
  intros Hrun. pose proof (generateReport_cases o w) as Hcases.
  destruct (content (fs w) transitions_jsonl) as [data|]; [|congruence].
  destruct Hcases as [(e & He) | (ts & Hall & Hok)]; [congruence|].
  rewrite Hok in Hrun. injection Hrun as <- <-.
  exists data, ts. split; [reflexivity|]. split; [exact Hall|].
  destruct (files_fold ts (report_start ts)) as [Hnd Hin].
  split; [apply Hnd; constructor|]. split.
  - intros f. rewrite Hin. cbn [report_start filesChanged]. rewrite elem_of_nil. tauto.
  - cbn. case_decide; [reflexivity|congruence].
Qed.

Lemma generateReport_files_changed_witness :
  let w := sample.project (sample.only transitions_jsonl two_transitions) in
  let report := fold_left report_step [sample.into_design; sample.into_implement]
                  (report_start [sample.into_design; sample.into_implement]) in
  exists data ts,
    content (fs w) transitions_jsonl = Some data /\
    Forall2 (fun line t => JSON_parse_transition (JsBuiltins := sample.builtins) line
                           = Returns t) (split LF (trim data)) ts /\
    NoDup (filesChanged report) /\
    (forall f, f ∈ filesChanged report <-> f ∈ files_of ts) /\
    content (fs (snd (@generateReport sample.builtins calm w))) report_json
      = Some (JSON_stringify_report (JsBuiltins := sample.builtins) report).
Proof.
  intros w report.
  apply (@generateReport_files_changed sample.builtins calm w
           (snd (@generateReport sample.builtins calm w)) report).
  vm_compute. reflexivity.
Defined.

(** ** The counters of the quality report *)

Lemma generateQualityReport_cases `{JsBuiltins} (o : Oracle) (w : World) :
  match content (fs w) quality_gates_jsonl with
  | None => generateQualityReport o w = (Returns None, w)
  | Some data =>
      (exists e, generateQualityReport o w = (Returns None, add_toast (report_failure e) w)) \/
      (exists logs,
         Forall2 (fun line l => JSON_parse_gatelog line = Returns l)
                 (split LF (trim data)) logs /\
         generateQualityReport o w =
           (Returns (Some (fold_left quality_step logs (quality_start logs))),
            set_fs (write_content quality_report_json
                      (JSON_stringify_quality
                         (fold_left quality_step logs (quality_start logs)))) w))
  end.
Proof.
  remember (generateQualityReport o w) as R eqn:HR.
  unfold generateQualityReport, existsSync, readFileSync, writeFileSync, gets in HR.
  unfold bind at 1 in HR.
  destruct (content (fs w) quality_gates_jsonl) as [data|] eqn:Hdata.
  - rewrite bool_decide_eq_true_2 in HR by (eexists; reflexivity). cbn [negb] in HR.
    unfold try_catch in HR. unfold bind at 1 in HR.
    destruct (io_error o (io_read quality_gates_jsonl)) as [e|];
      [left; exists e; exact HR|].
    rewrite Hdata in HR. unfold bind at 1 in HR.
    destruct (mapM_lift_cases JSON_parse_gatelog (split LF (trim data)) o w)
      as [(logs & Hall & Hrun) | (e & Hrun)]; rewrite Hrun in HR;
      [|left; exists e; exact HR].
    fold (quality_start logs) in HR. unfold bind at 1 in HR.
    destruct (io_error o (io_write quality_report_json)) as [e|];
      [left; exists e; exact HR|].
    destruct (workflowDir (fs w)); [|left; eexists; exact HR].
    right. exists logs. split; [exact Hall|exact HR].
  - rewrite bool_decide_eq_false_2 in HR by (intros [x Hx]; discriminate Hx). exact HR.
Qed.

Lemma stats_eq (a b c a' b' c' : nat) :
  a = a' -> b = b' -> c = c' ->
  Some {| total := a; s_passed := b; s_failed := c |}
  = Some {| total := a'; s_passed := b'; s_failed := c' |}.
Proof. intros -> -> ->. reflexivity. Qed.

Lemma by_transition_fold (logs : list GateLog) (report : QualityReport) (k : string) :
  k ∉ Object_prototype_names ->
  byTransition (fold_left quality_step logs report) !! k
  = add_tally (byTransition report !! k) (about k logs).
Proof.
  intros Hown. revert report. induction logs as [|log logs IH]; intros report.
  - cbn [fold_left about List.filter add_tally].
    destruct (byTransition report !! k) as [[a b c]|]; [|reflexivity].
    cbn. apply stats_eq; lia.
  - cbn [fold_left]. rewrite IH. unfold about at 2. cbn [List.filter].
    fold (about k logs). unfold quality_step at 1. cbn [byTransition].
    destruct (String.eqb (l_transition log) k) eqn:Hk.
    + apply String.eqb_eq in Hk. rewrite Hk. unfold get_property.
      destruct (byTransition report !! k) as [[a b c]|] eqn:Hlook.
      * rewrite lookup_insert_eq. unfold add_tally, count_where.
        cbn [default total s_passed s_failed List.filter length]. unfold id.
        destruct (l_passed log); cbn [negb length total s_passed s_failed];
          apply stats_eq; lia.
      * unfold array_includes. rewrite bool_decide_eq_false_2 by exact Hown.
        rewrite lookup_insert_eq. unfold add_tally, count_where.
        cbn [default total s_passed s_failed List.filter length]. unfold id.
        destruct (l_passed log); cbn [negb length total s_passed s_failed];
          apply stats_eq; lia.
    + apply String.eqb_neq in Hk.
      assert (forall v, <[l_transition log := v]> (byTransition report) !! k
                        = byTransition report !! k) as Hother
        by (intros v; apply lookup_insert_ne, Hk).
      destruct (get_property (byTransition report) (l_transition log));
        rewrite ?Hother; reflexivity.
Qed.

Lemma common_failures_fold (logs : list GateLog) (report : QualityReport) (f : string) :
  f ∉ Object_prototype_names ->
  commonFailures (fold_left quality_step logs report) !! f
  = add_failures (commonFailures report !! f) (failures_of f logs).
Proof.
  intros Hown. revert report. induction logs as [|log logs IH]; intros report.
  - cbn [fold_left failures_of List.filter add_failures].
    destruct (commonFailures report !! f) as [[n|]|]; unfold add_failures;
      cbn [length]; rewrite ?Nat.add_0_r; reflexivity.
  - cbn [fold_left]. rewrite IH. unfold failures_of at 2. cbn [List.filter].
    fold (failures_of f logs). unfold quality_step at 1. cbn [commonFailures].
    destruct (l_passed log); cbn [negb andb]; [reflexivity|].
    destruct (String.eqb (split_head colon (l_message log)) f) eqn:Hf.
    + apply String.eqb_eq in Hf. rewrite Hf. unfold get_property.
      destruct (commonFailures report !! f) as [[n|]|] eqn:Hlook.
      * rewrite lookup_insert_eq. cbn [add_failures length].
        do 2 f_equal. lia.
      * rewrite lookup_insert_eq. reflexivity.
      * unfold array_includes. rewrite bool_decide_eq_false_2 by exact Hown.
        rewrite lookup_insert_eq. cbn [add_failures length].
        destruct (failures_of f logs); reflexivity.
    + apply String.eqb_neq in Hf.
      assert (forall v, <[split_head colon (l_message log) := v]> (commonFailures report) !! f
                        = commonFailures report !! f) as Hother
        by (intros v; apply lookup_insert_ne, Hf).
      destruct (get_property (commonFailures report) (split_head colon (l_message log)))
        as [[n|]| |];
        try destruct (String.eqb _ "__proto__"); rewrite ?Hother; reflexivity.
Qed.

Lemma quality_fold_blocked (logs : list GateLog) (report : QualityReport) :
  q_blocked (fold_left quality_step logs report) = q_blocked report /\
  passRate (fold_left quality_step logs report) = passRate report.
Proof.
  revert report. induction logs as [|log logs IH]; intros report; [split; reflexivity|].
  cbn [fold_left]. destruct (IH (quality_step report log)) as (H1 & H2).
  rewrite H1, H2. split; reflexivity.
Qed.

Lemma count_where_le {A} (f : A -> bool) (xs : list A) : count_where f xs <= length xs.
Proof.
  unfold count_where. induction xs as [|x xs IH]; [reflexivity|].
  cbn [List.filter]. destruct (f x); cbn [length]; lia.
Qed.

(** X17.  Whenever [generateQualityReport] returns a report, the gate log
    was there and each of its lines parsed; for every transition whose key is
    not the name of an inherited member, the entry of [byTransition] holds the
    number of its records and how many of them passed and failed, and a
    transition without a record has no entry. *)
Theorem quality_report_counts_by_transition `{JsBuiltins}
    (o : Oracle) (w w' : World) (report : QualityReport) :
  generateQualityReport o w = (Returns (Some report), w') ->
  exists data logs,
    content (fs w) quality_gates_jsonl = Some data /\
    Forall2 (fun line l => JSON_parse_gatelog line = Returns l) (split LF (trim data)) logs /\
    forall k, k ∉ Object_prototype_names ->
      byTransition report !! k = tally (about k logs).
Proof.
  intros Hrun. pose proof (generateQualityReport_cases o w) as Hcases.
  destruct (content (fs w) quality_gates_jsonl) as [data|]; [|congruence].
  destruct Hcases as [(e & He) | (logs & Hall & Hok)]; [congruence|].
  rewrite Hok in Hrun. injection Hrun as <- _.
  exists data, logs. split; [reflexivity|]. split; [exact Hall|].
  intros k Hk. rewrite (by_transition_fold logs (quality_start logs) k Hk).
  cbn [quality_start byTransition]. rewrite lookup_empty.
  unfold add_tally, tally. destruct (about k logs); reflexivity.
Qed.

(** X18.  In such a report [commonFailures] counts the failed records by
    the part of their message before the first colon: for every such text that
    is not the name of an inherited member, the entry is the number of failed
    records that start with it, and there is no entry when there is none. *)
Theorem quality_report_counts_failures `{JsBuiltins}
    (o : Oracle) (w w' : World) (report : QualityReport) :
  generateQualityReport o w = (Returns (Some report), w') ->
  exists data logs,
    content (fs w) quality_gates_jsonl = Some data /\
    Forall2 (fun line l => JSON_parse_gatelog line = Returns l) (split LF (trim data)) logs /\
    forall f, f ∉ Object_prototype_names ->
      commonFailures report !! f = failure_tally (failures_of f logs).
Proof.
  intros Hrun. pose proof (generateQualityReport_cases o w) as Hcases.
  destruct (content (fs w) quality_gates_jsonl) as [data|]; [|congruence].
  destruct Hcases as [(e & He) | (logs & Hall & Hok)]; [congruence|].
  rewrite Hok in Hrun. injection Hrun as <- _.
  exists data, logs. split; [reflexivity|]. split; [exact Hall|].
  intros f Hf. rewrite (common_failures_fold logs (quality_start logs) f Hf).
  cbn [quality_start commonFailures]. rewrite lookup_empty. reflexivity.
Qed.

(** X19.  Every quality report that is returned counts at least one check;
    the passed and the failed checks add up to the total, the blocked ones are
    among them, the pass rate is the text of [toFixed(2)], never the number 0
    of the source's other branch, and the report is what was written to
    quality-report.json. *)
Theorem quality_report_headline `{JsBuiltins}
    (o : Oracle) (w w' : World) (report : QualityReport) :
  generateQualityReport o w = (Returns (Some report), w') ->
  1 <= totalChecks report /\
  q_passed report + q_failed report = totalChecks report /\
  q_blocked report <= totalChecks report /\
  passRate report = RateText (percent_toFixed2 (q_passed report) (totalChecks report)) /\
  content (fs w') quality_report_json = Some (JSON_stringify_quality report).
Proof.
  intros Hrun. pose proof (generateQualityReport_cases o w) as Hcases.
  destruct (content (fs w) quality_gates_jsonl) as [data|]; [|congruence].
  destruct Hcases as [(e & He) | (logs & Hall & Hok)]; [congruence|].
  rewrite Hok in Hrun. injection Hrun as <- <-.
  destruct (quality_fold_totals logs (quality_start logs)) as (H1 & H2 & H3).
  destruct (quality_fold_blocked logs (quality_start logs)) as (H4 & H5).
  rewrite H1, H2, H3, H4, H5. cbn [quality_start totalChecks q_passed q_failed q_blocked passRate].
  assert (1 <= length logs) as Hlen.
  { rewrite <- (Forall2_length _ _ _ Hall). apply split_length. }
  split; [exact Hlen|]. split; [apply count_where_split|].
  split; [apply count_where_le|]. split.
  - destruct (Nat.ltb_spec 0 (length logs)); [reflexivity|lia].
  - cbn. case_decide; [reflexivity|congruence].
Qed.

Lemma quality_report_counts_by_transition_witness :
  let w := sample.project
             (sample.only quality_gates_jsonl
                (sample.line (sample.show_gatelog sample.missing_design))) in
  let report := fold_left quality_step [sample.missing_design]
                  (@quality_start sample.builtins [sample.missing_design]) in
  @generateQualityReport sample.builtins calm w
    = (Returns (Some report), snd (@generateQualityReport sample.builtins calm w)) /\
  byTransition report !! "design→implement"
    = Some {| total := 1; s_passed := 0; s_failed := 1 |} /\
  byTransition report !! "test→review" = None.
Proof.
  intros w report.
  assert (@generateQualityReport sample.builtins calm w
          = (Returns (Some report), snd (@generateQualityReport sample.builtins calm w)))
    as Hrun by (vm_compute; reflexivity).
  split; [exact Hrun|].
  destruct (@quality_report_counts_by_transition sample.builtins calm w _ report Hrun)
    as (data & logs & Hdata & Hparse & Hby).
  injection Hdata as <-.
  replace (split LF (trim (sample.line (sample.show_gatelog sample.missing_design))))
    with [ sample.show_gatelog sample.missing_design ] in Hparse
    by (vm_compute; reflexivity).
  apply Forall2_cons_inv_l in Hparse as (l1 & logs1 & H1 & Hparse & ->).
  apply Forall2_nil_inv_l in Hparse as ->.
  vm_compute in H1. injection H1 as <-.
  split.
  - apply (Hby "design→implement"). exact (transition_key_not_inherited "design" "implement").
  - apply (Hby "test→review"). exact (transition_key_not_inherited "test" "review").
Defined.

Lemma quality_report_counts_failures_witness :
  let w := sample.project
             (sample.only quality_gates_jsonl
                (sample.line (sample.show_gatelog sample.missing_design))) in
  let report := fold_left quality_step [sample.missing_design]
                  (@quality_start sample.builtins [sample.missing_design]) in
  @generateQualityReport sample.builtins calm w
    = (Returns (Some report), snd (@generateQualityReport sample.builtins calm w)) /\
  commonFailures report !! l_message sample.missing_design = Some (Count 1).
Proof.
  intros w report.
  assert (@generateQualityReport sample.builtins calm w
          = (Returns (Some report), snd (@generateQualityReport sample.builtins calm w)))
    as Hrun by (vm_compute; reflexivity).
  split; [exact Hrun|].
  destruct (@quality_report_counts_failures sample.builtins calm w _ report Hrun)
    as (data & logs & Hdata & Hparse & Hcommon).
  injection Hdata as <-.
  replace (split LF (trim (sample.line (sample.show_gatelog sample.missing_design))))
    with [ sample.show_gatelog sample.missing_design ] in Hparse
    by (vm_compute; reflexivity).
  apply Forall2_cons_inv_l in Hparse as (l1 & logs1 & H1 & Hparse & ->).
  apply Forall2_nil_inv_l in Hparse as ->.
  vm_compute in H1. injection H1 as <-.
  apply (Hcommon (l_message sample.missing_design)).
  intros Hin. apply (proj1 (list_elem_of_In _ _)) in Hin. simpl in Hin.
  intuition discriminate.
Defined.

Lemma quality_report_headline_witness :
  let w := sample.project
             (sample.only quality_gates_jsonl
                (sample.line (sample.show_gatelog sample.missing_design))) in
  let report := fold_left quality_step [sample.missing_design]
                  (@quality_start sample.builtins [sample.missing_design]) in
  1 <= totalChecks report /\
  q_passed report + q_failed report = totalChecks report /\
  q_blocked report <= totalChecks report /\
  passRate report
    = RateText (percent_toFixed2 (JsBuiltins := sample.builtins)
                  (q_passed report) (totalChecks report)) /\
  content (fs (snd (@generateQualityReport sample.builtins calm w))) quality_report_json
    = Some (JSON_stringify_quality (JsBuiltins := sample.builtins) report).
Proof.
  intros w report.
  apply (@quality_report_headline sample.builtins calm w
           (snd (@generateQualityReport sample.builtins calm w)) report).
  vm_compute. reflexivity.
Defined.

(** X20.  The gate log is read back as it was written: when the file holds
    N >= 1 records, each written as [logGateCheck] writes it (the text of
    [JSON.stringify], an object on one line, then a newline) and each read back
    by [JSON.parse] as the record it was, the quality report counts N checks,
    the passed, the failed and the blocked ones among the N records, and each
    transition's records under its key. *)
Theorem quality_report_of_written_log `{JsBuiltins}
    (o : Oracle) (w : World) (logs : list GateLog) :
  logs <> [] ->
  content (fs w) quality_gates_jsonl = Some (unlines (JSON_stringify_gatelog <$> logs)) ->
  Forall (fun l => object_line (JSON_stringify_gatelog l) /\
                   JSON_parse_gatelog (JSON_stringify_gatelog l) = Returns l) logs ->
  io_error o (io_read quality_gates_jsonl) = None ->
  io_error o (io_write quality_report_json) = None ->
  workflowDir (fs w) = true ->
  exists report w',
    generateQualityReport o w = (Returns (Some report), w') /\
    totalChecks report = length logs /\
    q_passed report = count_where l_passed logs /\
    q_failed report = count_where (fun l => negb (l_passed l)) logs /\
    q_blocked report = count_where blocked logs /\
    (forall k, k ∉ Object_prototype_names -> byTransition report !! k = tally (about k logs)).
Proof.
  intros Hne Hdata Hlogs Hread Hwrite Hdir.
  assert (split LF (trim (unlines (JSON_stringify_gatelog <$> logs)))
          = JSON_stringify_gatelog <$> logs) as Hlines.
  { apply written_log_lines.
    - destruct logs; [congruence|discriminate].
    - apply Forall_fmap. eapply Forall_impl; [exact Hlogs|]. intros l [Hl _]. exact Hl. }
  assert (Forall2 (fun line l => JSON_parse_gatelog line = Returns l)
            (JSON_stringify_gatelog <$> logs) logs) as Hparse.
  { clear -Hlogs. induction Hlogs as [|l logs [_ Hl] _ IH]; constructor; assumption. }
  unfold generateQualityReport, existsSync, readFileSync, writeFileSync, gets.
  unfold bind at 1. rewrite Hdata.
  rewrite bool_decide_eq_true_2 by (eexists; reflexivity). cbn [negb].
  unfold try_catch. unfold bind at 1. rewrite Hread, Hdata.
  unfold bind at 1. rewrite Hlines.
  rewrite (mapM_lift_returns _ _ logs o w Hparse).
  fold (quality_start logs).
  unfold bind at 1. rewrite Hwrite, Hdir.
  do 2 eexists. split; [reflexivity|].
  destruct (quality_fold_totals logs (quality_start logs)) as (H1 & H2 & H3).
  destruct (quality_fold_blocked logs (quality_start logs)) as (H4 & _).
  rewrite H1, H2, H3, H4. do 4 (split; [reflexivity|]).
  intros k Hk. rewrite (by_transition_fold logs (quality_start logs) k Hk).
  cbn [quality_start byTransition]. rewrite lookup_empty.
  unfold add_tally, tally. destruct (about k logs); reflexivity.
Qed.

Lemma quality_report_of_written_log_witness :
  exists report w',
    @generateQualityReport sample.builtins calm
      (sample.project
         (sample.only quality_gates_jsonl
            (sample.line (sample.show_gatelog sample.missing_design))))
      = (Returns (Some report), w') /\
    totalChecks report = 1 /\ q_passed report = 0 /\ q_failed report = 1 /\
    q_blocked report = 0 /\
    byTransition report !! "design→implement"
      = Some {| total := 1; s_passed := 0; s_failed := 1 |}.
Proof.
  destruct (@quality_report_of_written_log sample.builtins calm
              (sample.project
                 (sample.only quality_gates_jsonl
                    (sample.line (sample.show_gatelog sample.missing_design))))
              [sample.missing_design])
    as (report & w' & Hrun & Ht & Hp & Hf & Hb & Hby);
    try reflexivity; try discriminate.
  - constructor; [|constructor]. split; [|reflexivity].
    eexists. split; [reflexivity|]. reflexivity.
  - exists report, w'. split; [exact Hrun|]. repeat (split; [assumption|]).
    apply (Hby "design→implement"). exact (transition_key_not_inherited "design" "implement").
Defined.

(** ** The session events of the quality gate *)

(** X21.  [generateQualityReport] never throws.  Without a gate log it
    returns [null] and does nothing; when reading, parsing or writing fails it
    shows one error notification, returns [null] and writes nothing; otherwise
    it returns the report and writes it to quality-report.json.  No other file
    and no tracker state changes. *)
Theorem generateQualityReport_never_throws `{JsBuiltins} (o : Oracle) (w : World) :
  exists result w',
    generateQualityReport o w = (Returns result, w') /\
    wf w' = wf w /\ spawned w' = spawned w /\
    (forall f, f <> quality_report_json -> content (fs w') f = content (fs w) f) /\
    match result with
    | Some report =>
        toasts w' = toasts w /\
        content (fs w') quality_report_json = Some (JSON_stringify_quality report)
    | None =>
        fs w' = fs w /\
        match content (fs w) quality_gates_jsonl with
        | None => toasts w' = toasts w
        | Some _ => exists e, toasts w' = (toasts w ++ [report_failure e])%list
        end
    end.
Proof.
  pose proof (generateQualityReport_cases o w) as Hcases.
  destruct (content (fs w) quality_gates_jsonl) as [data|].
  - destruct Hcases as [(e & Hrun) | (logs & _ & Hrun)]; rewrite Hrun.
    + exists None. eexists. split; [reflexivity|]. cbn. repeat split.
      exists e. reflexivity.
    + eexists (Some _). eexists. split; [reflexivity|]. cbn.
      split; [reflexivity|]. split; [reflexivity|]. split.
      * intros f Hf. case_decide; [congruence|reflexivity].
      * split; [reflexivity|]. case_decide; [reflexivity|congruence].
  - rewrite Hcases. exists None, w. repeat split.
Qed.

Lemma nextPhases_lookup (cp : string) :
  nextPhases !! cp =
  if String.eqb cp "design" then Some "implement"
  else if String.eqb cp "implement" then Some "test"
  else if String.eqb cp "test" then Some "review"
  else if String.eqb cp "review" then Some "release"
  else None.
Proof.
  unfold nextPhases. cbn [list_to_map foldr uncurry fst snd].
  destruct (String.eqb_spec cp "design") as [->|H1]; [apply lookup_insert_eq|].
  rewrite lookup_insert_ne by congruence.
  destruct (String.eqb_spec cp "implement") as [->|H2]; [apply lookup_insert_eq|].
  rewrite lookup_insert_ne by congruence.
  destruct (String.eqb_spec cp "test") as [->|H3]; [apply lookup_insert_eq|].
  rewrite lookup_insert_ne by congruence.
  destruct (String.eqb_spec cp "review") as [->|H4]; [apply lookup_insert_eq|].
  rewrite lookup_insert_ne by congruence.
  apply lookup_empty.
Qed.

Lemma nextPhases_gated (cp np : string) :
  nextPhases !! cp = Some np <-> (cp, np) ∈ gated_pairs.
Proof.
  rewrite nextPhases_lookup. unfold gated_pairs. split.
  - repeat match goal with
           | |- context [String.eqb cp ?k] =>
               destruct (String.eqb_spec cp k) as [->|?]; [intros [= <-]; set_solver|]
           end.
    discriminate.
  - intros Hin.
    repeat (apply elem_of_cons in Hin as [[= -> ->]|Hin]; [reflexivity|]).
    apply elem_of_nil in Hin. contradiction.
Qed.

Lemma inherited_key_not_gated (cp x : string) :
  cp ∈ Object_prototype_names -> cp +:+ arrow +:+ x ∉ defined_gates.
Proof.
  intros Hproto Hin. apply defined_key_phases in Hin. unfold gated_pairs in Hin.
  unfold Object_prototype_names in Hproto.
  repeat (apply elem_of_cons in Hin as [[= -> ->]|Hin];
          [ repeat (apply elem_of_cons in Hproto as [Heq|Hproto]; [discriminate Heq|]);
            apply elem_of_nil in Hproto; contradiction | ]).
  apply elem_of_nil in Hin. contradiction.
Qed.

(** X22.  While the session is idle in a phase that has a successor, the
    [event] hook evaluates the gate of the transition to the successor.  A
    failure is shown as a reminder in warning mode and kept silent in strict
    mode; the hook does nothing beyond the evaluation of the gate and returns
    normally. *)
Theorem idle_reminder `{JsBuiltins} (inherited_text : string -> string)
    (cfg : Config) (cp np : string) (o : Oracle) (w w1 : World) (r : GateResult) :
  currentPhase (wf w) = Some cp ->
  (cp, np) ∈ gated_pairs ->
  validateGate (coverageThreshold cfg) (cp +:+ arrow +:+ np) o w = (Returns r, w1) ->
  event inherited_text cfg "session.idle" o w =
    (Returns tt,
     if negb (passed r) && negb (strictMode cfg)
     then add_toast (toast_info, "Quality gate reminder: " +:+ message r) w1
     else w1).
Proof.
  intros Hcp Hpair Hgate. pose proof (proj2 (nextPhases_gated cp np) Hpair) as Hnext.
  assert (JsString.truthy cp = true /\ JsString.truthy np = true) as [Tcp Tnp].
  { unfold gated_pairs in Hpair.
    repeat (apply elem_of_cons in Hpair as [[= -> ->]|Hpair]; [split; reflexivity|]).
    apply elem_of_nil in Hpair. contradiction. }
  unfold event. change (String.eqb "session.idle" "session.idle") with true.
  change (String.eqb "session.idle" "session.deleted") with false.
  cbv beta iota. unfold bind at 1. unfold bind at 1. unfold getCurrentPhase at 1, gets.
  rewrite Hcp, Tcp. unfold get_property. rewrite Hnext, Tnp.
  unfold remind, bind. rewrite Hgate.
  destruct (negb (passed r) && negb (strictMode cfg)); reflexivity.
Qed.

(** X23.  The [event] hook never throws, whatever the event, the
    configuration and the environment: a gate that cannot run is a failed
    result and a quality report that cannot be made is a notification.  The
    hook leaves the tracker state alone and writes no file but
    quality-report.json, and that only when the session is deleted. *)
Theorem event_never_throws `{JsBuiltins} (inherited_text : string -> string)
    (cfg : Config) (type : string) (o : Oracle) (w : World) :
  exists w',
    event inherited_text cfg type o w = (Returns tt, w') /\
    wf w' = wf w /\
    workflowDir (fs w') = workflowDir (fs w) /\
    (forall f, f <> quality_report_json -> content (fs w') f = content (fs w) f) /\
    (type <> "session.deleted" -> fs w' = fs w).
Proof.
  assert (forall key o w, exists w',
            remind cfg key o w = (Returns tt, w') /\ wf w' = wf w /\ fs w' = fs w)
    as Hremind.
  { intros key o0 w0. unfold remind, bind.
    destruct (validateGate_cases (coverageThreshold cfg) key o0 w0)
      as (r & w1 & st & Hrun & Hw & _).
    rewrite Hrun. destruct Hw as (Hwf & Hfs & _).
    destruct (negb (passed r) && negb (strictMode cfg));
      eexists; (split; [reflexivity|]); split; assumption. }
  unfold event.
  destruct (String.eqb_spec type "session.idle") as [->|Hidle].
  - change (String.eqb "session.idle" "session.deleted") with false.
    assert (exists w',
              (let* currentPhase := getCurrentPhase in
               match currentPhase with
               | Some current =>
                   if JsString.truthy current then
                     match get_property nextPhases current with
                     | Own nextPhase =>
                         if JsString.truthy nextPhase
                         then remind cfg (current +:+ arrow +:+ nextPhase) else ret tt
                     | Inherited => remind cfg (current +:+ arrow +:+ inherited_text current)
                     | Absent => ret tt
                     end
                   else ret tt
               | None => ret tt
               end) o w = (Returns tt, w') /\ wf w' = wf w /\ fs w' = fs w)
      as (w' & Hrun & Hwf & Hfs).
    { unfold bind at 1. unfold getCurrentPhase at 1, gets.
      destruct (currentPhase (wf w)) as [cp|]; [|exists w; repeat split].
      destruct (JsString.truthy cp); [|exists w; repeat split].
      destruct (get_property nextPhases cp) as [np| |]; [| |exists w; repeat split].
      - destruct (JsString.truthy np); [apply Hremind|exists w; repeat split].
      - apply Hremind. }
    exists w'. unfold bind at 1. rewrite Hrun. cbv beta iota.
    split; [reflexivity|]. rewrite Hfs. repeat split; assumption.
  - unfold bind at 1. cbn [ret].
    destruct (String.eqb_spec type "session.deleted") as [->|Hdel].
    + pose proof (generateQualityReport_cases o w) as Hcases. unfold bind.
      destruct (content (fs w) quality_gates_jsonl) as [data|].
      * destruct Hcases as [(e & Hrun) | (logs & _ & Hrun)]; rewrite Hrun;
          eexists; (split; [reflexivity|]); cbn; repeat split; try congruence.
        intros f Hf. case_decide; [congruence|reflexivity].
      * rewrite Hcases. exists w. repeat split.
    + exists w. repeat split.
Qed.

Lemma idle_reminder_witness :
  @event sample.builtins (fun _ => "[object Object]") warning_mode "session.idle" calm
    design_phase
  = (Returns tt,
     add_toast (toast_info, "Quality gate reminder: " +:+ message no_design_files)
       (tick (add_spawned find_design_files design_phase))) /\
  @event sample.builtins (fun _ => "[object Object]") strict_mode "session.idle" calm
    design_phase
  = (Returns tt, tick (add_spawned find_design_files design_phase)).
Proof.
  split.
  - apply (@idle_reminder sample.builtins _ warning_mode "design" "implement" calm
             design_phase (tick (add_spawned find_design_files design_phase))
             no_design_files); try reflexivity.
    unfold gated_pairs. constructor.
  - apply (@idle_reminder sample.builtins _ strict_mode "design" "implement" calm
             design_phase (tick (add_spawned find_design_files design_phase))
             no_design_files); try reflexivity.
    unfold gated_pairs. constructor.
Defined.

(** ** The check-quality-gate tool *)

Ltac tool_leaf :=
  do 3 eexists; split; [reflexivity|]; split; [reflexivity|];
  repeat split; simpl; rewrite <- ?app_assoc; reflexivity.

(** X24.  When the six commands that test for a file or a setting can run,
    the check-quality-gate tool answers, for each of the four transitions,
    with the message of the plugin's gate for the threshold 80 (given that 80
    is rendered as its decimal text): the two start the same processes,
    whatever the other processes do.  The tool reads no clock and changes no
    file, tracker state or notification. *)
Theorem execute_agrees_with_plugin_gate `{JsBuiltins}
    (inherited_call : string -> Outcome (option string))
    (key : string) (o : Oracle) (w : World) :
  key ∈ defined_gates ->
  (forall c, c ∈ probes -> exists out, shell o c = Returns out) ->
  Number_toString (of_Z 80) = "80" ->
  exists r w1 w2,
    validateGate (of_Z 80) key o w = (Returns r, w1) /\
    check_quality_gate.execute inherited_call key o w = (Returns (Some (message r)), w2) /\
    spawned w2 = spawned w1 /\ ticks w2 = ticks w /\
    fs w2 = fs w /\ wf w2 = wf w /\ toasts w2 = toasts w.
Proof.
  intros Hkey Hprobes H80. unfold defined_gates in Hkey.
  assert (forall c, c ∈ probes -> exists out, shell o c = Returns out) as Hp by exact Hprobes.
  destruct (Hp find_design_files) as (o1 & P1); [unfold probes; repeat constructor|].
  destruct (Hp test_tsconfig) as (o2 & P2); [unfold probes; repeat constructor|].
  destruct (Hp test_eslint_config) as (o3 & P3); [unfold probes; repeat constructor|].
  destruct (Hp grep_npm_test) as (o4 & P4); [unfold probes; repeat constructor|].
  destruct (Hp test_coverage_file) as (o5 & P5); [unfold probes; repeat constructor|].
  destruct (Hp test_changelog) as (o6 & P6); [unfold probes; repeat constructor|].
  clear Hp Hprobes.
  repeat (apply elem_of_cons in Hkey as [->|Hkey]);
    [ | | | | apply elem_of_nil in Hkey; contradiction ].
  - change (validateGate (of_Z 80) "design→implement") with quality_gate.design_implement.
    change (check_quality_gate.execute inherited_call "design→implement")
      with (let* res := check_quality_gate.design_implement in ret (Some (check_quality_gate.v_message res))).
    unfold quality_gate.design_implement, check_quality_gate.design_implement. unfold_gate.
    gate_cases o; try congruence; tool_leaf.
  - change (validateGate (of_Z 80) "implement→test") with quality_gate.implement_test.
    change (check_quality_gate.execute inherited_call "implement→test")
      with (let* res := check_quality_gate.implement_test in ret (Some (check_quality_gate.v_message res))).
    unfold quality_gate.implement_test, check_quality_gate.implement_test. unfold_gate.
    gate_cases o; try congruence; tool_leaf.
  - change (validateGate (of_Z 80) "test→review") with (quality_gate.test_review (of_Z 80)).
    change (check_quality_gate.execute inherited_call "test→review")
      with (let* res := check_quality_gate.test_review in ret (Some (check_quality_gate.v_message res))).
    unfold quality_gate.test_review, check_quality_gate.test_review, coverage_message. unfold_gate.
    rewrite H80. gate_cases o; try congruence; tool_leaf.
  - change (validateGate (of_Z 80) "review→release") with quality_gate.review_release.
    change (check_quality_gate.execute inherited_call "review→release")
      with (let* res := check_quality_gate.review_release in ret (Some (check_quality_gate.v_message res))).
    unfold quality_gate.review_release, check_quality_gate.review_release. unfold_gate.
    gate_cases o; try congruence; tool_leaf.
Qed.

(** X25.  The check-quality-gate tool has no handler around its [find]:
    when that command fails, the tool throws the error, having started
    nothing else, where the plugin's gate for the same transition returns a
    failed result that quotes the error. *)
Theorem execute_throws_when_find_fails `{JsBuiltins}
    (inherited_call : string -> Outcome (option string))
    (T : number) (o : Oracle) (w : World) (e : string) :
  shell o find_design_files = Throws e ->
  check_quality_gate.execute inherited_call "design→implement" o w
    = (Throws e, add_spawned find_design_files w) /\
  exists r w1,
    validateGate T "design→implement" o w = (Returns r, w1) /\
    passed r = false /\
    message r = "❌ Error checking design files: " +:+ e /\
    spawned w1 = spawned (add_spawned find_design_files w).
Proof.
  intros Hfind. split.
  - change (check_quality_gate.execute inherited_call "design→implement")
      with (let* res := check_quality_gate.design_implement in
            ret (Some (check_quality_gate.v_message res))).
    unfold check_quality_gate.design_implement. unfold_gate. rewrite Hfind. reflexivity.
  - change (validateGate T "design→implement") with quality_gate.design_implement.
    unfold quality_gate.design_implement. unfold_gate. rewrite Hfind.
    do 2 eexists. split; [reflexivity|]. repeat split.
Qed.

(** X26.  The tool compares the coverage with 80 and nothing else: the
    tests passing or not being configured, a readable coverage file that
    reports [c] makes it answer with the coverage failure exactly when
    [c < 80], whatever QUALITY_GATE_COVERAGE_THRESHOLD is set to. *)
Theorem execute_compares_coverage_with_80 `{JsBuiltins}
    (inherited_call : string -> Outcome (option string))
    (c : Q) (o : Oracle) (w : World) (tests probe data : ShellOutput) :
  shell o grep_npm_test = Returns tests ->
  (says_true (stdout tests) = true -> exists out, shell o npm_test = Returns out) ->
  shell o test_coverage_file = Returns probe ->
  says_true (stdout probe) = true ->
  shell o cat_coverage_file = Returns data ->
  JSON_parse_coverage (stdout data) = Returns (reports c) ->
  exists w' text,
    check_quality_gate.execute inherited_call "test→review" o w = (Returns (Some text), w') /\
    ((c < 80)%Q ->
     text = "❌ Coverage is " +:+ Number_toString (totalCoverage (reports c)) +:+
            "%. Must be >80% before review.") /\
    (~ (c < 80)%Q -> text = "✅ Tests pass with sufficient coverage").
Proof.
  intros Hgrep Hsuite Hprobe Hsays Hcat Hparse.
  pose proof (lt_reported c 80) as Hlt.
  change (or_zero (Some (Finite c))) with (totalCoverage (reports c)) in Hlt.
  change (inject_Z 80) with 80%Q in Hlt.
  change (check_quality_gate.execute inherited_call "test→review")
    with (let* res := check_quality_gate.test_review in ret (Some (check_quality_gate.v_message res))).
  unfold check_quality_gate.test_review. unfold_gate. rewrite Hgrep. cbn [stdout].
  destruct (says_true (stdout tests)) eqn:Hs;
    [destruct (Hsuite eq_refl) as (out & Hout); cbn [fst snd]; rewrite Hout|];
    cbn [fst snd]; rewrite Hprobe; cbn [stdout fst snd]; rewrite Hsays;
    cbn [fst snd]; rewrite Hcat; cbn [stdout fst snd]; rewrite Hparse; cbn [fst snd].
  all: destruct (lt (totalCoverage (reports c)) (of_Z 80)) eqn:E;
    do 2 eexists; (split; [reflexivity|]); cbn [check_quality_gate.v_message]; split.
  all: try (intros _; reflexivity).
  all: try (intros Hlow; apply Hlt in Hlow; discriminate Hlow).
  all: intros Hhigh; exfalso; apply Hhigh, Hlt; reflexivity.
Qed.

Lemma execute_throws_when_find_fails_witness :
  @check_quality_gate.execute sample.builtins (fun _ => Returns None) "design→implement"
    find_fails design_phase
    = (Throws permission_denied, add_spawned find_design_files design_phase) /\
  exists r w1,
    @validateGate sample.builtins (of_Z 80) "design→implement" find_fails design_phase
      = (Returns r, w1) /\
    passed r = false /\
    message r = "❌ Error checking design files: " +:+ permission_denied /\
    spawned w1 = spawned (add_spawned find_design_files design_phase).
Proof.
  apply (@execute_throws_when_find_fails sample.builtins (fun _ => Returns None)
           (of_Z 80) find_fails design_phase permission_denied).
  reflexivity.
Defined.

Lemma execute_agrees_with_plugin_gate_witness :
  exists r w1 w2,
    @validateGate sample.builtins (of_Z 80) "test→review"
      (with_coverage (sample.says (sample.show_coverage (of_Z 72)))) design_phase
      = (Returns r, w1) /\
    @check_quality_gate.execute sample.builtins (fun _ => Returns None) "test→review"
      (with_coverage (sample.says (sample.show_coverage (of_Z 72)))) design_phase
      = (Returns (Some (message r)), w2) /\
    spawned w2 = spawned w1 /\ ticks w2 = ticks design_phase /\
    fs w2 = fs design_phase /\ wf w2 = wf design_phase /\ toasts w2 = toasts design_phase.
Proof.
  apply (@execute_agrees_with_plugin_gate sample.builtins (fun _ => Returns None)
           "test→review" (with_coverage (sample.says (sample.show_coverage (of_Z 72))))
           design_phase).
  - unfold defined_gates. repeat constructor.
  - intros c Hc. unfold probes in Hc.
    repeat (apply elem_of_cons in Hc as [->|Hc]; [eexists; reflexivity|]).
    apply elem_of_nil in Hc. contradiction.
  - reflexivity.
Defined.

Lemma execute_compares_coverage_with_80_witness :
  exists w' text,
    @check_quality_gate.execute sample.builtins (fun _ => Returns None) "test→review"
      (with_coverage (sample.says (sample.show_coverage (of_Z 85)))) design_phase
      = (Returns (Some text), w') /\
    text = "✅ Tests pass with sufficient coverage".
Proof.
  destruct (@execute_compares_coverage_with_80 sample.builtins (fun _ => Returns None) 85
              (with_coverage (sample.says (sample.show_coverage (of_Z 85)))) design_phase
              {| exitCode := 0; stdout := sample.line "false" |}
              {| exitCode := 0; stdout := sample.line "true" |}
              {| exitCode := 0; stdout := sample.line (sample.show_coverage (of_Z 85)) |})
    as (w' & text & Hrun & _ & Hhigh); try reflexivity; try discriminate.
  exists w', text. split; [exact Hrun|]. apply Hhigh. intros Hlow. discriminate Hlow.
Defined.

(** ** The WorkflowTracker plugin *)





